(** * Osprey: strategies and the trial runner

    A shallow embedding of [osprey/strategies.py] and of
    [osprey/execute_worker.py], and the properties of the strategy engine
    and of the trial life cycle proved on it.

    Conventions of the embedding.
    - A Python [dict] with string keys is a [gmap string _].
    - A Python float is a rational ([Q]); arithmetic is exact.  The
      functions of NumPy and SciPy that leave the rationals ([sqrt], [log],
      [exp], the normal density) are operations of the [Libraries] class.
    - A call that can raise returns an [outcome]; a method that mutates its
      object returns the new object next to the outcome, also when it
      raises, as the mutations made before a [raise] are kept in Python.
    - The libraries the code calls (NumPy's generator, SALib, GPy, SciPy's
      minimiser, hyperopt) are operations of the [Libraries] class; the
      per-variable operations of [search_space.py] are among them. *)

From Stdlib Require Import ZArith QArith Lia Ascii String.
From stdpp Require Import gmap strings list sorting.

#[local] Open Scope Z_scope.

(** ** Python values, exceptions, outcomes *)

Inductive value : Type :=
| VNone
| VBool (b : bool)
| VInt (z : Z)
| VFloat (q : Q)
| VStr (s : string).

(** The numeric reading of a value, for [==] across [bool], [int] and
    [float]. *)
Definition value_num (v : value) : option Q :=
  match v with
  | VBool b => Some (if b then 1%Q else 0%Q)
  | VInt z => Some (inject_Z z)
  | VFloat q => Some q
  | VNone | VStr _ => None
  end.

(** Python's [==] on values. *)
Definition value_eqb (a b : value) : bool :=
  match a, b with
  | VNone, VNone => true
  | VStr s, VStr s' => String.eqb s s'
  | _, _ =>
      match value_num a, value_num b with
      | Some x, Some y => Qeq_bool x y
      | _, _ => false
      end
  end.

(** A parameter mapping, [dict] from names to values. *)
Abbreviation params := (gmap string value).

Inductive exn : Type :=
| RuntimeError (msg : string)
| ImportError (msg : string)
| IndexError
| KeyError (key : string)
| AssertionError
| ZeroDivisionError
| ValueError
| TypeError
| AttributeError
| UnboundLocalError
| LinAlgError.

Inductive outcome (A : Type) : Type :=
| Return (a : A)
| Raise (e : exn).
Arguments Return {A} a.
Arguments Raise {A} e.

#[global] Instance outcome_ret : MRet outcome := @Return.
#[global] Instance outcome_bind : MBind outcome := fun A B k m =>
  match m with
  | Return a => k a
  | Raise e => Raise e
  end.

(** ** History *)

(** The three status strings of a trial. *)
Definition SUCCEEDED : string := "SUCCEEDED".
Definition PENDING : string := "PENDING".
Definition FAILED : string := "FAILED".

(** The scores of a history entry: nothing yet, one mean score, or the
    non-empty sequence of the per-fold scores. *)
Inductive scores : Type :=
| ScoreNone
| ScoreScalar (s : Q)
| ScoreSeq (s : Q) (rest : list Q).

(** A history entry is the tuple [(params, scores, status)]; the status is
    the string the code compares. *)
Definition entry : Type := params * scores * string.
Abbreviation history := (list entry).

(** The statuses that the strategies know. *)
Definition recognized (st : string) : Prop := st ∈ [SUCCEEDED; PENDING; FAILED].

(** The succeeded entries of a history. *)
Definition succeeded (h : history) : history := filter (fun e => e.2 = SUCCEEDED) h.

Definition Qsum (l : list Q) : Q := foldr Qplus 0%Q l.

(** [np.mean] *)
Definition np_mean (s : scores) : outcome Q :=
  match s with
  | ScoreNone => Raise TypeError
  | ScoreScalar x => Return x
  | ScoreSeq x rest =>
      Return (Qsum (x :: rest) / inject_Z (Z.of_nat (length (x :: rest))))%Q
  end.

(** [np.var]: the mean of the squared deviations from the mean. *)
Definition np_var (s : scores) : outcome Q :=
  match s with
  | ScoreNone => Raise TypeError
  | ScoreScalar x => Return 0%Q
  | ScoreSeq x rest =>
      let l := x :: rest in
      let n := inject_Z (Z.of_nat (length l)) in
      let m := (Qsum l / n)%Q in
      Return (Qsum ((fun y => (y - m) * (y - m))%Q <$> l) / n)%Q
  end.

(** ** Variables *)

(** Modelled from the spec: the variables of [search_space.py], which is
    not among the sources: a variable has a unique name and is categorical
    ([EnumVariable], with its choices), integer-bounded or
    continuous-bounded. *)
Inductive variable : Type :=
| EnumVariable (name : string) (choices : list value)
| IntVariable (name : string) (min max : Z)
| FloatVariable (name : string) (min max : Q).

Definition name (v : variable) : string :=
  match v with
  | EnumVariable n _ | IntVariable n _ _ | FloatVariable n _ _ => n
  end.

(** [isinstance(v, EnumVariable)] *)
Definition is_EnumVariable (v : variable) : bool :=
  match v with EnumVariable _ _ => true | _ => false end.

(** [v.choices], read only on enum variables. *)
Definition choices (v : variable) : list value :=
  match v with EnumVariable _ c => c | _ => [] end.

(** [dict(pairs)]: a later pair overrides an earlier one with the same key. *)
Definition dict {V} (pairs : list (string * V)) : gmap string V :=
  fold_left (fun d kv => <[kv.1 := kv.2]> d) pairs ∅.

(** A string between double quotes. *)
Definition quoted (s : string) : string :=
  String "034"%char (s +:+ String "034"%char EmptyString).

(** ** hyperopt's trial documents *)

(** The status constants of hyperopt. *)
Definition STATUS_OK : string := "ok".
Definition STATUS_RUNNING : string := "running".
Definition STATUS_FAIL : string := "fail".

(** The [result] dict of a trial document: [loss] is present only in the
    result of a succeeded entry. *)
Record hp_result : Type := mk_result {
  loss : option Q;
  status : string
}.

(** A trial document, as [insert_trial_doc] gets it.  The fixed fields
    ([cmd], [workdir], [owner], [spec], [book_time], [exp_key],
    [refresh_time], [version]) carry no information and are left out. *)
Record trial_doc : Type := mk_doc {
  misc_idxs : gmap string (list nat);
  misc_tid : nat;
  misc_vals : gmap string (list value);
  result : hp_result;
  tid : nat;
  state : Z
}.

(** Which random argument the installed [fmin] takes. *)
Inductive fmin_signature : Type := HasRstate | HasRseed | HasNeither.

(** ** SciPy's minimiser *)

(** A run of [scipy.optimize.minimize] on an objective it does not know:
    it asks for the objective at a point and goes on from the value, or
    stops with its result ([res.x], [res.fun]). *)
Inductive optimizer : Type :=
| Stop (x : list Q) (fun_ : Q)
| Ask (x : list Q) (next : Q -> optimizer).

(** The run against an objective that may raise: an exception of the
    objective leaves the minimiser. *)
Fixpoint run_optimizer (o : optimizer) (z : list Q -> outcome Q)
  : outcome (list Q * Q) :=
  match o with
  | Stop x f => Return (x, f)
  | Ask x next =>
      match z x with
      | Return y => run_optimizer (next y) z
      | Raise e => Raise e
      end
  end.

(** The points at which the run evaluates the objective. *)
Fixpoint evaluated (o : optimizer) (z : list Q -> outcome Q) : list (list Q) :=
  match o with
  | Stop _ _ => []
  | Ask x next =>
      x :: match z x with
           | Return y => evaluated (next y) z
           | Raise _ => []
           end
  end.

(** ** The libraries *)

(** A kernel specification of the configuration file: the keys of the
    dict, and under them the entry-point name, the keyword parameters and
    the [independent] option. *)
Record kernel_spec : Type := mk_kernel_spec {
  spec_keys : list string;
  spec_name : string;
  spec_params : gmap string value;
  spec_independent : bool
}.

Class Libraries : Type := {
  (** The optional imports at the head of [strategies.py]: hyperopt, the
      GPy block (GPy, SciPy and the entry points: [GPRegression] and
      [minimize] are both [None] when it fails) and SALib. *)
  hyperopt_imported : bool;
  GPy_imported : bool;
  SALib_imported : bool;

  (** NumPy: the state of a random generator, a new generator from a
      seed, [random.randint(n)], [np.random.random((rows, cols))] and
      [np.random.randint(n)] on the global generator. *)
  rng : Type;
  RandomState : Z -> rng;
  randint : Z -> rng -> Z * rng;
  np_random_random : nat -> nat -> rng -> list (list Q) * rng;
  np_random_randint : nat -> rng -> nat * rng;

  (** NumPy and SciPy, on floats. *)
  np_sqrt : Q -> Q;
  np_log : Q -> Q;
  np_exp : Q -> Q;
  norm_cdf : Q -> Q;
  norm_pdf : Q -> Q;

  (** [search_space.py], per variable: [var.rvs(random)],
      [var.point_to_gp(value)] and [var.point_from_gp(gpvalue)]. *)
  var_rvs : variable -> rng -> value * rng;
  point_to_gp : variable -> value -> Q;
  point_from_gp : variable -> Q -> value;

  (** SALib: [sobol_sequence.sample(N, D)], the first [N] points of the
      Sobol sequence in dimension [D]. *)
  ss_sample : nat -> nat -> list (list Q);

  (** GPy and the entry points: a kernel object for one specification in
      a dimension ([load_entry_point], the subclass check and the
      instantiation), the sum of kernels, the hyper-parameters that
      [optimize_restarts] fits to [X], [Y] with a kernel, and the
      prediction (mean, variance) of a fitted model at a point. *)
  kernel : Type;
  load_kernel : kernel_spec -> nat -> outcome kernel;
  kernel_sum : list kernel -> kernel;
  hyper : Type;
  optimize_restarts :
    list (list Q) -> list Q -> option kernel -> Z -> rng -> outcome hyper * rng;
  predict : list (list Q) -> list Q -> option kernel -> hyper -> list Q -> Q * Q;

  (** SciPy: [minimize(z, x0, bounds=n*[(0., 1.)], options={'maxiter': m})]. *)
  minimize : list Q -> nat -> Z -> optimizer;

  (** hyperopt: the signature of [fmin], and the points at which
      [fmin(fn, algo, space, trials, max_evals, rstate or rseed)] calls
      [fn], in order, with the generator it leaves. *)
  fmin_args : fmin_signature;
  fmin :
    gmap string variable -> list trial_doc -> Q -> Z -> nat -> rng + Z ->
    list params * rng
}.

(** ** The search space *)

Module SearchSpace.
Section SearchSpace.
Context {libs : Libraries}.

(** Modelled from the spec: the search space of [search_space.py], which
    is not among the sources, is the ordered sequence of its variables;
    [n_dims] is the variable count. *)
Definition t : Type := list variable.
Definition n_dims (searchspace : t) : nat := length searchspace.
Definition names (searchspace : t) : list string := name <$> searchspace.

(** A valid search space has unique variable names. *)
Definition valid (searchspace : t) : Prop := NoDup (names searchspace).

Definition draw (searchspace : t) (random : rng) : params * rng :=
  fold_left
    (fun acc v => let '(x, r) := var_rvs v acc.2 in (<[name v := x]> acc.1, r))
    searchspace (∅, random).

(** Modelled from the spec: [SearchSpace.rvs(seed)] of [search_space.py]:
    a parameter mapping that gives every variable a sample of its native
    domain, drawn with the generator of the seed, or with the global
    generator when the seed is [None]. *)
Definition rvs (searchspace : t) (seed : option Z) (global : rng)
  : params * rng :=
  match seed with
  | Some s => ((draw searchspace (RandomState s)).1, global)
  | None => draw searchspace global
  end.

(** Modelled from the spec: [SearchSpace.point_to_gp(params)] of
    [search_space.py]: the vector in the unit cube of a parameter
    mapping, one coordinate per variable. *)
Fixpoint to_gp (searchspace : t) (p : params) : outcome (list Q) :=
  match searchspace with
  | [] => Return []
  | v :: rest =>
      match p !! name v with
      | None => Raise (KeyError (name v))
      | Some x => point ← to_gp rest p; Return (point_to_gp v x :: point)
      end
  end.

(** Modelled from the spec: [SearchSpace.to_hyperopt()] of
    [search_space.py]: the mapping from the names to the domains. *)
Definition to_hyperopt (searchspace : t) : gmap string variable :=
  dict ((fun v => (name v, v)) <$> searchspace).

End SearchSpace.
End SearchSpace.

(** A history entry fits a search space when its status is one of the
    three, its parameters give a value to every variable (unless it is
    FAILED, when they are not read), and it has scores when SUCCEEDED. *)
Definition well_formed (searchspace : SearchSpace.t) (e : entry) : Prop :=
  recognized e.2
  /\ (e.2 <> FAILED -> Forall (fun v => is_Some (e.1.1 !! name v)) searchspace)
  /\ (e.2 = SUCCEEDED -> e.1.2 <> ScoreNone).

(** [params == hparams], on dicts: the same keys, with equal values. *)
Definition params_eqb (a b : params) : bool :=
  bool_decide (dom a = dom b)
  && forallb (fun kv => match b !! kv.1 with
                        | Some w => value_eqb kv.2 w
                        | None => false
                        end) (map_to_list a).

(** [BaseStrategy.is_repeated_suggestion] *)
Definition is_repeated_suggestion (p : params) (h : history) : bool :=
  existsb (fun e => params_eqb p e.1.1 && String.eqb e.2 SUCCEEDED) h.

(** ** scikit-learn's [ParameterGrid], over one dict of choices *)

Module ParameterGrid.

Abbreviation t := (gmap string (list value)).

Definition key_le (a b : string * list value) : Prop :=
  Is_true (String.leb a.1 b.1).

(** [sorted(param_grid.items())] *)
Definition items (g : t) : list (string * list value) :=
  merge_sort key_le (map_to_list g).

Definition sizes (its : list (string * list value)) : list nat :=
  (fun kv => length kv.2) <$> its.

Definition product_of (ns : list nat) : nat := foldr Nat.mul 1%nat ns.

(** [__len__]: the product of the sizes, 1 for the empty dict. *)
Definition len (g : t) : nat := product_of (sizes (items g)).

(** The loop of [__getitem__] over the reversed sorted items:
    [ind, offset = divmod(ind, n); out[key] = v_list[offset]]. *)
Fixpoint decode (its : list (string * list value)) (ind : nat) (out : params)
  : outcome params :=
  match its with
  | [] => Return out
  | (key, v_list) :: rest =>
      match v_list !! (ind mod length v_list)%nat with
      | Some v => decode rest (ind / length v_list)%nat (<[key := v]> out)
      | None => Raise IndexError
      end
  end.

(** [__getitem__] *)
Definition getitem (g : t) (ind : nat) : outcome params :=
  let its := rev (items g) in
  if (product_of (sizes its) <=? ind)%nat then Raise IndexError
  else decode its ind ∅.

(** [itertools.product]: the last list varies fastest. *)
Fixpoint product (vals : list (list value)) : list (list value) :=
  match vals with
  | [] => [[]]
  | vs :: rest => v ← vs; cons v <$> product rest
  end.

(** [__iter__]: the grid in its order of enumeration. *)
Definition iter (g : t) : list params :=
  let its := items g in
  (fun combo => dict (zip its.*1 combo)) <$> product its.*2.

End ParameterGrid.

(** ** GridSearch *)

Module GridSearch.

Record t : Type := mk {
  param_grid : option ParameterGrid.t;
  current : Z
}.

Definition __init__ : t := {| param_grid := None; current := -1 |}.

Definition not_all_enum : exn :=
  RuntimeError "GridSearchStrategy is defined only for all-enum search space".

(** [ParameterGrid(dict((v.name, v.choices) for v in searchspace))] *)
Definition grid (searchspace : SearchSpace.t) : ParameterGrid.t :=
  dict ((fun v => (name v, choices v)) <$> searchspace).

(** The grid of the instance, built on the first call. *)
Definition grid_of (self : t) (searchspace : SearchSpace.t)
  : outcome ParameterGrid.t :=
  match param_grid self with
  | Some g => Return g
  | None =>
      if forallb is_EnumVariable searchspace
      then Return (grid searchspace)
      else Raise not_all_enum
  end.

Definition suggest (self : t) (h : history) (searchspace : SearchSpace.t)
  : outcome params * t :=
  match grid_of self searchspace with
  | Raise e => (Raise e, self)
  | Return g =>
      let self' := {| param_grid := Some g; current := current self + 1 |} in
      let n := Z.of_nat (ParameterGrid.len g) in
      if n =? 0 then (Raise ZeroDivisionError, self')
      else (ParameterGrid.getitem g (Z.to_nat (current self' mod n)), self')
  end.

(** The instance after [n] calls, the [i]-th call (from 0) made with the
    history [hs i]. *)
Fixpoint after (hs : nat -> history) (searchspace : SearchSpace.t) (n : nat) : t :=
  match n with
  | O => __init__
  | S m => (suggest (after hs searchspace m) (hs m) searchspace).2
  end.

(** What the [n]-th call (from 0) on a new instance gives. *)
Definition nth_call (hs : nat -> history) (searchspace : SearchSpace.t) (n : nat)
  : outcome params :=
  (suggest (after hs searchspace n) (hs n) searchspace).1.

End GridSearch.

(** ** RandomSearch *)

Module RandomSearch.
Section RandomSearch.
Context {libs : Libraries}.

Record t : Type := mk { seed : option Z }.

Definition __init__ (seed : option Z) : t := {| seed := seed |}.

Definition suggest (self : t) (h : history) (searchspace : SearchSpace.t)
    (global : rng) : outcome params * rng :=
  let '(p, global') := SearchSpace.rvs searchspace (seed self) global in
  (Return p, global').

End RandomSearch.
End RandomSearch.

(** ** SobolSearch *)

Module SobolSearch.
Section SobolSearch.
Context {libs : Libraries}.

(** [_SKIP = int(1e4)] *)
Definition _SKIP : nat := Z.to_nat 10000.

Record t : Type := mk {
  sequence : option (list (list Q));
  length : nat;
  n_dims : nat;
  offset : nat;
  counter : nat
}.

Definition __init__ (length : nat) : t :=
  {| sequence := None; length := length; n_dims := 0; offset := 0; counter := 0 |}.

Definition exhausted : exn := RuntimeError "Increase sobol sequence length".

Definition _set_sequence (self : t) : t :=
  {| sequence := Some (ss_sample (length self + _SKIP) (n_dims self));
     length := length self; n_dims := n_dims self;
     offset := offset self; counter := counter self |}.

Definition _from_unit_cube (result : list Q) (searchspace : SearchSpace.t) : params :=
  fold_left (fun out gv => <[name gv.2 := point_from_gp gv.2 gv.1]> out)
    (zip result searchspace) ∅.

(** The first lines of [suggest]: the sequence is computed on the first
    call, for the dimension of the search space and with the offset of
    the history of that call. *)
Definition prepare (self : t) (h : history) (searchspace : SearchSpace.t) : t :=
  match sequence self with
  | None =>
      _set_sequence
        {| sequence := None; length := length self;
           n_dims := SearchSpace.n_dims searchspace;
           offset := List.length h + _SKIP; counter := counter self |}
  | Some _ => self
  end.

Definition suggest (self : t) (h : history) (searchspace : SearchSpace.t)
  : outcome params * t :=
  if negb SALib_imported then (Raise (ImportError "No module named SALib"), self)
  else
    let self := prepare self h searchspace in
    match sequence self ≫= (.!! (offset self + counter self)%nat) with
    | Some points =>
        (Return (_from_unit_cube points searchspace),
         {| sequence := sequence self; length := length self;
            n_dims := n_dims self; offset := offset self;
            counter := counter self + 1 |})
    | None => (Raise exhausted, self)
    end.

(** The instance once the sequence is set for a first history that is
    empty, [k] points consumed. *)
Definition consumed (length : nat) (searchspace : SearchSpace.t) (k : nat) : t :=
  {| sequence := Some (ss_sample (length + _SKIP) (SearchSpace.n_dims searchspace));
     length := length; n_dims := SearchSpace.n_dims searchspace;
     offset := _SKIP; counter := k |}.

(** The instance after [n] calls, the [i]-th call (from 0) made with the
    history [hs i]. *)
Fixpoint after (length : nat) (hs : nat -> history) (searchspace : SearchSpace.t)
    (n : nat) : t :=
  match n with
  | O => __init__ length
  | S m => (suggest (after length hs searchspace m) (hs m) searchspace).2
  end.

Definition nth_call (length : nat) (hs : nat -> history)
    (searchspace : SearchSpace.t) (n : nat) : outcome params :=
  (suggest (after length hs searchspace n) (hs n) searchspace).1.

End SobolSearch.
End SobolSearch.

Arguments SobolSearch._SKIP : simpl never.

(** ** HyperoptTPE *)

Module HyperoptTPE.
Section HyperoptTPE.
Context {libs : Libraries}.

Record t : Type := mk { seed : option Z; gamma : Q; seeds : Z }.

Definition __init__ (seed : option Z) (gamma : Q) (seeds : Z) : t :=
  {| seed := seed; gamma := gamma; seeds := seeds |}.

Definition unrecognized (status : string) : exn :=
  RuntimeError ("unrecognized status: " +:+ status).

(** The [result] of the synthetic record of an entry. *)
Definition result_of (sc : scores) (status : string) : outcome hp_result :=
  if String.eqb status SUCCEEDED then
    m ← np_mean sc; Return {| loss := Some (- m)%Q; status := STATUS_OK |}
  else if String.eqb status PENDING then
    Return {| loss := None; status := STATUS_RUNNING |}
  else if String.eqb status FAILED then
    Return {| loss := None; status := STATUS_FAIL |}
  else Raise (unrecognized status).

(** [[i for i, c in enumerate(choices) if c == x]] *)
Definition matches (choices : list value) (x : value) : list nat :=
  (fun ic => ic.1) <$> filter (fun ic => Is_true (value_eqb ic.2 x)) (imap pair choices).

(** The entry of [vals] for one variable. *)
Definition val_of (var : variable) (p : params) : outcome (list value) :=
  if is_EnumVariable var then
    ms ← match choices var with
         | [] => Return []
         | _ :: _ =>
             match p !! name var with
             | Some x => Return (matches (choices var) x)
             | None => Raise (KeyError (name var))
             end
         end;
    if (length ms =? 1)%nat then Return ((fun i => VInt (Z.of_nat i)) <$> ms)
    else Raise AssertionError
  else
    match p !! name var with
    | Some x => Return [x]
    | None => Raise (KeyError (name var))
    end.

(** The loop [for var in searchspace] that fills [vals]. *)
Fixpoint vals_of (searchspace : SearchSpace.t) (p : params)
    (vals : gmap string (list value)) : outcome (gmap string (list value)) :=
  match searchspace with
  | [] => Return vals
  | var :: rest =>
      v ← val_of var p; vals_of rest p (<[name var := v]> vals)
  end.

(** The loop over the history, from the entry of index [i] on: the
    documents given to [insert_trial_doc], in order. *)
Fixpoint docs_from (i : nat) (h : history) (searchspace : SearchSpace.t)
    (hp_searchspace : gmap string variable) : outcome (list trial_doc) :=
  match h with
  | [] => Return []
  | (p, sc, st) :: rest =>
      r ← result_of sc st;
      vals ← vals_of searchspace p ∅;
      docs ← docs_from (S i) rest searchspace hp_searchspace;
      Return ({| misc_idxs := (fun _ => [i]) <$> hp_searchspace;
                 misc_tid := i; misc_vals := vals; result := r; tid := i;
                 state := 2 |} :: docs)
  end.

(** What the result of a record says of its entry. *)
Definition result_matches (e : entry) (d : trial_doc) : Prop :=
  (e.2 = SUCCEEDED ->
     exists m, np_mean e.1.2 = Return m
               /\ result d = {| loss := Some (- m)%Q; status := STATUS_OK |})
  /\ (e.2 = PENDING -> result d = {| loss := None; status := STATUS_RUNNING |})
  /\ (e.2 = FAILED -> result d = {| loss := None; status := STATUS_FAIL |})
  /\ recognized e.2.

Definition suggest (self : t) (h : history) (searchspace : SearchSpace.t)
    (global : rng) : outcome params * rng :=
  if negb hyperopt_imported
  then (Raise (ImportError "No module named hyperopt"), global)
  else
    (* check_random_state(self.seed) *)
    let random := match seed self with Some s => RandomState s | None => global end in
    let keep (r : rng) := match seed self with Some _ => global | None => r end in
    let hp_searchspace := SearchSpace.to_hyperopt searchspace in
    match docs_from 0 h searchspace hp_searchspace with
    | Raise e => (Raise e, global)
    | Return trials =>
        let chosen (container : list params) : outcome params :=
          match container with
          | x :: _ => Return x
          | [] => Raise IndexError
          end in
        let max_evals := (length trials + 1)%nat in
        (* _hyperopt_fmin_random_kwarg(random) *)
        match fmin_args with
        | HasRstate =>
            let '(container, random') :=
              fmin hp_searchspace trials (gamma self) (seeds self) max_evals
                (inl random) in
            (chosen container, keep random')
        | HasRseed =>
            let '(rseed, random') := randint (2 ^ 32 - 1) random in
            let '(container, _) :=
              fmin hp_searchspace trials (gamma self) (seeds self) max_evals
                (inr rseed) in
            (chosen container, keep random')
        | HasNeither => (Raise UnboundLocalError, global)
        end
    end.

End HyperoptTPE.
End HyperoptTPE.

(** ** GP *)

(** [sorted(keys)], by the order of Python on strings. *)
Definition sorted (keys : list string) : list string :=
  merge_sort (fun a b => Is_true (String.leb a b)) keys.

(** The index of the first least element, [np.argmin], and of the first
    greatest one, [np.argmax]; none on the empty array. *)
Fixpoint argmin (l : list Q) : option nat :=
  match l with
  | [] => None
  | x :: rest =>
      match argmin rest with
      | Some j =>
          match rest !! j with
          | Some y => if Qle_bool x y then Some 0%nat else Some (S j)
          | None => Some 0%nat
          end
      | None => Some 0%nat
      end
  end.

Definition argmax (l : list Q) : option nat := argmin (Qopp <$> l).

(** The greatest element, the builtin [max]. *)
Definition py_max (l : list Q) : option Q := i ← argmax l; l !! i.

(** The strategy configuration, as the configuration file gives it. *)
Inductive acquisition_config : Type :=
| AcquisitionList
| AcquisitionDict (keys : list string) (name : string) (params : gmap string Q).

Inductive kernels_config : Type :=
| KernelsOther
| KernelsList (kernels : list kernel_spec).

Module GP.
Section GP.
Context {libs : Libraries}.

(** The fitted regression model, [GPRegression(X, Y_trans, kernel)]
    after [optimize_restarts]. *)
Record GPRegression : Type := mk_model {
  model_X : list (list Q);
  model_Y : list Q;
  model_kernel : option kernel;
  model_hyper : hyper
}.

Definition model_predict (m : GPRegression) (x : list Q) : Q * Q :=
  predict (model_X m) (model_Y m) (model_kernel m) (model_hyper m) x.

Record t : Type := mk {
  seed : option Z;
  seeds : Z;
  max_iter : Z;
  n_iter : Z;
  n_init : Z;
  sobol_init : bool;
  optimize_best : bool;
  predict_from_gp : bool;
  model : option GPRegression;
  n_dims : option nat;
  kernel_ : option kernel;
  x_best : option params;
  y_best : option Q;
  y_best_var : option Q;
  transformed : bool;
  _kerns : kernels_config;
  acquisition_name : string;
  acquisition_params : gmap string Q
}.

(** The assignments to the attributes that [suggest] and its helpers
    write. *)
Definition set_n_dims (self : t) (n : nat) : t :=
  mk (seed self) (seeds self) (max_iter self) (n_iter self) (n_init self)
     (sobol_init self) (optimize_best self) (predict_from_gp self) (model self)
     (Some n) (kernel_ self) (x_best self) (y_best self) (y_best_var self)
     (transformed self) (_kerns self) (acquisition_name self)
     (acquisition_params self).

Definition set_kernel (self : t) (k : kernel) : t :=
  mk (seed self) (seeds self) (max_iter self) (n_iter self) (n_init self)
     (sobol_init self) (optimize_best self) (predict_from_gp self) (model self)
     (n_dims self) (Some k) (x_best self) (y_best self) (y_best_var self)
     (transformed self) (_kerns self) (acquisition_name self)
     (acquisition_params self).

Definition set_transformed (self : t) (b : bool) : t :=
  mk (seed self) (seeds self) (max_iter self) (n_iter self) (n_init self)
     (sobol_init self) (optimize_best self) (predict_from_gp self) (model self)
     (n_dims self) (kernel_ self) (x_best self) (y_best self) (y_best_var self)
     b (_kerns self) (acquisition_name self) (acquisition_params self).

Definition set_model (self : t) (m : option GPRegression) : t :=
  mk (seed self) (seeds self) (max_iter self) (n_iter self) (n_init self)
     (sobol_init self) (optimize_best self) (predict_from_gp self) m
     (n_dims self) (kernel_ self) (x_best self) (y_best self) (y_best_var self)
     (transformed self) (_kerns self) (acquisition_name self)
     (acquisition_params self).

Definition set_y_best_var (self : t) (v : Q) : t :=
  mk (seed self) (seeds self) (max_iter self) (n_iter self) (n_init self)
     (sobol_init self) (optimize_best self) (predict_from_gp self) (model self)
     (n_dims self) (kernel_ self) (x_best self) (y_best self) (Some v)
     (transformed self) (_kerns self) (acquisition_name self)
     (acquisition_params self).

Definition set_best (self : t) (x : params) (y : Q) : t :=
  mk (seed self) (seeds self) (max_iter self) (n_iter self) (n_init self)
     (sobol_init self) (optimize_best self) (predict_from_gp self) (model self)
     (n_dims self) (kernel_ self) (Some x) (Some y) (y_best_var self)
     (transformed self) (_kerns self) (acquisition_name self)
     (acquisition_params self).

(** [_set_acquisition], the validation that [__init__] ends with. *)
Definition _set_acquisition (acquisition : acquisition_config)
  : outcome (string * gmap string Q) :=
  match acquisition with
  | AcquisitionList =>
      Raise (RuntimeError "Must specify only one acquisition function")
  | AcquisitionDict keys name params =>
      if bool_decide (sorted keys = ["name"; "params"]) then
        if bool_decide (name ∈ ["ei"; "ucb"; "osprey"]) then Return (name, params)
        else Raise (RuntimeError
          ("strategy/params/acquisition name must be one of " +:+ quoted "ei"
           +:+ ", " +:+ quoted "ucb" +:+ ", " +:+ quoted "osprey"))
      else Raise (RuntimeError
        ("strategy/params/acquisition must contain keys " +:+ quoted "name"
         +:+ " and " +:+ quoted "params"))
  end.

Definition default_kernels : kernels_config :=
  KernelsList
    [{| spec_keys := ["name"; "params"; "options"];
        spec_name := "GPy.kern.Matern52";
        spec_params := {[ "ARD" := VBool true ]};
        spec_independent := false |}].

Definition default_acquisition : acquisition_config :=
  AcquisitionDict ["name"; "params"] "osprey" ∅.

Definition __init__ (kernels : option kernels_config)
    (acquisition : option acquisition_config) (seed : option Z) (seeds : Z)
    (n_iter n_init : Z) (sobol_init optimize_best : bool) (max_iter : Z)
    (predict_from_gp : bool) : outcome t :=
  a ← _set_acquisition (default default_acquisition acquisition);
  Return
    {| seed := seed; seeds := seeds; max_iter := max_iter; n_iter := n_iter;
       n_init := n_init; sobol_init := sobol_init;
       optimize_best := optimize_best; predict_from_gp := predict_from_gp;
       model := None; n_dims := None; kernel_ := None; x_best := None;
       y_best := None; y_best_var := None; transformed := false;
       _kerns := default default_kernels kernels;
       acquisition_name := a.1; acquisition_params := a.2 |}.

Definition bad_kernel_keys : exn :=
  RuntimeError ("strategy/params/kernels must contain keys: " +:+ quoted "name"
                +:+ ", " +:+ quoted "options" +:+ ", " +:+ quoted "params").

(** The second loop of [_create_kernel]: the kernel objects, in order. *)
Fixpoint load_kernels (specs : list kernel_spec) (n : nat) : outcome (list kernel) :=
  match specs with
  | [] => Return []
  | spec :: rest =>
      k ← load_kernel spec n; ks ← load_kernels rest n; Return (k :: ks)
  end.

Definition _create_kernel (self : t) : outcome unit * t :=
  match _kerns self with
  | KernelsOther =>
      (Raise (RuntimeError "Must provide enumeration of kernels"), self)
  | KernelsList specs =>
      if forallb
           (fun spec => bool_decide (sorted (spec_keys spec) = ["name"; "options"; "params"]))
           specs
      then
        match load_kernels specs (default 0%nat (n_dims self)) with
        | Return ks => (Return (), set_kernel self (kernel_sum ks))
        | Raise e => (Raise e, self)
        end
      else (Raise bad_kernel_keys, self)
  end.

Definition _transform_score (self : t) (y : Q) : Q :=
  if transformed self then (- np_log (- y))%Q else y.

Definition _back_transform_score (self : t) (y : Q) : Q :=
  if transformed self then (- np_exp (- y))%Q else y.

Definition _fit_model (self : t) (X : list (list Q)) (Y : list Q) (global : rng)
  : outcome unit * t * rng :=
  match py_max Y with
  | None => (Raise ValueError, self, global)
  | Some m =>
      let self := set_transformed self (negb (Qle_bool 0 m)) in
      let Y_trans := _transform_score self <$> Y in
      match optimize_restarts X Y_trans (kernel_ self) (n_init self) global with
      | (Return h, global') =>
          (Return (),
           set_model self
             (Some {| model_X := X; model_Y := Y_trans;
                      model_kernel := kernel_ self; model_hyper := h |}),
           global')
      | (Raise LinAlgError, global') => (Return (), set_model self None, global')
      | (Raise e, global') => (Raise e, self, global')
      end
  end.

Definition _get_random_points (self : t) (global : rng) : list (list Q) * rng :=
  np_random_random (Z.to_nat (n_iter self)) (default 0%nat (n_dims self)) global.

(** [ss.sample(n_iter + randint(1000), n_dims)[-n_iter:]] *)
Definition _get_sobol_points (self : t) (global : rng) : list (list Q) * rng :=
  let '(r, global') := np_random_randint 1000 global in
  let n := Z.to_nat (n_iter self) in
  let points := ss_sample (n + r) (default 0%nat (n_dims self)) in
  (if (n =? 0)%nat then points else drop (length points - n) points, global').

Definition _get_init (self : t) (global : rng) : list (list Q) * rng :=
  if sobol_init self then _get_sobol_points self global
  else _get_random_points self global.

Definition negative_variance : exn :=
  RuntimeError "Negative variance predicted from regression model.".

Definition _is_var_positive (var : Q) : outcome bool :=
  if negb (Qle_bool 0 var) then Raise negative_variance else Return true.

Definition _ei (self : t) (y_mean y_var kappa : Q) : outcome Q :=
  match y_best_var self with
  | None => Raise AttributeError
  | Some best_var =>
      let y_std := np_sqrt (y_var + best_var) in
      match y_best self with
      | None => Raise TypeError
      | Some best =>
          let z := ((y_mean - _transform_score self best - kappa) / y_std)%Q in
          Return (y_std * (z * norm_cdf z + norm_pdf z))%Q
      end
  end.

Definition _ucb (self : t) (y_mean y_var kappa : Q) : outcome Q :=
  match y_best_var self with
  | Some best_var => Return (y_mean + kappa * np_sqrt (y_var + best_var))%Q
  | None => Raise AttributeError
  end.

Definition _osprey (y_mean y_var : Q) : Q := (y_mean + y_var)%Q.

(** [self._acquisition_function], the closure [g] of [_set_acquisition]:
    [f(x, y_mean, y_var, **params)] for the function [f] of the name;
    a keyword that [f] does not take is a [TypeError]. *)
Definition _acquisition_function (self : t) (y_mean y_var : Q) : outcome Q :=
  let params := acquisition_params self in
  let only_kappa := bool_decide (dom params ⊆ {[ "kappa" ]}) in
  if String.eqb (acquisition_name self) "ei" then
    if only_kappa then _ei self y_mean y_var (default 0.01%Q (params !! "kappa"))
    else Raise TypeError
  else if String.eqb (acquisition_name self) "ucb" then
    if only_kappa then _ucb self y_mean y_var (default 1%Q (params !! "kappa"))
    else Raise TypeError
  else
    if bool_decide (params = ∅) then Return (_osprey y_mean y_var)
    else Raise TypeError.

(** The objective [z] of [_optimize_acquisition]. *)
Definition acquisition_objective (self : t) (x : list Q) : outcome Q :=
  match model self with
  | None => Raise AttributeError
  | Some m =>
      let '(y_mean, y_var) := model_predict m x in
      if bool_decide (acquisition_name self ∈ ["osprey"; "ucb"]) then
        af ← _acquisition_function self y_mean y_var; Return (- af)%Q
      else
        ok ← _is_var_positive y_var;
        if ok : bool then af ← _acquisition_function self y_mean y_var; Return (- af)%Q
        else Return 0%Q
  end.

(** The optimisation loop, over the starts [i], [i + 1], ... below
    [n_iter]: the candidates and their acquisition values. *)
Fixpoint starts (self : t) (init_tries : list (list Q)) (i : nat) (todo : nat)
  : outcome (list (list Q * Q)) :=
  match todo with
  | O => Return []
  | S todo' =>
      match init_tries !! i with
      | None => Raise IndexError
      | Some init =>
          res ← (if 0 <? max_iter self
                 then run_optimizer
                        (minimize init (default 0%nat (n_dims self)) (max_iter self))
                        (acquisition_objective self)
                 else y ← acquisition_objective self init; Return (init, y));
          more ← starts self init_tries (S i) todo';
          Return (res :: more)
      end
  end.

(** The points at which the optimisation loop evaluates the objective,
    up to the first evaluation that raises. *)
Fixpoint visited (self : t) (init_tries : list (list Q)) (i : nat) (todo : nat)
  : list (list Q) :=
  match todo with
  | O => []
  | S todo' =>
      match init_tries !! i with
      | None => []
      | Some init =>
          if 0 <? max_iter self then
            let o := minimize init (default 0%nat (n_dims self)) (max_iter self) in
            evaluated o (acquisition_objective self)
            ++ match run_optimizer o (acquisition_objective self) with
               | Return _ => visited self init_tries (S i) todo'
               | Raise _ => []
               end
          else
            init :: match acquisition_objective self init with
                    | Return _ => visited self init_tries (S i) todo'
                    | Raise _ => []
                    end
      end
  end.

Definition _optimize_acquisition (self : t) (global : rng)
  : outcome (list Q) * rng :=
  let '(init_tries, global') := _get_init self global in
  (found ← starts self init_tries 0 (Z.to_nat (n_iter self));
   match argmin found.*2 with
   | None => Raise ValueError
   | Some best_index =>
       match found.*1 !! best_index with
       | Some best_candidate => Return best_candidate
       | None => Raise IndexError
       end
   end,
   global').

Definition get_gp_best (self : t) (m : GPRegression) : outcome (list Q) :=
  match argmax (model_Y m) ≫= (model_X m !!.) with
  | None => Raise ValueError
  | Some best_observation =>
      res ← run_optimizer
              (minimize best_observation (default 0%nat (n_dims self)) (max_iter self))
              (fun x => Return (- (model_predict m x).1)%Q);
      Return res.1
  end.

(** The loop of [_get_data]: the points of the succeeded entries with
    the means and the variances of their scores, and the points of the
    pending entries. *)
Fixpoint _get_data (h : history) (searchspace : SearchSpace.t)
  : outcome (list (list Q) * list Q * list Q * list (list Q)) :=
  match h with
  | [] => Return ([], [], [], [])
  | (param_dict, sc, st) :: rest =>
      if String.eqb st FAILED then _get_data rest searchspace
      else
        point ← SearchSpace.to_gp searchspace param_dict;
        if String.eqb st SUCCEEDED then
          y ← np_mean sc;
          v ← np_var sc;
          d ← _get_data rest searchspace;
          let '(X, Y, V, ignore) := d in
          Return (point :: X, y :: Y, v :: V, ignore)
        else if String.eqb st PENDING then
          d ← _get_data rest searchspace;
          let '(X, Y, V, ignore) := d in
          Return (X, Y, V, point :: ignore)
        else Raise (RuntimeError ("unrecognized status: " +:+ st))
  end.

Definition _from_gp (result : list Q) (searchspace : SearchSpace.t) : params :=
  fold_left (fun out gv => <[name gv.2 := point_from_gp gv.2 gv.1]> out)
    (zip result searchspace) ∅.

(** [((point - X)**2).sum(axis=0)]: the sum runs over the rows of [X],
    and leaves one number per coordinate. *)
Definition squares_summed_over_rows (point : list Q) (X : list (list Q)) : list Q :=
  foldr (fun row acc => zip_with Qplus (zip_with (fun p x => (p - x) * (p - x))%Q point row) acc)
    ((fun _ => 0%Q) <$> point) X.

(** [_is_within(point, X, tol=1E-2)] *)
Definition _is_within (point : list Q) (X : list (list Q)) : bool :=
  existsb (fun s => Qle_bool (np_sqrt s) 0.01%Q) (squares_summed_over_rows point X).

(** [suggestion in ignore], on NumPy arrays: [(ignore == suggestion).any()],
    the comparison made coordinate by coordinate in every row. *)
Definition contains (ignore : list (list Q)) (suggestion : list Q) : bool :=
  existsb (fun row => existsb id (zip_with Qeq_bool row suggestion)) ignore.

(** [RandomSearch().suggest(history, searchspace)], the fallback. *)
Definition random_suggestion (self : t) (h : history) (searchspace : SearchSpace.t)
    (global : rng) : outcome params * t * rng :=
  let '(r, global') :=
    RandomSearch.suggest (RandomSearch.__init__ None) h searchspace global in
  (r, self, global').

(** The incumbent: [x_best], [y_best] and its variance. *)
Definition incumbent (self : t) (m : GPRegression) : outcome (list Q * Q * Q) :=
  if optimize_best self then
    x ← get_gp_best self m;
    let '(y, v) := model_predict m x in Return (x, y, v)
  else
    match argmax (model_Y m) with
    | None => Raise ValueError
    | Some best_idx =>
        match model_X m !! best_idx, model_Y m !! best_idx with
        | Some x, Some y0 =>
            if predict_from_gp self
            then let '(y, v) := model_predict m x in Return (x, y, v)
            else Return (x, y0, 0%Q)
        | _, _ => Raise IndexError
        end
    end.

Definition suggest (self : t) (h : history) (searchspace : SearchSpace.t)
    (global : rng) : outcome params * t * rng :=
  (* [GPRegression] and [minimize] are set, or not, by the same import block *)
  if negb GPy_imported then (Raise (ImportError "No module named GPy"), self, global)
  else if negb GPy_imported then (Raise (ImportError "No module named SciPy"), self, global)
  else if Z.of_nat (length h) <? seeds self
  then random_suggestion self h searchspace global
  else
    let self := set_n_dims self (SearchSpace.n_dims searchspace) in
    match _get_data h searchspace with
    | Raise e => (Raise e, self, global)
    | Return (X, Y, V, ignore) =>
        if Z.of_nat (length Y) <? seeds self
        then random_suggestion self h searchspace global
        else
          match _create_kernel self with
          | (Raise e, self) => (Raise e, self, global)
          | (Return _, self) =>
              match _fit_model self X Y global with
              | (Raise e, self, global) => (Raise e, self, global)
              | (Return _, self, global) =>
                  match model self with
                  | None => random_suggestion self h searchspace global
                  | Some m =>
                      match incumbent self m with
                      | Raise e => (Raise e, self, global)
                      | Return (x, y, v) =>
                          let self := set_y_best_var self v in
                          let self :=
                            set_best self (_from_gp x searchspace)
                              (_back_transform_score self y) in
                          match _optimize_acquisition self global with
                          | (Raise e, global) => (Raise e, self, global)
                          | (Return suggestion, global) =>
                              if contains ignore suggestion || _is_within suggestion X
                              then random_suggestion self h searchspace global
                              else (Return (_from_gp suggestion searchspace), self, global)
                          end
                      end
                  end
              end
          end
    end.
End GP.
End GP.

(** ** The strategies, behind their common contract *)

Section Strategy.
Context {libs : Libraries}.

Inductive strategy : Type :=
| Random (self : RandomSearch.t)
| Sobol (self : SobolSearch.t)
| Grid (self : GridSearch.t)
| Bayes (self : GP.t)
| TPE (self : HyperoptTPE.t).

(** [strategy.suggest(history, searchspace)], with the instance and the
    global generator it leaves. *)
Definition suggest (st : strategy) (h : history) (searchspace : SearchSpace.t)
    (global : rng) : outcome params * strategy * rng :=
  match st with
  | Random self =>
      let '(r, global') := RandomSearch.suggest self h searchspace global in
      (r, Random self, global')
  | Sobol self =>
      let '(r, self') := SobolSearch.suggest self h searchspace in
      (r, Sobol self', global)
  | Grid self =>
      let '(r, self') := GridSearch.suggest self h searchspace in
      (r, Grid self', global)
  | Bayes self =>
      let '(r, self', global') := GP.suggest self h searchspace global in
      (r, Bayes self', global')
  | TPE self =>
      let '(r, global') := HyperoptTPE.suggest self h searchspace global in
      (r, TPE self, global')
  end.

(** An instance serves a search space when the state it keeps from its
    earlier calls was computed for that search space: the Sobol sequence
    has one column per variable, the grid is the grid of the space. *)
Definition serves (searchspace : SearchSpace.t) (st : strategy) : Prop :=
  match st with
  | Sobol self =>
      match SobolSearch.sequence self with
      | None => True
      | Some points =>
          Forall (fun row => length row = SearchSpace.n_dims searchspace) points
      end
  | Grid self =>
      match GridSearch.param_grid self with
      | None => True
      | Some g => g = GridSearch.grid searchspace
      end
  | Random _ | Bayes _ | TPE _ => True
  end.

(** A strategy as its constructor leaves it. *)
Definition fresh (st : strategy) : Prop :=
  match st with
  | Random _ | TPE _ => True
  | Sobol self => exists length, self = SobolSearch.__init__ length
  | Grid self => self = GridSearch.__init__
  | Bayes self => GP.model self = None
  end.

(** What the code relies on from the libraries, for the shape of the
    points: a sample of SALib and of NumPy has the number of columns
    asked for, the minimiser returns a point of the dimension of its
    start, and hyperopt calls the objective at points of the space. *)
Class Contracts : Prop := {
  ss_sample_columns : forall N D row,
    row ∈ ss_sample N D -> length row = D;
  random_columns : forall rows cols g row,
    row ∈ (np_random_random rows cols g).1 -> length row = cols;
  minimize_dimension : forall x0 n m z x y,
    run_optimizer (minimize x0 n m) z = Return (x, y) -> length x = length x0;
  fmin_in_space : forall space trials gamma seeds max_evals random p,
    p ∈ (fmin space trials gamma seeds max_evals random).1 -> dom p = dom space
}.
End Strategy.

(** ** The trial runner, [execute_worker.py] *)

Module execute_worker.

(** What the [try] block can raise, by the classes that the handlers
    tell apart: an [Exception] (with the text that its traceback prints
    after the header), a [KeyboardInterrupt], a [SystemExit], or another
    [BaseException]. *)
Inductive raised : Type :=
| Exception_ (text : string)
| KeyboardInterrupt
| SystemExit (code : Z)
| BaseException_.

Record Trial : Type := mk_Trial {
  status : string;
  parameters : params;
  host : string;
  user : string;
  started : Z;
  config_sha1 : string;
  mean_cv_score : option Q;
  cv_scores : option (list Q);
  traceback : option string;
  completed : option Z;
  elapsed : option Z
}.

(** The session: the rows as last committed.  [add] and [commit] append
    the row of a new object, a later [commit] writes the object to its
    row. *)
Definition Session : Type := list Trial.

(** The estimator, by its parameters, [get_params()]: a value, or a
    sub-estimator. *)
Inductive param : Type :=
| Plain (v : value)
| BaseEstimator.

Definition plain (p : param) : option value :=
  match p with Plain v => Some v | BaseEstimator => None end.

(** The parameters of the clone of the estimator after [set_params]
    with the suggested ones, [get_params()] without the sub-estimators;
    [set_params] refuses a name that is not a parameter of the
    estimator. *)
Definition resolve (estimator : gmap string param) (p : params) : outcome params :=
  if bool_decide (dom p ⊆ dom estimator)
  then Return (omap plain ((Plain <$> p) ∪ estimator))
  else Raise ValueError.

(** The statements of the [try] block. *)
Inductive statement : Type :=
| fit_grid
| assign_mean_cv_score
| assign_cv_scores
| assign_status
| query_best_so_far
| print_success.

Definition body : list statement :=
  [fit_grid; assign_mean_cv_score; assign_cv_scores; assign_status;
   query_best_so_far; print_success].

Definition statement_eqb (a b : statement) : bool :=
  match a, b with
  | fit_grid, fit_grid | assign_mean_cv_score, assign_mean_cv_score
  | assign_cv_scores, assign_cv_scores | assign_status, assign_status
  | query_best_so_far, query_best_so_far | print_success, print_success => true
  | _, _ => false
  end.

(** What happens in the [try] block: it runs to its end, or one
    statement raises (the fit, a query, or any statement at which a
    signal handler or an interrupt raises). *)
Inductive event : Type :=
| Completes
| Raises (at_ : statement) (r : raised).

Definition set_status (t : Trial) (s : string) : Trial :=
  mk_Trial s (parameters t) (host t) (user t) (started t) (config_sha1 t)
    (mean_cv_score t) (cv_scores t) (traceback t) (completed t) (elapsed t).

Definition set_traceback (t : Trial) (tb : string) : Trial :=
  mk_Trial (status t) (parameters t) (host t) (user t) (started t) (config_sha1 t)
    (mean_cv_score t) (cv_scores t) (Some tb) (completed t) (elapsed t).

Definition set_completed (t : Trial) (now : Z) : Trial :=
  mk_Trial (status t) (parameters t) (host t) (user t) (started t) (config_sha1 t)
    (mean_cv_score t) (cv_scores t) (traceback t) (Some now) (Some (now - started t)).

(** The effect of one statement of the [try] block on the trial. *)
Definition execute_statement (mean : Q) (cv : list Q) (s : statement) (t : Trial)
  : Trial :=
  match s with
  | assign_mean_cv_score =>
      mk_Trial (status t) (parameters t) (host t) (user t) (started t)
        (config_sha1 t) (Some mean) (cv_scores t) (traceback t) (completed t)
        (elapsed t)
  | assign_cv_scores =>
      mk_Trial (status t) (parameters t) (host t) (user t) (started t)
        (config_sha1 t) (mean_cv_score t) (Some cv) (traceback t) (completed t)
        (elapsed t)
  | assign_status => set_status t SUCCEEDED
  | fit_grid | query_best_so_far | print_success => t
  end.

(** The [try] block: the statements run in order up to the one that
    raises. *)
Fixpoint try_block (todo : list statement) (mean : Q) (cv : list Q) (ev : event)
    (t : Trial) : Trial * option raised :=
  match todo with
  | [] => (t, None)
  | s :: rest =>
      match ev with
      | Raises at_ r =>
          if statement_eqb at_ s then (t, Some r)
          else try_block rest mean cv ev (execute_statement mean cv s t)
      | Completes => try_block rest mean cv ev (execute_statement mean cv s t)
      end
  end.

(** [traceback.print_exc(file=buf); buf.getvalue()] *)
Definition print_exc (text : string) : string :=
  "Traceback (most recent call last):" +:+ String "010"%char text.

(** The [except] clauses: the trial, and what is raised out of them. *)
Definition handlers (t : Trial) (r : option raised) : Trial * option raised :=
  match r with
  | None => (t, None)
  | Some (Exception_ text) =>
      (set_status (set_traceback t (print_exc text)) FAILED, None)
  | Some KeyboardInterrupt | Some (SystemExit _) =>
      (set_status t FAILED, Some (SystemExit 1))
  | Some BaseException_ => (t, Some BaseException_)
  end.


(** How a call ends: it returns the status, or an exception leaves it. *)
Inductive ending : Type :=
| Returns (status : string)
| Leaves (r : raised).

(** [run_single_trial]: the readings of the clock, the scores that the
    fit gives and the event of the [try] block are given; the result is
    how the call ends, the trial object if it was created, and the
    session. *)
Definition run_single_trial (estimator : gmap string param) (p : params)
    (config_sha1 hostname username : string) (session : Session)
    (now_started now_completed : Z) (mean : Q) (cv : list Q) (ev : event)
  : ending * option Trial * Session :=
  match resolve estimator p with
  | Raise _ => (Leaves (Exception_ "ValueError"), None, session)
  | Return p =>
      let t := {| status := PENDING; parameters := p; host := hostname;
                  user := username; started := now_started;
                  config_sha1 := config_sha1; mean_cv_score := None;
                  cv_scores := None; traceback := None; completed := None;
                  elapsed := None |} in
      (* session.add(t); session.commit() *)
      let row := length session in
      let session := session ++ [t] in
      let '(t, r) := try_block body mean cv ev t in
      let '(t, r) := handlers t r in
      (* finally *)
      let t := set_completed t now_completed in
      let session := <[row := t]> session in
      match r with
      | None => (Returns (status t), Some t, session)
      | Some r => (Leaves r, Some t, session)
      end
  end.

End execute_worker.

(** ** Stand-ins for the libraries

    Simple deterministic stand-ins for the libraries, on which the
    strategies can be run: the examples and the counterexamples below are
    runs on them. *)

Module Demo.

(** The generator is a counter; a draw is the counter, scaled. *)
Definition fraction (r : nat) : Q := Qred (Z.of_nat (r mod 100) # 100).

(** The square root, to six decimal places; exact on the squares. *)
Definition sqrt (q : Q) : Q :=
  Qmake (Z.sqrt (Qnum q * Zpos (Qden q) * 10 ^ 12)) (Qden q * 1000000).

(** The radical inverse in base 2, the Sobol sequence in dimension 1. *)
Fixpoint radical_inverse (p : positive) : Q :=
  match p with
  | xH => 1 # 2
  | xO p' => (radical_inverse p' / 2)%Q
  | xI p' => ((1 # 2) + radical_inverse p' / 2)%Q
  end.

Definition sobol_point (D : nat) (i : nat) : list Q :=
  replicate D (match N.of_nat i with N0 => 0%Q | Npos p => radical_inverse p end).

Definition rvs (v : variable) (r : nat) : value * nat :=
  (match v with
   | EnumVariable _ choices => default VNone (choices !! (r mod length choices)%nat)
   | IntVariable _ lo hi => VInt (lo + Z.of_nat r mod (hi - lo + 1))
   | FloatVariable _ lo hi => VFloat (lo + fraction r * (hi - lo))%Q
   end, S r).

(** [floor(q)] *)
Definition floor (q : Q) : Z := Qnum q / Zpos (Qden q).

(** The transforms between a variable and the unit interval: the index
    of the choice, or the position between the bounds. *)
Definition to_gp (v : variable) (x : value) : Q :=
  match v with
  | EnumVariable _ choices =>
      match head (HyperoptTPE.matches choices x) with
      | Some i => (Z.of_nat i # Pos.of_nat (length choices))
      | None => 0%Q
      end
  | IntVariable _ lo hi =>
      ((default 0 (value_num x) - inject_Z lo) / inject_Z (hi - lo))%Q
  | FloatVariable _ lo hi => Qred ((default 0 (value_num x) - lo) / (hi - lo))%Q
  end.

Definition from_gp (v : variable) (g : Q) : value :=
  match v with
  | EnumVariable _ choices =>
      let n := length choices in
      default VNone
        (choices !! Nat.min (Z.to_nat (floor (g * inject_Z (Z.of_nat n))%Q)) (n - 1))
  | IntVariable _ lo hi => VInt (lo + floor (g * inject_Z (hi - lo) + (1 # 2))%Q)
  | FloatVariable _ lo hi => VFloat (Qred (lo + g * (hi - lo))%Q)
  end.

Definition squared_distance (x y : list Q) : Q :=
  Qsum (zip_with (fun a b => (a - b) * (a - b))%Q x y).

(** A prediction: the mean of the observations, and the squared distance
    to the first observed point less a round-off, which makes the
    variance slightly negative at that point. *)
Definition prediction (X : list (list Q)) (Y : list Q) (x : list Q) : Q * Q :=
  (Qsum Y / inject_Z (Z.of_nat (length Y)),
   squared_distance x (default [] (head X)) - (1 # 1000))%Q.

(** The fit fails, as singular, when two observed points coincide. *)
Definition same_point (x y : list Q) : bool :=
  (length x =? length y)%nat && forallb id (zip_with Qeq_bool x y).

Fixpoint repeated (X : list (list Q)) : bool :=
  match X with
  | [] => false
  | x :: rest => existsb (same_point x) rest || repeated rest
  end.

Definition fit (X : list (list Q)) (r : nat) : outcome unit * nat :=
  (if repeated X then Raise LinAlgError else Return (), S r).

(** hyperopt proposes the first point of the space. *)
Definition first_point (space : gmap string variable) : params :=
  (fun v => from_gp v 0) <$> space.

Definition libraries : Libraries := {|
  hyperopt_imported := true;
  GPy_imported := true;
  SALib_imported := true;
  rng := nat;
  RandomState := Z.to_nat;
  randint := fun n r => (Z.of_nat r mod n, S r);
  np_random_random := fun rows cols r =>
    (replicate rows (replicate cols (fraction r)), S r);
  np_random_randint := fun n r => ((r mod n)%nat, S r);
  np_sqrt := sqrt;
  np_log := fun q => (q - 1)%Q;
  np_exp := fun q => (1 + q)%Q;
  norm_cdf := fun _ => 1 # 2;
  norm_pdf := fun _ => 2 # 5;
  var_rvs := rvs;
  point_to_gp := to_gp;
  point_from_gp := from_gp;
  ss_sample := fun N D => sobol_point D <$> seq 0 N;
  kernel := unit;
  load_kernel := fun _ _ => Return ();
  kernel_sum := fun _ => ();
  hyper := unit;
  optimize_restarts := fun X _ _ _ r => fit X r;
  predict := fun X Y _ _ x => prediction X Y x;
  minimize := fun x0 _ _ => Ask x0 (fun y => Stop x0 y);
  fmin_args := HasRstate;
  fmin := fun space _ _ _ _ random =>
    ([first_point space], match random with inl r => S r | inr _ => 0%nat end)
|}.

(** An instance of [GP] for an acquisition function, as [__init__]
    leaves it: one start, no iteration of the minimiser. *)
Definition gp (acquisition : string) (seeds : Z) : @GP.t libraries :=
  {| GP.seed := None; GP.seeds := seeds; GP.max_iter := 0; GP.n_iter := 1;
     GP.n_init := 20; GP.sobol_init := false; GP.optimize_best := false;
     GP.predict_from_gp := false; GP.model := None; GP.n_dims := None;
     GP.kernel_ := None; GP.x_best := None; GP.y_best := None;
     GP.y_best_var := None; GP.transformed := false;
     GP._kerns := GP.default_kernels;
     GP.acquisition_name := acquisition; GP.acquisition_params := ∅ |}.

End Demo.

(** Two continuous variables on the unit interval, and a history of two
    succeeded trials at opposite corners of the unit square. *)
Definition unit_square : SearchSpace.t :=
  [FloatVariable "x" 0 1; FloatVariable "y" 0 1].

Definition corner (c : Q) : params := {[ "x" := VFloat c; "y" := VFloat c ]}.

Definition two_corners : history :=
  [(corner 0, ScoreScalar 1, SUCCEEDED); (corner 1, ScoreScalar 2, SUCCEEDED)].

(** The same trial, evaluated twice. *)
Definition one_corner_twice : history :=
  [(corner 0, ScoreScalar 1, SUCCEEDED); (corner 0, ScoreScalar 2, SUCCEEDED)].

(** A history with an entry of each status, on [space1]. *)
Definition history3 : history :=
  [({[ "x" := VStr "a" ]}, ScoreSeq 1 [2; 3]%Q, SUCCEEDED);
   ({[ "x" := VStr "a" ]}, ScoreNone, PENDING);
   ({[ "x" := VStr "a" ]}, ScoreNone, FAILED)].

(** One categorical variable with a single choice. *)
Definition space1 : SearchSpace.t := [EnumVariable "x" [VStr "a"]].

(** Two categorical variables, with two and three choices. *)
Definition space23 : SearchSpace.t :=
  [EnumVariable "a" [VInt 1; VInt 2];
   EnumVariable "b" [VStr "x"; VStr "y"; VStr "z"]].

(** ** Predicates of the properties *)

(** A combination of a search space: a parameter mapping on the names of
    the variables that gives every variable one of its choices. *)
Definition combination (searchspace : SearchSpace.t) (p : params) : Prop :=
  dom p = list_to_set (SearchSpace.names searchspace)
  /\ forall v, v ∈ searchspace -> exists x, p !! name v = Some x /\ x ∈ choices v.

(** ** The worker loop *)

(** [execute_worker.py]: the loop of [execute] and the count of
    [print_footer], for one worker on the session. *)
Module worker.
Section worker.
Context {libs : Libraries}.
Import execute_worker.

(** What an iteration reads from outside: the clock, the scores that
    the fit gives and what happens in the [try] block. *)
Record reading : Type := mk_reading {
  now_started : Z;
  now_completed : Z;
  mean : Q;
  cv : list Q;
  ev : event
}.

(** [[[t.parameters, t.mean_cv_score, t.status]
      for t in session.query(Trial).all()]] *)
Definition history_of (session : Session) : history :=
  (fun t : Trial =>
     (parameters t,
      match mean_cv_score t with Some s => ScoreScalar s | None => ScoreNone end,
      status t)) <$> session.

(** What ends the loop before its last iteration: an error of
    [suggest] or of the assertion, or what leaves [run_single_trial]. *)
Inductive stop : Type :=
| Error (e : exn)
| Left (r : raised).

(** The iterations [i], [i + 1], ... of the loop of [execute]. *)
Fixpoint iterations (estimator : gmap string param) (searchspace : SearchSpace.t)
    (config_sha1 hostname username : string) (environment : nat -> reading)
    (todo i : nat) (st : strategy) (session : Session) (global : rng)
    (statuses : list (option string))
  : option stop * strategy * Session * rng * list (option string) :=
  match todo with
  | O => (None, st, session, global, statuses)
  | S todo' =>
      let h := history_of session in
      let '(r, st, global) := suggest st h searchspace global in
      match r with
      | Raise e => (Some (Error e), st, session, global, statuses)
      | Return p =>
          if negb (size p =? SearchSpace.n_dims searchspace)%nat
          then (Some (Error AssertionError), st, session, global, statuses)
          else
            let e := environment i in
            let '(how, _, session) :=
              run_single_trial estimator p config_sha1 hostname username session
                (now_started e) (now_completed e) (mean e) (cv e) (ev e) in
            match how with
            | Leaves r => (Some (Left r), st, session, global, statuses)
            | Returns s =>
                iterations estimator searchspace config_sha1 hostname username
                  environment todo' (S i) st session global (<[i := Some s]> statuses)
            end
      end
  end.

(** [execute], from the list of the statuses to the end of the loop. *)
Definition execute (n_iters : Z) (estimator : gmap string param)
    (searchspace : SearchSpace.t) (config_sha1 hostname username : string)
    (environment : nat -> reading) (st : strategy) (session : Session)
    (global : rng)
  : option stop * strategy * Session * rng * list (option string) :=
  let statuses := replicate (Z.to_nat n_iters) None in
  iterations estimator searchspace config_sha1 hostname username environment
    (Z.to_nat n_iters) 0 st session global statuses.

(** [sum(s == 'SUCCEEDED' for s in statuses)] *)
Definition n_successes (statuses : list (option string)) : nat :=
  sum_list ((fun s => if bool_decide (s = Some SUCCEEDED) then 1 else 0)%nat <$> statuses).

(** The counts that [print_footer] prints:
    [(n_successes, len(statuses))]. *)
Definition print_footer (statuses : list (option string)) : nat * nat :=
  (n_successes statuses, length statuses).

End worker.
End worker.

(** The evaluations after which the worker goes on: the [try] block
    completes or raises an [Exception]. *)
Definition goes_on (ev : execute_worker.event) : Prop :=
  match ev with
  | execute_worker.Completes
  | execute_worker.Raises _ (execute_worker.Exception_ _) => True
  | _ => False
  end.

(** ** The plots *)

(** [plot.py]: the running best of [plot_2]. *)
Module plot.

(** A row of the data, by the columns that [plot_2] reads: [id] and
    [mean_test_score]. *)
Definition row : Type := Z * Q.

(** One pass of the loop of [plot_2], at the row [i]: the row is
    appended when its score is greater than [y[-1]]; [y] is never
    empty. *)
Definition running_best (acc : list Z * list Q * list nat) (ir : nat * row)
  : list Z * list Q * list nat :=
  let '(x, y, kept) := acc in
  match last y with
  | Some best =>
      if negb (Qle_bool ir.2.2 best)
      then (x ++ [ir.2.1], y ++ [ir.2.2], kept ++ [ir.1])
      else acc
  | None => acc
  end.

(** [plot_2]: the points [x] and [y] and the rows of [df_params] that
    are given to [build_scatter_tooltip].  [nonconstant_parameters]
    asserts that there is data. *)
Definition plot_2 (data : list row) : outcome (list Z * list Q * list nat) :=
  match data with
  | [] => Raise AssertionError
  | first :: _ =>
      Return (fold_left running_best (zip (seq 0 (length data)) data)
                ([first.1], [first.2], [0%nat]))
  end.

End plot.

(** What holds of the lists of [plot_2] after the loop went over the
    rows [pre]: the points are rows of [pre], in order; a row is kept
    exactly when its score is greater than every earlier one; [y]
    increases strictly and ends with the greatest score. *)
Definition running_records (pre : list plot.row)
    (acc : list Z * list Q * list nat) : Prop :=
  let '(x, y, kept) := acc in
  length x = length kept /\ length y = length kept
  /\ Forall2 (fun (i : nat) (xy : plot.row) => pre !! i = Some xy) kept (zip x y)
  /\ (forall i : nat, i ∈ kept <->
        (i < length pre)%nat
        /\ forall (j : nat) (sj si : Q), (j < i)%nat ->
             pre.*2 !! j = Some sj -> pre.*2 !! i = Some si -> (sj < si)%Q)
  /\ (forall (n : nat) (a b : Q), y !! n = Some a -> y !! S n = Some b -> (a < b)%Q)
  /\ exists m : Q,
       last y = Some m /\ m ∈ pre.*2 /\ Forall (fun s => (s <= m)%Q) pre.*2.

(** Set equalities by membership. *)
Ltac by_membership :=
  apply set_eq; intros ?; cbn;
  repeat (rewrite elem_of_union || rewrite elem_of_singleton
          || rewrite elem_of_list_to_set || rewrite elem_of_cons
          || rewrite dom_empty);
  rewrite ?elem_of_nil, ?elem_of_empty; tauto.

Section ProductLemmas.
Import ParameterGrid.

Lemma bind_lookup_uniform {A B} (f : A -> list B) (n : nat) (l : list A) (i : nat) :
  (forall x, length (f x) = n) -> n <> 0%nat ->
  (l ≫= f) !! i = l !! (i / n)%nat ≫= (fun x => f x !! (i mod n)%nat).
Proof.
  intros Hlen Hn. revert i. induction l as [|x l IH]; intros i; csimpl.
  - done.
  - destruct (decide (i < n)%nat) as [Hlt|Hge].
    + rewrite lookup_app_l by (rewrite Hlen; lia).
      rewrite Nat.div_small, Nat.mod_small by lia. done.
    + rewrite lookup_app_r by (rewrite Hlen; lia).
      rewrite Hlen, IH.
      assert (i / n = S ((i - n) / n))%nat as ->.
      { replace i with ((i - n) + 1 * n)%nat at 1 by lia.
        rewrite Nat.div_add by lia. lia. }
      assert (i mod n = (i - n) mod n)%nat as ->.
      { replace i with ((i - n) + 1 * n)%nat at 1 by lia.
        by rewrite Nat.Div0.mod_add. }
      done.
Qed.

Lemma product_snoc (vals : list (list value)) (vs : list value) :
  product (vals ++ [vs]) = c ← product vals; (fun v => c ++ [v]) <$> vs.
Proof.
  induction vals as [|ws vals IH]; csimpl.
  - rewrite app_nil_r. induction vs as [|v vs IHv]; csimpl; [done|].
    by rewrite IHv.
  - rewrite IH. clear IH. induction ws as [|w ws IHw]; csimpl; [done|].
    rewrite IHw. rewrite bind_app. f_equal.
    generalize (product vals). intros l. induction l as [|c l IHl]; csimpl; [done|].
    rewrite fmap_app, IHl. f_equal. rewrite <- list_fmap_compose. done.
Qed.

Lemma length_product (vals : list (list value)) :
  length (product vals) = product_of (length <$> vals).
Proof.
  induction vals as [|vs vals IH]; csimpl; [done|].
  rewrite <- IH. clear IH. induction vs as [|v vs IHv]; csimpl; [done|].
  rewrite length_app, length_fmap, IHv. done.
Qed.

Lemma product_elem_length (vals : list (list value)) (c : list value) :
  c ∈ product vals -> length c = length vals.
Proof.
  revert c. induction vals as [|vs vals IH]; csimpl; intros c Hc.
  - apply list_elem_of_singleton in Hc. by subst.
  - apply list_elem_of_bind in Hc as (v & Hc & _).
    apply list_elem_of_fmap in Hc as (c' & -> & Hc'). csimpl. f_equal. auto.
Qed.
End ProductLemmas.

Section GridLemmas.
Import ParameterGrid.

Lemma product_of_app (xs ys : list nat) :
  product_of (xs ++ ys) = (product_of xs * product_of ys)%nat.
Proof.
  induction xs as [|x xs IH]; simpl; [lia|]. rewrite IH. lia.
Qed.

(** What the loop of [__getitem__] computes, on the reversed items. *)
Lemma decode_rev (its : list (string * list value)) (i : nat) (out : params) :
  (i < product_of (sizes its))%nat ->
  exists combo,
    product its.*2 !! i = Some combo /\
    decode (rev its) i out =
      Return (foldr (fun kv m => <[kv.1 := kv.2]> m) out (zip its.*1 combo)).
Proof.
  revert i out. induction its as [|[k vs] its IH] using rev_ind; intros i out Hi.
  - simpl in *. assert (i = 0%nat) as -> by lia. by exists [].
  - unfold sizes in Hi. rewrite fmap_app, product_of_app in Hi. simpl in Hi.
    set (n := length vs) in *.
    assert (n <> 0)%nat as Hn by (intros Hz; rewrite Hz in Hi; lia).
    rewrite rev_unit. simpl. fold n.
    destruct (lookup_lt_is_Some_2 vs (i mod n)%nat) as [v Hv].
    { apply Nat.mod_upper_bound; done. }
    rewrite Hv.
    destruct (IH (i / n)%nat (<[k := v]> out)) as (combo & Hc & Hd).
    { apply Nat.Div0.div_lt_upper_bound. unfold sizes. lia. }
    exists (combo ++ [v]). split.
    + rewrite fmap_app. simpl. rewrite product_snoc.
      rewrite (bind_lookup_uniform _ n) by (done || intros; by rewrite length_fmap).
      rewrite Hc. csimpl. rewrite list_lookup_fmap, Hv. done.
    + rewrite Hd. rewrite fmap_app. simpl.
      rewrite zip_with_app.
      * by rewrite foldr_app.
      * rewrite length_fmap. symmetry.
        rewrite <- (length_fmap snd its). apply product_elem_length.
        eapply list_elem_of_lookup_2; eauto.
Qed.

Lemma rev_reverse {A} (l : list A) : rev l = reverse l.
Proof. unfold reverse. apply rev_alt. Qed.

Lemma product_of_rev (xs : list nat) : product_of (rev xs) = product_of xs.
Proof.
  induction xs as [|x xs IH]; simpl; [done|].
  rewrite product_of_app, IH. simpl. lia.
Qed.

Lemma dict_list_to_map {V} (l : list (string * V)) :
  NoDup l.*1 -> dict l = list_to_map l.
Proof.
  intros Hnd. unfold dict.
  transitivity (list_to_map (M := gmap string V) (rev l)).
  - symmetry.
    apply (fold_left_rev_right (fun (p : string * V) => <[p.1 := p.2]>) l ∅).
  - apply list_to_map_proper.
    + rewrite rev_reverse, fmap_reverse. by rewrite reverse_Permutation.
    + symmetry. apply Permutation_rev.
Qed.

Lemma NoDup_items (g : ParameterGrid.t) : NoDup (items g).*1.
Proof.
  unfold items. rewrite merge_sort_Permutation. apply NoDup_fst_map_to_list.
Qed.

Lemma length_iter (g : ParameterGrid.t) : length (iter g) = len g.
Proof.
  unfold iter, len, sizes. rewrite length_fmap, length_product.
  by rewrite <- list_fmap_compose.
Qed.

(** [__getitem__] reads the grid in its order of enumeration. *)
Lemma getitem_iter (g : ParameterGrid.t) (i : nat) :
  (i < len g)%nat ->
  exists p, iter g !! i = Some p /\ getitem g i = Return p.
Proof.
  intros Hi. unfold getitem, iter.
  assert (product_of (sizes (rev (items g))) = len g) as ->.
  { unfold sizes, len. rewrite rev_reverse, fmap_reverse, <- rev_reverse.
    apply product_of_rev. }
  destruct (Nat.leb_spec (len g) i) as [?|_]; [lia|].
  destruct (decode_rev (items g) i ∅ Hi) as (combo & Hc & Hd).
  exists (dict (zip (items g).*1 combo)). split.
  - rewrite list_lookup_fmap, Hc. done.
  - rewrite Hd. f_equal. rewrite dict_list_to_map; [done|].
    rewrite fst_zip; [apply NoDup_items|].
    rewrite length_fmap. rewrite <- (length_fmap snd (items g)).
    apply Nat.eq_le_incl. symmetry. apply product_elem_length.
    eapply list_elem_of_lookup_2; eauto.
Qed.

Lemma getitem_out_of_range (g : ParameterGrid.t) (i : nat) :
  (len g <= i)%nat -> getitem g i = Raise IndexError.
Proof.
  intros Hi. unfold getitem.
  assert (product_of (sizes (rev (items g))) = len g) as ->.
  { unfold sizes, len. rewrite rev_reverse, fmap_reverse, <- rev_reverse.
    apply product_of_rev. }
  destruct (Nat.leb_spec (len g) i); [done|lia].
Qed.
End GridLemmas.

Section GridSearchFacts.
Import GridSearch.

#[local] Instance product_of_Permutation :
  Proper ((≡ₚ) ==> (=)) ParameterGrid.product_of.
Proof.
  intros xs ys Hp. induction Hp; simpl; lia || congruence.
Qed.

(** With unique names the grid has as many elements as the Cartesian
    product of the choices. *)
Lemma len_grid (searchspace : SearchSpace.t) :
  SearchSpace.valid searchspace ->
  ParameterGrid.len (grid searchspace)
  = ParameterGrid.product_of ((fun v => length (choices v)) <$> searchspace).
Proof.
  intros Hv. unfold ParameterGrid.len, ParameterGrid.sizes, ParameterGrid.items, grid.
  rewrite merge_sort_Permutation.
  assert (NoDup ((fun v => (name v, choices v)) <$> searchspace).*1) as Hnd.
  { rewrite <- list_fmap_compose. exact Hv. }
  rewrite dict_list_to_map by done.
  rewrite map_to_list_to_map by done.
  by rewrite <- list_fmap_compose.
Qed.

Lemma after_not_all_enum hs searchspace n :
  forallb is_EnumVariable searchspace = false ->
  after hs searchspace n = __init__.
Proof.
  intros He. induction n as [|n IH]; simpl; [done|].
  rewrite IH. unfold suggest, grid_of. simpl. by rewrite He.
Qed.

Lemma after_all_enum hs searchspace n :
  forallb is_EnumVariable searchspace = true ->
  after hs searchspace (S n)
  = {| param_grid := Some (grid searchspace); current := Z.of_nat n |}.
Proof.
  intros He. induction n as [|n IH].
  - simpl. unfold suggest, grid_of. simpl. rewrite He.
    by destruct (Z.of_nat (ParameterGrid.len (grid searchspace)) =? 0).
  - change (after hs searchspace (S (S n)))
      with (suggest (after hs searchspace (S n)) (hs (S n)) searchspace).2.
    rewrite IH. unfold suggest, grid_of. simpl.
    replace (Z.of_nat n + 1) with (Z.of_nat (S n)) by lia.
    by destruct (Z.of_nat (ParameterGrid.len (grid searchspace)) =? 0).
Qed.

(** The [n]-th call reads the grid at [n mod len]. *)
Lemma nth_call_all_enum hs searchspace n :
  forallb is_EnumVariable searchspace = true ->
  ParameterGrid.len (grid searchspace) <> 0%nat ->
  nth_call hs searchspace n
  = ParameterGrid.getitem (grid searchspace)
      (n mod ParameterGrid.len (grid searchspace))%nat.
Proof.
  intros He Hlen. unfold nth_call.
  assert (forall c, suggest {| param_grid := Some (grid searchspace); current := c |}
                      (hs n) searchspace
                    = suggest {| param_grid := None; current := c |} (hs n) searchspace)
    as Hsame.
  { intros c. unfold suggest, grid_of. simpl. by rewrite He. }
  assert ((suggest {| param_grid := None; current := Z.of_nat n - 1 |}
             (hs n) searchspace).1
          = ParameterGrid.getitem (grid searchspace)
              (n mod ParameterGrid.len (grid searchspace))%nat) as Hcall.
  { unfold suggest, grid_of. simpl. rewrite He.
    destruct (Z.eqb_spec (Z.of_nat (ParameterGrid.len (grid searchspace))) 0) as [?|_];
      [lia|].
    simpl. f_equal. replace (Z.of_nat n - 1 + 1) with (Z.of_nat n) by lia.
    rewrite <- Nat2Z.inj_mod. apply Nat2Z.id. }
  destruct n as [|n].
  - exact Hcall.
  - rewrite after_all_enum by done. rewrite Hsame.
    replace (Z.of_nat n) with (Z.of_nat (S n) - 1) by lia. exact Hcall.
Qed.
End GridSearchFacts.

(** ** GridSearch: the order of the grid *)

Lemma GridSearch_after_ext (hs1 hs2 : nat -> history) (searchspace : SearchSpace.t) (n : nat) :
  GridSearch.after hs1 searchspace n = GridSearch.after hs2 searchspace n.
Proof.
  induction n as [|n IH]; simpl; [done|]. rewrite IH. reflexivity.
Qed.

(** C10. [GridSearch.suggest] never reads its history: two instances called
    [n] times each, with any two families of histories and the same search
    space, are in the same state, and their next calls give the same
    outcome (the same parameter mapping, or the same error). *)
Theorem GridSearch_suggest_ignores_history
    (hs1 hs2 : nat -> history) (searchspace : SearchSpace.t) (n : nat) :
  GridSearch.nth_call hs1 searchspace n = GridSearch.nth_call hs2 searchspace n
  /\ GridSearch.after hs1 searchspace n = GridSearch.after hs2 searchspace n.
Proof.
  split; [|apply GridSearch_after_ext].
  unfold GridSearch.nth_call. rewrite (GridSearch_after_ext hs1 hs2). reflexivity.
Qed.

Lemma GridSearch_nth_call_iter (hs : nat -> history) (searchspace : SearchSpace.t) (n : nat) :
  forallb is_EnumVariable searchspace = true ->
  length (ParameterGrid.iter (GridSearch.grid searchspace)) <> 0%nat ->
  exists p,
    ParameterGrid.iter (GridSearch.grid searchspace)
      !! (n mod length (ParameterGrid.iter (GridSearch.grid searchspace)))%nat = Some p
    /\ GridSearch.nth_call hs searchspace n = Return p.
Proof.
  rewrite length_iter. intros He HG.
  rewrite nth_call_all_enum by done.
  apply getitem_iter. by apply Nat.mod_upper_bound.
Qed.

(** C6. [GridSearch.suggest] raises the configuration error, on the first
    call and on every later one, when some variable of the search space is
    not categorical.  On an all-categorical space with a non-empty grid the
    [n]-th call (from 0), whatever the histories, returns the grid element
    at index [n mod G], where [G] is the number of grid elements: with
    unique names, the product of the numbers of choices.  So on two
    variables with 2 and 3 choices the calls 0 to 7 return the six
    combinations in grid order and then combinations 0 and 1 again; every
    call returns, none fails for exhaustion. *)
Theorem GridSearch_suggest_wraps_around
    (hs : nat -> history) (searchspace : SearchSpace.t) (n : nat) :
  let g := GridSearch.grid searchspace in
  let G := length (ParameterGrid.iter g) in
  (forallb is_EnumVariable searchspace = false ->
     GridSearch.nth_call hs searchspace n = Raise GridSearch.not_all_enum)
  /\ (forallb is_EnumVariable searchspace = true -> G <> 0%nat ->
        exists p, ParameterGrid.iter g !! (n mod G)%nat = Some p
                  /\ GridSearch.nth_call hs searchspace n = Return p)
  /\ (SearchSpace.valid searchspace ->
        G = ParameterGrid.product_of ((fun v => length (choices v)) <$> searchspace))
  /\ (forall a ca b cb, a <> b -> length ca = 2%nat -> length cb = 3%nat ->
        let two := [EnumVariable a ca; EnumVariable b cb] in
        length (ParameterGrid.iter (GridSearch.grid two)) = 6%nat
        /\ forall m, (m < 8)%nat ->
             exists p, ParameterGrid.iter (GridSearch.grid two) !! (m mod 6)%nat = Some p
                       /\ GridSearch.nth_call hs two m = Return p).
Proof.
  intros g G. split; [|split; [|split]].
  - intros He. unfold GridSearch.nth_call. rewrite after_not_all_enum by done.
    unfold GridSearch.suggest, GridSearch.grid_of. simpl. by rewrite He.
  - intros He HG. by apply GridSearch_nth_call_iter.
  - intros Hv. unfold G, g. rewrite length_iter. by apply len_grid.
  - intros a ca b cb Hab Hca Hcb two.
    assert (length (ParameterGrid.iter (GridSearch.grid two)) = 6%nat) as H6.
    { rewrite length_iter, len_grid; [simpl; rewrite Hca, Hcb; done|].
      unfold SearchSpace.valid, SearchSpace.names. simpl. apply NoDup_cons. split; [|apply NoDup_singleton].
      intros Hin. apply list_elem_of_singleton in Hin. done. }
    split; [done|]. intros m _.
    rewrite <- H6. apply GridSearch_nth_call_iter; [done|lia].
Qed.

Lemma GridSearch_suggest_wraps_around_witness :
  exists p,
    ParameterGrid.iter (GridSearch.grid space23) !! 1%nat = Some p
    /\ GridSearch.nth_call (fun _ => []) space23 7 = Return p.
Proof.
  destruct (GridSearch_suggest_wraps_around (fun _ => []) space23 7) as (_ & H & _).
  apply H; [reflexivity | vm_compute; discriminate].
Defined.

(** The eight calls on [space23], written out. *)
Example GridSearch_eight_calls :
  GridSearch.nth_call (fun _ => []) space23 <$> seq 0 8
  = Return <$>
      [dict [("a", VInt 1); ("b", VStr "x")]; dict [("a", VInt 1); ("b", VStr "y")];
       dict [("a", VInt 1); ("b", VStr "z")]; dict [("a", VInt 2); ("b", VStr "x")];
       dict [("a", VInt 2); ("b", VStr "y")]; dict [("a", VInt 2); ("b", VStr "z")];
       dict [("a", VInt 1); ("b", VStr "x")]; dict [("a", VInt 1); ("b", VStr "y")]].
Proof. vm_compute. reflexivity. Qed.

(** ** SobolSearch *)

Section SobolFacts.
Context {libs : Libraries}.
Import SobolSearch.
#[local] Opaque _SKIP.

Variables (L : nat) (hs : nat -> history) (searchspace : SearchSpace.t).
Hypothesis imported : SALib_imported = true.
Hypothesis empty_first : hs 0%nat = [].
Hypothesis rows :
  List.length (ss_sample (L + _SKIP) (SearchSpace.n_dims searchspace))
  = (L + _SKIP)%nat.

#[local] Abbreviation the_sequence :=
  (ss_sample (L + _SKIP) (SearchSpace.n_dims searchspace)).
#[local] Abbreviation used := (SobolSearch.consumed L searchspace).








End SobolFacts.

Section SobolProperties.
Context {libs : Libraries}.
Import SobolSearch.

End SobolProperties.



(** ** HyperoptTPE: the synthetic trial records *)

Section TPEFacts.
Context {libs : Libraries}.
Import HyperoptTPE.

Lemma result_of_unrecognized sc st :
  ~ recognized st -> result_of sc st = Raise (unrecognized st).
Proof.
  intros Hst. unfold result_of.
  destruct (String.eqb_spec st SUCCEEDED) as [->|_].
  { exfalso. apply Hst. apply list_elem_of_In. simpl. tauto. }
  destruct (String.eqb_spec st PENDING) as [->|_].
  { exfalso. apply Hst. apply list_elem_of_In. simpl. tauto. }
  destruct (String.eqb_spec st FAILED) as [->|_]; [|done].
  exfalso. apply Hst. apply list_elem_of_In. simpl. tauto.
Qed.

Lemma result_of_matches sc st r p d :
  result_of sc st = Return r -> result d = r -> result_matches (p, sc, st) d.
Proof.
  intros Hr Hd. unfold result_matches. simpl.
  destruct (decide (recognized st)) as [Hrec|Hrec];
    [|by rewrite result_of_unrecognized in Hr].
  unfold result_of in Hr. repeat split; try done.
  - intros ->. simpl in Hr. destruct (np_mean sc) as [m|e]; [|done].
    exists m. split; [done|]. simpl in Hr. congruence.
  - intros ->. simpl in Hr. congruence.
  - intros ->. simpl in Hr. congruence.
Qed.

Lemma docs_from_results i h searchspace hp docs :
  docs_from i h searchspace hp = Return docs -> Forall2 result_matches h docs.
Proof.
  revert i docs. induction h as [|[[p sc] st] h IH]; intros i docs Hd; simpl in Hd.
  - injection Hd as <-. constructor.
  - destruct (result_of sc st) as [r|] eqn:Hr; [|done]. simpl in Hd.
    destruct (vals_of searchspace p ∅) as [vals|]; [|done]. simpl in Hd.
    destruct (docs_from (S i) h searchspace hp) as [rest|] eqn:Hrest; [|done].
    simpl in Hd. injection Hd as <-. constructor; [|by eapply IH].
    by eapply result_of_matches.
Qed.

Lemma docs_from_unrecognized i h searchspace hp e :
  e ∈ h -> ~ recognized e.2 -> exists err, docs_from i h searchspace hp = Raise err.
Proof.
  intros Hin Hst. revert i.
  induction h as [|[[p sc] st] h IH]; intros i; [by apply elem_of_nil in Hin|].
  apply elem_of_cons in Hin as [->|Hin]; simpl.
  - simpl in Hst. rewrite result_of_unrecognized by done. eauto.
  - destruct (result_of sc st); [|by eauto]. simpl.
    destruct (vals_of searchspace p ∅); [|by eauto]. simpl.
    destruct (IH Hin (S i)) as [err ->]. eauto.
Qed.

(** C7. Every record that the bridge builds stands for the history entry
    of its rank, and its result follows the status of the entry: the
    loss [- mean(scores)] with the status [ok] for SUCCEEDED, the status
    [running] and no loss for PENDING, the status [fail] (not [ok]) and
    no loss for FAILED.  An entry with any other status makes the loop
    raise (the [RuntimeError] at that entry, when nothing is raised
    before), and with it [suggest]. *)
Theorem HyperoptTPE_records_follow_the_status
    (self : t) (h : history) (searchspace : SearchSpace.t) (global : rng) :
  let hp_searchspace := SearchSpace.to_hyperopt searchspace in
  (forall docs, docs_from 0 h searchspace hp_searchspace = Return docs ->
     Forall2 result_matches h docs)
  /\ STATUS_FAIL <> STATUS_OK
  /\ (forall sc st, ~ recognized st -> result_of sc st = Raise (unrecognized st))
  /\ (forall e, e ∈ h -> ~ recognized e.2 ->
        (exists err, docs_from 0 h searchspace hp_searchspace = Raise err)
        /\ (exists err, (suggest self h searchspace global).1 = Raise err)).
Proof.
  intros hp. split; [|split; [|split]].
  - intros docs. apply docs_from_results.
  - done.
  - intros sc st. apply result_of_unrecognized.
  - intros e Hin Hst.
    destruct (docs_from_unrecognized 0 h searchspace hp e Hin Hst) as [err Herr].
    split; [by eauto|]. unfold suggest.
    destruct hyperopt_imported; simpl; [|by eauto].
    fold hp. rewrite Herr. eauto.
Qed.
End TPEFacts.

Lemma HyperoptTPE_records_follow_the_status_witness :
  exists docs,
    HyperoptTPE.docs_from 0 history3 space1 (SearchSpace.to_hyperopt space1)
    = Return docs
    /\ Forall2 HyperoptTPE.result_matches history3 docs
    /\ result <$> docs
       = [{| loss := Some (-6 # 3)%Q; status := STATUS_OK |};
          {| loss := None; status := STATUS_RUNNING |};
          {| loss := None; status := STATUS_FAIL |}].
Proof.
  eexists. split; [vm_compute; reflexivity|]. split; [|vm_compute; reflexivity].
  apply (proj1 (@HyperoptTPE_records_follow_the_status Demo.libraries
                  (HyperoptTPE.__init__ None (1 # 4) 20) history3 space1 0%nat)).
  vm_compute. reflexivity.
Defined.

(** ** The trial runner *)

Section TrialRunner.
Import execute_worker.

Lemma insert_last {A} (l : list A) (x y : A) : <[length l := y]> (l ++ [x]) = l ++ [y].
Proof. induction l as [|z l IH]; simpl; [done|]. by rewrite IH. Qed.



(** An exception that is neither an [Exception] nor a cancellation meets
    no handler: the trial is committed with its completion time and is
    still PENDING.  This is the case that the theorem above leaves out. *)
Lemma run_single_trial_other_exception
    (estimator : gmap string param) (p resolved : params)
    (sha hostname username : string) (session : Session)
    (now_started now_completed : Z) (mean : Q) (cv : list Q) :
  resolve estimator p = Return resolved ->
  exists t,
    run_single_trial estimator p sha hostname username session
      now_started now_completed mean cv (Raises fit_grid BaseException_)
    = (Leaves BaseException_, Some t, session ++ [t])
    /\ status t = PENDING /\ completed t = Some now_completed.
Proof.
  intros Hres. unfold run_single_trial. rewrite Hres.
  eexists. split; [cbn; rewrite insert_last; reflexivity|]. done.
Qed.
End TrialRunner.


(** ** The search space and RandomSearch *)

Section RandomFacts.
Context {libs : Libraries}.

Lemma draw_dom (searchspace : SearchSpace.t) (acc : params * rng) :
  dom (fold_left
         (fun acc v => let '(x, r) := var_rvs v acc.2 in (<[name v := x]> acc.1, r))
         searchspace acc).1
  = dom acc.1 ∪ list_to_set (SearchSpace.names searchspace).
Proof.
  revert acc. induction searchspace as [|v rest IH]; intros acc; simpl.
  - by_membership.
  - rewrite IH. destruct (var_rvs v acc.2) as [x r]. simpl.
    rewrite dom_insert_L. by_membership.
Qed.

Lemma rvs_dom (searchspace : SearchSpace.t) (seed : option Z) (global : rng) :
  dom (SearchSpace.rvs searchspace seed global).1
  = list_to_set (SearchSpace.names searchspace).
Proof.
  unfold SearchSpace.rvs, SearchSpace.draw.
  destruct seed; simpl; rewrite draw_dom; simpl; by_membership.
Qed.

(** [RandomSearch.suggest] always returns, a mapping on the names. *)
Lemma RandomSearch_suggest_returns self h (searchspace : SearchSpace.t) global :
  exists p global',
    RandomSearch.suggest self h searchspace global = (Return p, global')
    /\ dom p = list_to_set (SearchSpace.names searchspace).
Proof.
  unfold RandomSearch.suggest.
  pose proof (rvs_dom searchspace (RandomSearch.seed self) global) as Hdom.
  destruct (SearchSpace.rvs searchspace (RandomSearch.seed self) global) as [p g'].
  by exists p, g'.
Qed.

Lemma to_gp_total (searchspace : SearchSpace.t) (p : params) :
  Forall (fun v => is_Some (p !! name v)) searchspace ->
  exists point, SearchSpace.to_gp searchspace p = Return point
                /\ length point = length searchspace.
Proof.
  induction 1 as [|v rest [x Hx] _ (point & Hp & Hlen)]; simpl.
  - by exists [].
  - rewrite Hx, Hp. simpl. exists (point_to_gp v x :: point). simpl. auto.
Qed.
End RandomFacts.

(** ** GP *)

Section GPFacts.
Context {libs : Libraries}.
Import GP.

Lemma get_data_total (h : history) (searchspace : SearchSpace.t) :
  Forall (well_formed searchspace) h ->
  exists X Y V ignore,
    _get_data h searchspace = Return (X, Y, V, ignore)
    /\ length Y = length (succeeded h) /\ length X = length Y.
Proof.
  induction 1 as [|[[p sc] st] h (Hrec & Hp & Hsc) _ (X & Y & V & ign & Hd & HY & HX)].
  - by exists [], [], [], [].
  - simpl in *. unfold succeeded in *.
    destruct (String.eqb_spec st FAILED) as [->|Hnf].
    { rewrite filter_cons_False by done. by exists X, Y, V, ign. }
    destruct (to_gp_total searchspace p (Hp Hnf)) as (point & -> & _). simpl.
    destruct (String.eqb_spec st SUCCEEDED) as [->|Hns].
    + rewrite filter_cons_True by done. rewrite Hd.
      destruct sc as [|s|s rest]; [by destruct (Hsc eq_refl)| |]; simpl;
        eexists (point :: X), (_ :: Y), (_ :: V), ign; simpl; auto.
    + rewrite filter_cons_False by done.
      destruct (String.eqb_spec st PENDING) as [->|Hnp].
      * rewrite Hd. simpl. by exists X, Y, V, (point :: ign).
      * exfalso. unfold recognized in Hrec.
        repeat (apply elem_of_cons in Hrec as [?|Hrec]; [done|]).
        by apply elem_of_nil in Hrec.
Qed.

(** The fallback leaves the instance as it is. *)
Lemma random_suggestion_spec self h (searchspace : SearchSpace.t) global :
  exists p global',
    RandomSearch.suggest (RandomSearch.__init__ None) h searchspace global
    = (Return p, global')
    /\ random_suggestion self h searchspace global = (Return p, self, global')
    /\ dom p = list_to_set (SearchSpace.names searchspace).
Proof.
  destruct (RandomSearch_suggest_returns (RandomSearch.__init__ None) h searchspace global)
    as (p & g' & Hr & Hdom).
  exists p, g'. unfold random_suggestion. by rewrite Hr.
Qed.

(** C3. With GPy imported, on a history of fewer than [seeds] entries,
    or of entries that fit the search space of which fewer than [seeds]
    are SUCCEEDED, [GP.suggest] returns what
    [RandomSearch().suggest(history, searchspace)] returns on the same
    state of the generator, a mapping on the names of the search space,
    and leaves the kernel and the model of the instance as they were:
    no kernel is built, no model is fitted. *)
Theorem GP_suggest_delegates_to_Random
    (self : t) (h : history) (searchspace : SearchSpace.t) (global : rng) :
  GPy_imported = true ->
  Z.of_nat (length h) < seeds self
  \/ (Forall (well_formed searchspace) h
      /\ Z.of_nat (length (succeeded h)) < seeds self) ->
  exists p global' self',
    RandomSearch.suggest (RandomSearch.__init__ None) h searchspace global
    = (Return p, global')
    /\ suggest self h searchspace global = (Return p, self', global')
    /\ dom p = list_to_set (SearchSpace.names searchspace)
    /\ kernel_ self' = kernel_ self
    /\ model self' = model self.
Proof.
  intros Himp Hfew. unfold suggest. rewrite Himp. simpl.
  destruct (Z.ltb_spec (Z.of_nat (length h)) (seeds self)) as [Hlt|Hge].
  - destruct (random_suggestion_spec self h searchspace global)
      as (p & g' & Hr & Hs & Hdom).
    exists p, g', self. by rewrite Hs.
  - destruct Hfew as [?|[Hwf Hfew]]; [lia|].
    destruct (get_data_total h searchspace Hwf) as (X & Y & V & ign & -> & HY & _).
    rewrite HY. simpl.
    destruct (Z.ltb_spec (Z.of_nat (length (succeeded h))) (seeds self)) as [_|?]; [|lia].
    destruct (random_suggestion_spec
                (set_n_dims self (SearchSpace.n_dims searchspace)) h searchspace global)
      as (p & g' & Hr & Hs & Hdom).
    exists p, g', (set_n_dims self (SearchSpace.n_dims searchspace)).
    by rewrite Hs.
Qed.

Lemma fit_model_singular self X Y global m global1 :
  py_max Y = Some m ->
  (let self1 := set_transformed self (negb (Qle_bool 0 m)) in
   optimize_restarts X (_transform_score self1 <$> Y) (kernel_ self1)
     (n_init self1) global = (Raise LinAlgError, global1)) ->
  _fit_model self X Y global
  = (Return (), set_model (set_transformed self (negb (Qle_bool 0 m))) None, global1).
Proof.
  intros Hm Hfit. unfold _fit_model. rewrite Hm.
  cbv zeta in *. rewrite Hfit. reflexivity.
Qed.

(** C8. When the flow of [GP.suggest] reaches the fit (GPy imported, at
    least [seeds] entries and [seeds] scores, the kernel built) and
    [optimize_restarts] raises [LinAlgError], the call raises nothing:
    it returns what [RandomSearch().suggest] returns, a mapping on the
    names of the search space, and leaves the instance with no model,
    whatever model an earlier call had stored. *)
Theorem GP_suggest_survives_a_singular_fit
    (self self1 : t) (h : history) (searchspace : SearchSpace.t)
    (global global1 : rng) (X ignore : list (list Q)) (Y V : list Q) (m : Q) :
  GPy_imported = true ->
  seeds self <= Z.of_nat (length h) ->
  _get_data h searchspace = Return (X, Y, V, ignore) ->
  seeds self <= Z.of_nat (length Y) ->
  _create_kernel (set_n_dims self (SearchSpace.n_dims searchspace))
  = (Return (), self1) ->
  py_max Y = Some m ->
  (let self2 := set_transformed self1 (negb (Qle_bool 0 m)) in
   optimize_restarts X (_transform_score self2 <$> Y) (kernel_ self2)
     (n_init self2) global = (Raise LinAlgError, global1)) ->
  exists p global' self',
    RandomSearch.suggest (RandomSearch.__init__ None) h searchspace global1
    = (Return p, global')
    /\ suggest self h searchspace global = (Return p, self', global')
    /\ model self' = None
    /\ dom p = list_to_set (SearchSpace.names searchspace).
Proof.
  intros Himp Hlen Hdata HY Hkern Hmax Hfit.
  set (self3 := set_model (set_transformed self1 (negb (Qle_bool 0 m))) None).
  destruct (random_suggestion_spec self3 h searchspace global1)
    as (p & g' & Hr & Hs & Hdom).
  exists p, g', self3. split; [exact Hr|]. split; [|by split].
  unfold suggest. rewrite Himp. simpl.
  destruct (Z.ltb_spec (Z.of_nat (length h)) (seeds self)) as [?|_]; [lia|].
  rewrite Hdata.
  replace (seeds (set_n_dims self (SearchSpace.n_dims searchspace)))
    with (seeds self) by reflexivity.
  destruct (Z.ltb_spec (Z.of_nat (length Y)) (seeds self)) as [?|_]; [lia|].
  rewrite Hkern.
  rewrite (fit_model_singular self1 X Y global m global1 Hmax Hfit).
  fold self3. replace (model self3) with (@None GPRegression) by reflexivity.
  exact Hs.
Qed.
End GPFacts.

Section AcquisitionFacts.
Context {libs : Libraries}.
Import GP.

Lemma evaluated_raises (o : optimizer) (z : list Q -> outcome Q) x e :
  x ∈ evaluated o z -> z x = Raise e -> run_optimizer o z = Raise e.
Proof.
  induction o as [y f|y next IH]; simpl; intros Hx Hz.
  - by apply elem_of_nil in Hx.
  - apply elem_of_cons in Hx as [->|Hx]; [by rewrite Hz|].
    destruct (z y) as [v|e'] eqn:Hy; [by apply IH|by apply elem_of_nil in Hx].
Qed.

Lemma run_optimizer_raises (o : optimizer) (z : list Q -> outcome Q) e :
  run_optimizer o z = Raise e -> exists x, z x = Raise e.
Proof.
  induction o as [y f|y next IH]; simpl; [done|].
  destruct (z y) as [v|e'] eqn:Hy; [apply IH|].
  intros [= ->]. eauto.
Qed.

Lemma visited_raises self init_tries i todo x e :
  x ∈ visited self init_tries i todo ->
  acquisition_objective self x = Raise e ->
  starts self init_tries i todo = Raise e.
Proof.
  revert i. induction todo as [|todo IH]; intros i Hx Hz; simpl in *.
  - by apply elem_of_nil in Hx.
  - destruct (init_tries !! i) as [init|]; [|by apply elem_of_nil in Hx].
    destruct (0 <? max_iter self).
    + apply elem_of_app in Hx as [Hx|Hx].
      * by rewrite (evaluated_raises _ _ x e).
      * destruct (run_optimizer _ _) as [res|];
          [|by apply elem_of_nil in Hx].
        simpl. by rewrite (IH (S i)).
    + apply elem_of_cons in Hx as [->|Hx]; [by rewrite Hz|].
      destruct (acquisition_objective self init) as [y|];
        [|by apply elem_of_nil in Hx].
      simpl. by rewrite (IH (S i)).
Qed.

Lemma starts_raises self init_tries i todo e :
  starts self init_tries i todo = Raise e ->
  e = IndexError \/ exists x, acquisition_objective self x = Raise e.
Proof.
  revert i. induction todo as [|todo IH]; intros i; simpl; [done|].
  destruct (init_tries !! i) as [init|]; [|intros [= <-]; by left].
  destruct (0 <? max_iter self).
  - destruct (run_optimizer _ _) as [res|e'] eqn:Hrun; simpl.
    + destruct (starts self init_tries (S i) todo) as [more|e'] eqn:Hmore; [done|].
      simpl. intros [= ->]. by apply (IH (S i)).
    + intros [= ->]. right. by eapply run_optimizer_raises.
  - destruct (acquisition_objective self init) as [y|e'] eqn:Hz; simpl.
    + destruct (starts self init_tries (S i) todo) as [more|e'] eqn:Hmore; [done|].
      simpl. intros [= ->]. by apply (IH (S i)).
    + intros [= ->]. eauto.
Qed.

Lemma negative_is_not_positive (v : Q) : (v < 0)%Q -> Qle_bool 0 v = false.
Proof.
  intros Hv. destruct (Qle_bool 0 v) eqn:Hle; [|done].
  apply Qle_bool_iff in Hle. by apply Qlt_not_le in Hv.
Qed.

Lemma objective_ei_negative self m x :
  model self = Some m -> acquisition_name self = "ei" ->
  ((model_predict m x).2 < 0)%Q ->
  acquisition_objective self x = Raise negative_variance.
Proof.
  intros Hm Hname Hv. unfold acquisition_objective. rewrite Hm, Hname.
  destruct (model_predict m x) as [y_mean y_var]. simpl in *.
  unfold _is_var_positive. by rewrite negative_is_not_positive.
Qed.

Lemma objective_bypass self x :
  acquisition_name self = "osprey" \/ acquisition_name self = "ucb" ->
  acquisition_objective self x <> Raise negative_variance.
Proof.
  intros Hname. unfold acquisition_objective.
  destruct (model self) as [m|]; [|done].
  destruct (model_predict m x) as [y_mean y_var].
  rewrite bool_decide_eq_true_2
    by (apply list_elem_of_In; destruct Hname as [-> | ->]; simpl; tauto).
  unfold _acquisition_function, _ucb, _ei.
  destruct Hname as [-> | ->]; simpl.
  - by destruct (bool_decide _).
  - destruct (bool_decide _); [|done]. by destruct (y_best_var self).
Qed.

(** C9. In the acquisition optimisation of a fitted instance configured
    with [ei], the objective raises the negative-variance [RuntimeError]
    at every point where the model predicts a negative variance, and
    when the loop evaluates the objective at such a point (in a run of
    the minimiser, or at a start itself when [max_iter] is not positive),
    [_optimize_acquisition] ends with that error.  Configured with
    [osprey] (or [ucb]) the check is not made: whatever the model
    predicts, neither the objective nor [_optimize_acquisition] raises
    that error. *)
Theorem negative_variance_is_fatal_under_ei_only
    (self : t) (m : GPRegression) (global : rng) :
  model self = Some m ->
  (acquisition_name self = "ei" ->
     (forall x, ((model_predict m x).2 < 0)%Q ->
        acquisition_objective self x = Raise negative_variance)
     /\ (forall x,
           x ∈ visited self (_get_init self global).1 0 (Z.to_nat (n_iter self)) ->
           ((model_predict m x).2 < 0)%Q ->
           (_optimize_acquisition self global).1 = Raise negative_variance))
  /\ (acquisition_name self = "osprey" \/ acquisition_name self = "ucb" ->
        (forall x, acquisition_objective self x <> Raise negative_variance)
        /\ (_optimize_acquisition self global).1 <> Raise negative_variance).
Proof.
  intros Hm. split.
  - intros Hname. split; [intros x; by apply objective_ei_negative|].
    intros x Hx Hv. unfold _optimize_acquisition.
    destruct (_get_init self global) as [init_tries g']. simpl in *.
    rewrite (visited_raises self init_tries 0 _ x negative_variance); [done|done|].
    by apply (objective_ei_negative self m).
  - intros Hname. split; [intros x; by apply objective_bypass|].
    unfold _optimize_acquisition.
    destruct (_get_init self global) as [init_tries g']. simpl.
    destruct (starts self init_tries 0 (Z.to_nat (n_iter self))) as [found|e] eqn:Hs;
      simpl.
    + destruct (argmin found.*2) as [best|]; [|done].
      by destruct (found.*1 !! best).
    + intros [= ->]. apply starts_raises in Hs as [?|[x Hx]]; [done|].
      by apply (objective_bypass self x).
Qed.
End AcquisitionFacts.

(** ** GP on the stand-in libraries *)

Lemma GP_suggest_delegates_to_Random_witness :
  exists p global' self',
    @RandomSearch.suggest Demo.libraries (RandomSearch.__init__ None)
      two_corners unit_square 0%nat = (Return p, global')
    /\ @GP.suggest Demo.libraries (Demo.gp "osprey" 3) two_corners unit_square 0%nat
       = (Return p, self', global')
    /\ dom p = list_to_set (SearchSpace.names unit_square)
    /\ GP.kernel_ self' = GP.kernel_ (Demo.gp "osprey" 3)
    /\ GP.model self' = GP.model (Demo.gp "osprey" 3).
Proof.
  apply (@GP_suggest_delegates_to_Random Demo.libraries (Demo.gp "osprey" 3)
           two_corners unit_square 0%nat).
  - reflexivity.
  - left. vm_compute. reflexivity.
Defined.

Lemma GP_suggest_survives_a_singular_fit_witness :
  exists p global' self',
    @RandomSearch.suggest Demo.libraries (RandomSearch.__init__ None)
      one_corner_twice unit_square 1%nat = (Return p, global')
    /\ @GP.suggest Demo.libraries (Demo.gp "osprey" 1) one_corner_twice unit_square 0%nat
       = (Return p, self', global')
    /\ GP.model self' = None
    /\ dom p = list_to_set (SearchSpace.names unit_square).
Proof.
  eapply (@GP_suggest_survives_a_singular_fit Demo.libraries (Demo.gp "osprey" 1) _
            one_corner_twice unit_square 0%nat 1%nat
            [[0; 0]; [0; 0]]%Q [] [1; 2]%Q [0; 0]%Q 2%Q).
  - reflexivity.
  - vm_compute. discriminate.
  - vm_compute. reflexivity.
  - vm_compute. discriminate.
  - vm_compute. reflexivity.
  - vm_compute. reflexivity.
  - vm_compute. reflexivity.
Defined.

(** A fitted instance configured with [ei], whose model has one
    observation at the origin of the unit square. *)
Lemma negative_variance_is_fatal_under_ei_only_witness :
  let m : @GP.GPRegression Demo.libraries :=
    @GP.mk_model Demo.libraries [[0; 0]%Q] [1%Q] None tt in
  let self := GP.set_model (Demo.gp "ei" 1) (Some m) in
  ((GP.model_predict m [0; 0]%Q).2 < 0)%Q
  /\ GP.acquisition_objective self [0; 0]%Q = Raise GP.negative_variance.
Proof.
  intros m self.
  assert ((GP.model_predict m [0; 0]%Q).2 < 0)%Q as Hneg by (vm_compute; reflexivity).
  split; [exact Hneg|].
  exact (proj1 (proj1 (@negative_variance_is_fatal_under_ei_only Demo.libraries
                         self m 0%nat eq_refl) eq_refl) [0; 0]%Q Hneg).
Defined.

Section Suppression.
Context {libs : Libraries}.
Import GP.

(** The half of the suppression that holds: a candidate that is one of
    the PENDING points is in [ignore], for the test that the code makes. *)
Lemma contains_pending (ignore : list (list Q)) (suggestion : list Q) :
  suggestion ∈ ignore -> suggestion <> [] -> contains ignore suggestion = true.
Proof.
  intros Hin Hne. unfold contains. apply existsb_exists.
  exists suggestion. split; [by apply list_elem_of_In|].
  destruct suggestion as [|q rest]; [done|]. simpl.
  assert (Qeq_bool q q = true) as -> by (apply Qeq_bool_iff; reflexivity).
  reflexivity.
Qed.
End Suppression.

(** C4, on the code.  The history holds two SUCCEEDED trials, at the
    corners (0, 0) and (1, 1) of the unit square, and the acquisition
    optimum is the corner (0, 0) itself.  [_is_within] sums the squared
    differences over the observed points, coordinate by coordinate: the
    sums are 1 and 1, no root is within the tolerance, and the test is
    negative although the candidate is at distance 0 of an observed point.
    [GP.suggest] returns the candidate: the parameters of the first
    SUCCEEDED trial, a repeated suggestion. *)
Theorem GP_suggest_returns_an_observed_point :
  let call :=
    @GP.suggest Demo.libraries (Demo.gp "osprey" 1) two_corners unit_square 99%nat in
  @GP._get_data Demo.libraries two_corners unit_square
  = Return ([[0; 0]; [1; 1]]%Q, [1; 2]%Q, [0; 0]%Q, [])
  /\ @GP._optimize_acquisition Demo.libraries
       (GP.set_model (GP.set_n_dims (Demo.gp "osprey" 1) 2)
          (Some (@GP.mk_model Demo.libraries [[0; 0]; [1; 1]]%Q [1; 2]%Q
                   (Some tt) tt))) 100%nat
     = (Return [0; 0]%Q, 101%nat)
  /\ GP.squares_summed_over_rows [0; 0]%Q [[0; 0]; [1; 1]]%Q = [1; 1]%Q
  /\ @GP._is_within Demo.libraries [0; 0]%Q [[0; 0]; [1; 1]]%Q = false
  /\ call.1.1 = Return (corner 0)
  /\ is_repeated_suggestion (corner 0) two_corners = true.
Proof. vm_compute. repeat split; reflexivity. Qed.

(** ** The keys of a suggestion *)

Section KeysFacts.
Context {libs : Libraries}.

Lemma from_points_dom (result : list Q) (searchspace : SearchSpace.t) (acc : params) :
  (length searchspace <= length result)%nat ->
  dom (fold_left (fun out gv => <[name gv.2 := point_from_gp gv.2 gv.1]> out)
         (zip result searchspace) acc)
  = dom acc ∪ list_to_set (SearchSpace.names searchspace).
Proof.
  revert result acc. induction searchspace as [|v rest IH]; intros result acc Hlen.
  - destruct result; simpl; by_membership.
  - destruct result as [|q result]; simpl in Hlen; [lia|]. simpl.
    rewrite IH by lia. rewrite dom_insert_L. by_membership.
Qed.

Lemma from_gp_dom (result : list Q) (searchspace : SearchSpace.t) :
  length result = SearchSpace.n_dims searchspace ->
  dom (GP._from_gp result searchspace) = list_to_set (SearchSpace.names searchspace).
Proof.
  intros Hlen. unfold GP._from_gp. rewrite from_points_dom.
  - by_membership.
  - unfold SearchSpace.n_dims in Hlen. lia.
Qed.

Lemma from_unit_cube_dom (result : list Q) (searchspace : SearchSpace.t) :
  length result = SearchSpace.n_dims searchspace ->
  dom (SobolSearch._from_unit_cube result searchspace)
  = list_to_set (SearchSpace.names searchspace).
Proof.
  intros Hlen. unfold SobolSearch._from_unit_cube. rewrite from_points_dom.
  - by_membership.
  - unfold SearchSpace.n_dims in Hlen. lia.
Qed.

Lemma dict_dom {V} (pairs : list (string * V)) :
  dom (dict pairs) = list_to_set pairs.*1.
Proof.
  unfold dict.
  assert (forall acc : gmap string V,
            dom (fold_left (fun d kv => <[kv.1 := kv.2]> d) pairs acc)
            = dom acc ∪ list_to_set pairs.*1) as Hgen.
  { induction pairs as [|kv rest IH]; intros acc; simpl; [by_membership|].
    rewrite IH, dom_insert_L. by_membership. }
  rewrite Hgen. by_membership.
Qed.

Lemma grid_dom (searchspace : SearchSpace.t) :
  dom (GridSearch.grid searchspace) = list_to_set (SearchSpace.names searchspace).
Proof.
  unfold GridSearch.grid. rewrite dict_dom. by rewrite <- list_fmap_compose.
Qed.

Lemma items_dom (g : ParameterGrid.t) : list_to_set (ParameterGrid.items g).*1 = dom g.
Proof.
  apply set_eq. intros k. rewrite elem_of_list_to_set, elem_of_dom.
  unfold ParameterGrid.items. rewrite merge_sort_Permutation.
  rewrite list_elem_of_fmap. split.
  - intros ([k' v] & -> & Hin). apply elem_of_map_to_list in Hin. eauto.
  - intros [v Hv]. exists (k, v). split; [done|]. by apply elem_of_map_to_list.
Qed.

(** An element of the grid gives a value to every key of the grid. *)
Lemma getitem_dom (g : ParameterGrid.t) (i : nat) (p : params) :
  ParameterGrid.getitem g i = Return p -> dom p = dom g.
Proof.
  intros Hget. destruct (decide (i < ParameterGrid.len g)%nat) as [Hi|Hi].
  - destruct (decode_rev (ParameterGrid.items g) i ∅ Hi) as (combo & Hc & Hd).
    unfold ParameterGrid.getitem in Hget.
    destruct (_ <=? _)%nat; [done|]. rewrite Hd in Hget. injection Hget as <-.
    change (foldr _ ∅ ?l) with (list_to_map (M := gmap string value) l).
    rewrite dom_list_to_map_L, fst_zip; [apply items_dom|].
    rewrite length_fmap, <- (length_fmap snd (ParameterGrid.items g)).
    apply Nat.eq_le_incl. symmetry. apply product_elem_length.
    eapply list_elem_of_lookup_2; eauto.
  - rewrite getitem_out_of_range in Hget by lia. done.
Qed.

Lemma size_of_names (searchspace : SearchSpace.t) (p : params) :
  dom p = list_to_set (SearchSpace.names searchspace) ->
  SearchSpace.valid searchspace ->
  size p = SearchSpace.n_dims searchspace.
Proof.
  intros Hdom Hv. rewrite <- size_dom, Hdom, size_list_to_set by done.
  unfold SearchSpace.names, SearchSpace.n_dims. by rewrite length_fmap.
Qed.
End KeysFacts.

Section StrategyKeys.
Context {libs : Libraries} {contracts : Contracts}.

Lemma Sobol_suggest_keys self h (searchspace : SearchSpace.t) :
  serves searchspace (Sobol self) ->
  serves searchspace (Sobol (SobolSearch.suggest self h searchspace).2)
  /\ forall p, (SobolSearch.suggest self h searchspace).1 = Return p ->
       dom p = list_to_set (SearchSpace.names searchspace).
Proof.
  intros Hs. unfold SobolSearch.suggest.
  destruct SALib_imported; simpl; [|done].
  assert (serves searchspace (Sobol (SobolSearch.prepare self h searchspace))) as Hp.
  { unfold SobolSearch.prepare. simpl in Hs.
    destruct (SobolSearch.sequence self) as [points|] eqn:Hseq.
    - simpl. by rewrite Hseq.
    - simpl. apply Forall_forall. intros row Hrow.
      by apply ss_sample_columns in Hrow. }
  set (self1 := SobolSearch.prepare self h searchspace) in *.
  simpl in Hp.
  destruct (SobolSearch.sequence self1) as [points|] eqn:Hseq; simpl.
  - destruct (points !! _) as [row|] eqn:Hrow; simpl.
    + split; [done|]. intros p [= <-]. apply from_unit_cube_dom.
      eapply Forall_lookup_1 in Hp; eauto.
    + by rewrite Hseq.
  - by rewrite Hseq.
Qed.

Lemma Grid_suggest_keys self h (searchspace : SearchSpace.t) :
  serves searchspace (Grid self) ->
  serves searchspace (Grid (GridSearch.suggest self h searchspace).2)
  /\ forall p, (GridSearch.suggest self h searchspace).1 = Return p ->
       dom p = list_to_set (SearchSpace.names searchspace).
Proof.
  intros Hs. unfold GridSearch.suggest, GridSearch.grid_of. simpl in Hs.
  assert (forall g c,
            g = GridSearch.grid searchspace ->
            serves searchspace
              (Grid (if Z.of_nat (ParameterGrid.len g) =? 0
                     then (Raise ZeroDivisionError,
                           {| GridSearch.param_grid := Some g; GridSearch.current := c |})
                     else (ParameterGrid.getitem g
                             (Z.to_nat (c mod Z.of_nat (ParameterGrid.len g))),
                           {| GridSearch.param_grid := Some g;
                              GridSearch.current := c |})).2)
            /\ forall p,
                 (if Z.of_nat (ParameterGrid.len g) =? 0
                  then (Raise ZeroDivisionError,
                        {| GridSearch.param_grid := Some g; GridSearch.current := c |})
                  else (ParameterGrid.getitem g
                          (Z.to_nat (c mod Z.of_nat (ParameterGrid.len g))),
                        {| GridSearch.param_grid := Some g;
                           GridSearch.current := c |})).1 = Return p ->
                 dom p = list_to_set (SearchSpace.names searchspace)) as Hcall.
  { intros g c ->. destruct (_ =? 0); simpl; [done|]. split; [done|].
    intros p Hp. apply getitem_dom in Hp. by rewrite Hp, grid_dom. }
  destruct (GridSearch.param_grid self) as [g|] eqn:Hg.
  - by apply Hcall.
  - destruct (forallb is_EnumVariable searchspace).
    + by apply Hcall.
    + simpl. by rewrite Hg.
Qed.

Lemma TPE_suggest_keys self h (searchspace : SearchSpace.t) global p :
  (HyperoptTPE.suggest self h searchspace global).1 = Return p ->
  dom p = list_to_set (SearchSpace.names searchspace).
Proof.
  assert (forall container space trials gamma seeds n random,
            container = (fmin space trials gamma seeds n random).1 ->
            match container with x :: _ => Return x | [] => Raise IndexError end
            = Return p -> dom p = dom space) as Hfmin.
  { intros container space trials gamma seeds n random -> Hret.
    destruct (fmin space trials gamma seeds n random).1 as [|x rest] eqn:Hf; [done|].
    injection Hret as ->.
    apply (fmin_in_space space trials gamma seeds n random). rewrite Hf. by left. }
  assert (dom (SearchSpace.to_hyperopt searchspace)
          = list_to_set (SearchSpace.names searchspace)) as Hspace.
  { unfold SearchSpace.to_hyperopt. rewrite dict_dom. by rewrite <- list_fmap_compose. }
  unfold HyperoptTPE.suggest.
  destruct hyperopt_imported; simpl; [|done].
  destruct (HyperoptTPE.docs_from _ _ _ _) as [trials|]; [|done].
  destruct fmin_args; [| |done].
  - destruct (fmin _ _ _ _ _ _) as [container r] eqn:Hf. simpl. intros Hret.
    rewrite <- Hspace. eapply Hfmin; [|exact Hret]. by rewrite Hf.
  - destruct (randint _ _) as [rseed r].
    destruct (fmin _ _ _ _ _ _) as [container r'] eqn:Hf. simpl. intros Hret.
    rewrite <- Hspace. eapply Hfmin; [|exact Hret]. by rewrite Hf.
Qed.
End StrategyKeys.

Section GPKeys.
Context {libs : Libraries} {contracts : Contracts}.
Import GP.

Lemma create_kernel_n_dims self r self' :
  _create_kernel self = (r, self') -> n_dims self' = n_dims self.
Proof.
  unfold _create_kernel. destruct (_kerns self) as [|specs]; [by intros [= _ <-]|].
  destruct (forallb _ specs); [|by intros [= _ <-]].
  destruct (load_kernels _ _); by intros [= _ <-].
Qed.

Lemma fit_model_n_dims self X Y global r self' global' :
  _fit_model self X Y global = (r, self', global') -> n_dims self' = n_dims self.
Proof.
  unfold _fit_model. destruct (py_max Y) as [m|]; [|by intros [= _ <- _]].
  destruct (optimize_restarts _ _ _ _ _) as [[hy|e] g]; [by intros [= _ <- _]|].
  destruct e; by intros [= _ <- _].
Qed.

Lemma get_init_columns self global n row :
  n_dims self = Some n -> row ∈ (_get_init self global).1 -> length row = n.
Proof.
  intros Hn. unfold _get_init, _get_sobol_points, _get_random_points. rewrite Hn. simpl.
  destruct (sobol_init self).
  - destruct (np_random_randint 1000 global) as [r g]. simpl.
    intros Hrow. apply (ss_sample_columns (Z.to_nat (n_iter self) + r) n).
    destruct (_ =? _)%nat; [done|].
    eapply elem_of_sublist; [exact Hrow|]. apply sublist_drop.
  - apply random_columns.
Qed.

Lemma starts_dimension self init_tries n i todo found :
  n_dims self = Some n ->
  Forall (fun row => length row = n) init_tries ->
  starts self init_tries i todo = Return found ->
  Forall (fun c => length c = n) found.*1.
Proof.
  intros Hn Hinit. revert i found.
  induction todo as [|todo IH]; intros i found; simpl.
  - intros [= <-]. constructor.
  - destruct (init_tries !! i) as [init|] eqn:Hi; [|done].
    assert (length init = n) as Hlen by (eapply Forall_lookup_1 in Hinit; eauto).
    destruct (0 <? max_iter self).
    + destruct (run_optimizer _ _) as [[x y]|] eqn:Hrun; [|done]. simpl.
      destruct (starts self init_tries (S i) todo) as [more|] eqn:Hmore; [|done].
      simpl. intros [= <-]. simpl. constructor; [|by eapply IH].
      apply minimize_dimension in Hrun. simpl. lia.
    + destruct (acquisition_objective self init) as [y|]; [|done]. simpl.
      destruct (starts self init_tries (S i) todo) as [more|] eqn:Hmore; [|done].
      simpl. intros [= <-]. simpl. constructor; [done|by eapply IH].
Qed.

Lemma optimize_acquisition_dimension self global n suggestion global' :
  n_dims self = Some n ->
  _optimize_acquisition self global = (Return suggestion, global') ->
  length suggestion = n.
Proof.
  intros Hn. unfold _optimize_acquisition.
  pose proof (fun row => get_init_columns self global n row Hn) as Hinit.
  destruct (_get_init self global) as [init_tries g]. simpl in Hinit.
  destruct (starts self init_tries 0 (Z.to_nat (n_iter self))) as [found|] eqn:Hs;
    simpl; [|done].
  destruct (argmin found.*2) as [best|]; [|done].
  destruct (found.*1 !! best) as [c|] eqn:Hc; [|done].
  intros [= <- _].
  eapply starts_dimension in Hs; [|exact Hn|by apply Forall_forall].
  eapply Forall_lookup_1 in Hs; eauto.
Qed.

Lemma GP_suggest_keys self h (searchspace : SearchSpace.t) global p :
  (suggest self h searchspace global).1.1 = Return p ->
  dom p = list_to_set (SearchSpace.names searchspace).
Proof.
  assert (forall s g, (random_suggestion s h searchspace g).1.1 = Return p ->
            dom p = list_to_set (SearchSpace.names searchspace)) as Hrandom.
  { intros s g. destruct (random_suggestion_spec s h searchspace g)
      as (q & g' & _ & -> & Hdom). simpl. by intros [= <-]. }
  unfold suggest. destruct GPy_imported; simpl; [|done].
  destruct (_ <? _); [apply Hrandom|].
  destruct (_get_data h searchspace) as [[[[X Y] V] ignore]|]; [|done].
  destruct (_ <? _); [apply Hrandom|].
  destruct (_create_kernel _) as [[[]|] self1] eqn:Hk; [|done].
  apply create_kernel_n_dims in Hk. simpl in Hk.
  destruct (_fit_model self1 X Y global) as [[[[]|] self2] g2] eqn:Hf; [|done].
  apply fit_model_n_dims in Hf. rewrite Hk in Hf.
  destruct (model self2) as [m|]; [|apply Hrandom].
  destruct (incumbent self2 m) as [[[x y] v]|]; [|done].
  destruct (_optimize_acquisition _ g2) as [[suggestion|] g3] eqn:Ho; [|done].
  apply (optimize_acquisition_dimension _ _ (SearchSpace.n_dims searchspace)) in Ho;
    [|exact Hf].
  destruct (_ || _); [apply Hrandom|].
  simpl. intros [= <-]. by apply from_gp_dom.
Qed.
End GPKeys.

Lemma fresh_serves {libs : Libraries} (searchspace : SearchSpace.t) (st : strategy) :
  fresh st -> serves searchspace st.
Proof.
  destruct st as [self|self|self|self|self]; simpl; try done.
  - by intros [L ->].
  - by intros ->.
Qed.

(** The stand-in libraries keep the contracts. *)
Lemma Demo_contracts : @Contracts Demo.libraries.
Proof.
  split.
  - intros N D row Hrow. simpl in Hrow.
    apply list_elem_of_fmap in Hrow as (i & -> & _).
    unfold Demo.sobol_point. by rewrite length_replicate.
  - intros rows cols g row Hrow. simpl in Hrow.
    apply elem_of_replicate in Hrow as [-> _]. by rewrite length_replicate.
  - intros x0 n m z x y. simpl. destruct (z x0); [|done]. by intros [= <- _].
  - intros space trials gamma seeds max_evals random p Hp. simpl in Hp.
    apply list_elem_of_singleton in Hp as ->. unfold Demo.first_point.
    by rewrite dom_fmap_L.
Qed.

(** C1, as the code has it.  For an instance that serves the search space
    (a new instance does, and a call keeps it so), with libraries that keep
    the contracts on the shape of their points: whenever [suggest] returns
    a parameter mapping, for any of the five strategies and any history,
    the keys of the mapping are the names of the variables of the search
    space, and with unique names there are [n_dims] of them.  [suggest] of
    the random strategy always returns; the others can raise. *)
Theorem suggest_keys_are_the_variable_names
    {libs : Libraries} {contracts : Contracts}
    (st : strategy) (h : history) (searchspace : SearchSpace.t) (global : rng) :
  serves searchspace st ->
  serves searchspace (suggest st h searchspace global).1.2
  /\ (forall p, (suggest st h searchspace global).1.1 = Return p ->
        dom p = list_to_set (SearchSpace.names searchspace)
        /\ (SearchSpace.valid searchspace -> size p = SearchSpace.n_dims searchspace))
  /\ (forall self, st = Random self ->
        exists p, (suggest st h searchspace global).1.1 = Return p).
Proof.
  intros Hs.
  assert (serves searchspace (suggest st h searchspace global).1.2
          /\ forall p, (suggest st h searchspace global).1.1 = Return p ->
               dom p = list_to_set (SearchSpace.names searchspace)) as [Hs' Hdom].
  { destruct st as [self|self|self|self|self]; simpl.
    - destruct (RandomSearch_suggest_returns self h searchspace global)
        as (q & g' & -> & Hq). simpl. split; [done|]. by intros p [= <-].
    - pose proof (Sobol_suggest_keys self h searchspace Hs) as Hk.
      by destruct (SobolSearch.suggest self h searchspace).
    - pose proof (Grid_suggest_keys self h searchspace Hs) as Hk.
      by destruct (GridSearch.suggest self h searchspace).
    - pose proof (GP_suggest_keys self h searchspace global) as Hk.
      by destruct (GP.suggest self h searchspace global) as [[r s] g'].
    - pose proof (TPE_suggest_keys self h searchspace global) as Hk.
      by destruct (HyperoptTPE.suggest self h searchspace global). }
  split; [exact Hs'|]. split.
  - intros p Hp. split; [by apply Hdom|]. apply size_of_names. by apply Hdom.
  - intros self ->. simpl.
    destruct (RandomSearch_suggest_returns self h searchspace global)
      as (q & g' & -> & Hq). by exists q.
Qed.

Lemma suggest_keys_are_the_variable_names_witness :
  let call :=
    @suggest Demo.libraries (Bayes (Demo.gp "osprey" 1)) two_corners unit_square 99%nat in
  call.1.1 = Return (corner 0)
  /\ dom (corner 0) = list_to_set (SearchSpace.names unit_square)
  /\ size (corner 0) = SearchSpace.n_dims unit_square.
Proof.
  intros call.
  assert (call.1.1 = Return (corner 0)) as Hcall by (vm_compute; reflexivity).
  split; [exact Hcall|].
  destruct (@suggest_keys_are_the_variable_names Demo.libraries Demo_contracts
              (Bayes (Demo.gp "osprey" 1)) two_corners unit_square 99%nat I)
    as (_ & Hkeys & _).
  destruct (Hkeys (corner 0) Hcall) as [Hdom Hsize].
  split; [exact Hdom|]. apply Hsize.
  unfold SearchSpace.valid. simpl. apply NoDup_cons. split; [|apply NoDup_singleton].
  intros Hin. apply list_elem_of_singleton in Hin. done.
Defined.

(** C1, the counterexamples.  On a valid search space, a new
    [SobolSearch] of length 1 called with a history of two trials raises:
    the offset of the history is beyond the sequence.  A new [GridSearch]
    called on a space with a continuous variable raises.  Neither call
    returns a parameter mapping. *)
Lemma suggest_raises_on_a_valid_search_space :
  SearchSpace.valid unit_square
  /\ (@suggest Demo.libraries (Sobol (SobolSearch.__init__ 1))
        two_corners unit_square 0%nat).1.1 = Raise SobolSearch.exhausted
  /\ (@suggest Demo.libraries (Grid GridSearch.__init__)
        [] unit_square 0%nat).1.1 = Raise GridSearch.not_all_enum.
Proof.
  split; [|split; vm_compute; reflexivity].
  unfold SearchSpace.valid. simpl. apply NoDup_cons. split; [|apply NoDup_singleton].
  intros Hin. apply list_elem_of_singleton in Hin. done.
Qed.

(** ** SobolSearch: the offset of the first history *)

Section SobolOffset.
Context {libs : Libraries}.
Import SobolSearch.
#[local] Opaque _SKIP.

Variables (L : nat) (hs : nat -> history) (searchspace : SearchSpace.t).
Hypothesis imported : SALib_imported = true.
Hypothesis rows :
  List.length (ss_sample (L + _SKIP) (SearchSpace.n_dims searchspace))
  = (L + _SKIP)%nat.

#[local] Abbreviation resumed k :=
  {| sequence := Some (ss_sample (L + _SKIP) (SearchSpace.n_dims searchspace));
     length := L; n_dims := SearchSpace.n_dims searchspace;
     offset := (List.length (hs 0%nat) + _SKIP)%nat; counter := k |}.

Lemma suggest_resumed h k :
  suggest (resumed k) h searchspace
  = match ss_sample (L + _SKIP) (SearchSpace.n_dims searchspace)
          !! (List.length (hs 0%nat) + _SKIP + k)%nat with
    | Some row => (Return (_from_unit_cube row searchspace), resumed (k + 1)%nat)
    | None => (Raise exhausted, resumed k)
    end.
Proof. unfold suggest. rewrite imported. reflexivity. Qed.

Lemma suggest_new :
  suggest (__init__ L) (hs 0%nat) searchspace
  = suggest (resumed 0) (hs 0%nat) searchspace.
Proof. unfold suggest. rewrite imported. reflexivity. Qed.

Lemma after_resumed k :
  (0 < k)%nat ->
  after L hs searchspace k
  = resumed (Nat.min k (L - List.length (hs 0%nat))).
Proof.
  induction k as [|k IH]; [lia|]. intros _. cbn [after].
  assert (forall h j,
            (suggest (resumed j) h searchspace).2
            = resumed (if decide (List.length (hs 0%nat) + j < L)%nat
                       then (j + 1)%nat else j)) as Hstep.
  { intros h j. rewrite suggest_resumed. case_decide.
    - destruct (lookup_lt_is_Some_2
                  (ss_sample (L + _SKIP) (SearchSpace.n_dims searchspace))
                  (List.length (hs 0%nat) + _SKIP + j)%nat) as [row ->];
        [rewrite rows; lia|done].
    - rewrite lookup_ge_None_2; [done|]. rewrite rows. lia. }
  destruct k as [|k].
  - cbn [after]. rewrite suggest_new, Hstep. case_decide; f_equal; lia.
  - rewrite IH by lia. rewrite Hstep. case_decide; f_equal; lia.
Qed.

(** A [SobolSearch] resumes after the trials of the history of its
    first call: with [n] entries in that history, the call of index [k]
    (from 0) reads the row [n + _SKIP + k] of the sequence, whatever the
    histories of the later calls, and returns while [n + k] is below
    the length; from then on every call raises. *)
Theorem SobolSearch_suggest_resumes_after_the_history (k : nat) :
  let n := List.length (hs 0%nat) in
  let points := ss_sample (L + _SKIP) (SearchSpace.n_dims searchspace) in
  ((n + k < L)%nat ->
     exists row, points !! (n + _SKIP + k)%nat = Some row
                 /\ nth_call L hs searchspace k
                    = Return (_from_unit_cube row searchspace))
  /\ ((L <= n + k)%nat -> nth_call L hs searchspace k = Raise exhausted).
Proof.
  intros n points.
  assert (nth_call L hs searchspace k
          = (suggest (resumed (Nat.min k (L - n))) (hs k) searchspace).1) as Hcall.
  { unfold nth_call. destruct k as [|k'].
    - cbn [after]. by rewrite suggest_new.
    - by rewrite after_resumed by lia. }
  rewrite Hcall, suggest_resumed. fold n. fold points. split; intros Hk.
  - rewrite Nat.min_l by lia.
    destruct (lookup_lt_is_Some_2 points (n + _SKIP + k)%nat) as [row Hrow];
      [unfold points; rewrite rows; lia|].
    rewrite Hrow. eauto.
  - rewrite lookup_ge_None_2; [done|]. unfold points. rewrite rows. lia.
Qed.
End SobolOffset.

Lemma SobolSearch_suggest_resumes_after_the_history_witness :
  @SobolSearch.nth_call Demo.libraries 3 (fun _ => two_corners) unit_square 1
  = Raise SobolSearch.exhausted.
Proof.
  refine (proj2 (@SobolSearch_suggest_resumes_after_the_history Demo.libraries
                   3 (fun _ => two_corners) unit_square _ _ 1) _).
  - reflexivity.
  - vm_compute. reflexivity.
  - simpl. lia.
Defined.

(** ** GridSearch: the grid is the set of the combinations *)

Section GridChoices.
Import ParameterGrid.

Lemma elem_of_product (vals : list (list value)) (combo : list value) :
  combo ∈ product vals <-> Forall2 (fun x vs => x ∈ vs) combo vals.
Proof.
  revert combo. induction vals as [|vs vals IH]; intros combo; csimpl.
  - rewrite list_elem_of_singleton. split; [intros ->; constructor|].
    by intros ->%Forall2_nil_inv_r.
  - rewrite list_elem_of_bind. split.
    + intros (x & Hc & Hx). apply list_elem_of_fmap in Hc as (c & -> & Hc).
      constructor; [done|by apply IH].
    + intros H. inversion H as [|x vs' c vals' Hx Hc]; subst.
      exists x. split; [|done]. apply list_elem_of_fmap. exists c.
      split; [done|by apply IH].
Qed.

Lemma lookup_items (g : ParameterGrid.t) (k : string) (vs : list value) :
  (k, vs) ∈ items g <-> g !! k = Some vs.
Proof.
  unfold items. rewrite merge_sort_Permutation. apply elem_of_map_to_list.
Qed.

(** The elements of the grid are the parameter mappings that give every
    key of the grid one of its values. *)
Lemma elem_of_iter (g : ParameterGrid.t) (p : params) :
  p ∈ iter g
  <-> dom p = dom g
      /\ forall k vs, g !! k = Some vs -> exists x, p !! k = Some x /\ x ∈ vs.
Proof.
  unfold iter. rewrite list_elem_of_fmap. split.
  - intros (combo & -> & Hc). apply elem_of_product in Hc.
    assert (length combo = length (items g)) as Hlen.
    { apply Forall2_length in Hc. by rewrite length_fmap in Hc. }
    rewrite dict_list_to_map
      by (rewrite fst_zip; [apply NoDup_items|rewrite length_fmap; lia]).
    split.
    + rewrite dom_list_to_map_L, fst_zip by (rewrite length_fmap; lia).
      apply items_dom.
    + intros k vs Hk. apply lookup_items in Hk.
      apply list_elem_of_lookup_1 in Hk as [i Hi].
      destruct (lookup_lt_is_Some_2 combo i) as [x Hx].
      { rewrite Hlen. by eapply lookup_lt_Some. }
      exists x. split.
      * apply elem_of_list_to_map_1.
        { rewrite fst_zip; [apply NoDup_items|rewrite length_fmap; lia]. }
        apply list_elem_of_lookup_2 with i. apply lookup_zip_with_Some.
        exists k, x. rewrite list_lookup_fmap, Hi. done.
      * eapply Forall2_lookup_lr in Hc; [exact Hc|exact Hx|].
        rewrite list_lookup_fmap, Hi. done.
  - intros [Hdom Hval].
    exists ((fun kv => default VNone (p !! kv.1)) <$> items g). split.
    + rewrite dict_list_to_map
        by (rewrite fst_zip; [apply NoDup_items|rewrite !length_fmap; lia]).
      apply map_eq. intros k. symmetry.
      destruct (g !! k) as [vs|] eqn:Hk.
      * destruct (Hval k vs Hk) as (x & Hx & _). rewrite Hx.
        apply elem_of_list_to_map_1.
        { rewrite fst_zip; [apply NoDup_items|rewrite !length_fmap; lia]. }
        apply lookup_items, list_elem_of_lookup_1 in Hk as [i Hi].
        apply list_elem_of_lookup_2 with i. apply lookup_zip_with_Some.
        exists k, x. rewrite !list_lookup_fmap, Hi. simpl. by rewrite Hx.
      * assert (p !! k = None) as ->.
        { apply not_elem_of_dom. rewrite Hdom. by apply not_elem_of_dom. }
        apply not_elem_of_list_to_map_1.
        rewrite fst_zip by (rewrite !length_fmap; lia).
        rewrite <- (elem_of_list_to_set (C := gset string)), items_dom.
        by apply not_elem_of_dom.
    + apply elem_of_product. apply Forall2_fmap, Forall_Forall2_diag.
      apply Forall_forall. intros [k vs] Hin. simpl.
      apply lookup_items in Hin. destruct (Hval k vs Hin) as (x & -> & Hx). done.
Qed.
End GridChoices.

Section GridCombinations.
Import GridSearch.

Lemma lookup_grid (searchspace : SearchSpace.t) (k : string) (vs : list value) :
  SearchSpace.valid searchspace ->
  grid searchspace !! k = Some vs
  <-> exists v, v ∈ searchspace /\ name v = k /\ choices v = vs.
Proof.
  intros Hv. unfold grid.
  assert (NoDup ((fun v => (name v, choices v)) <$> searchspace).*1) as Hnd.
  { rewrite <- list_fmap_compose. exact Hv. }
  rewrite dict_list_to_map by done.
  rewrite <- elem_of_list_to_map by done.
  rewrite list_elem_of_fmap. split.
  - intros (v & [= -> ->] & Hin). eauto.
  - intros (v & Hin & <- & <-). eauto.
Qed.

Lemma elem_of_iter_grid (searchspace : SearchSpace.t) (p : params) :
  SearchSpace.valid searchspace ->
  p ∈ ParameterGrid.iter (grid searchspace) <-> combination searchspace p.
Proof.
  intros Hv. rewrite elem_of_iter, grid_dom. unfold combination.
  split; intros [Hdom Hval]; (split; [done|]).
  - intros v Hin. apply (Hval (name v) (choices v)).
    apply lookup_grid; eauto.
  - intros k vs Hk. apply lookup_grid in Hk as (v & Hin & <- & <-); auto.
Qed.

(** [GridSearch] is exhaustive.  On an all-categorical search space
    with unique names and a non-empty grid of [G] elements, every
    suggestion gives every variable one of its choices, every such
    combination is the suggestion of one of the first [G] calls, and
    the suggestions repeat with period [G]. *)
Theorem GridSearch_suggest_enumerates_every_combination
    (hs : nat -> history) (searchspace : SearchSpace.t) :
  forallb is_EnumVariable searchspace = true ->
  SearchSpace.valid searchspace ->
  ParameterGrid.len (grid searchspace) <> 0%nat ->
  (forall n p, nth_call hs searchspace n = Return p -> combination searchspace p)
  /\ (forall p, combination searchspace p ->
        exists n, (n < ParameterGrid.len (grid searchspace))%nat
                  /\ nth_call hs searchspace n = Return p)
  /\ (forall n, nth_call hs searchspace (n + ParameterGrid.len (grid searchspace))
                = nth_call hs searchspace n).
Proof.
  intros He Hv HG. split; [|split].
  - intros n p Hp. apply elem_of_iter_grid; [done|].
    rewrite nth_call_all_enum in Hp by done.
    destruct (getitem_iter (grid searchspace)
                (n mod ParameterGrid.len (grid searchspace)))
      as (q & Hq & Hget); [by apply Nat.mod_upper_bound|].
    rewrite Hget in Hp. injection Hp as <-.
    by eapply list_elem_of_lookup_2.
  - intros p Hp. apply elem_of_iter_grid in Hp; [|done].
    apply list_elem_of_lookup_1 in Hp as [i Hi].
    assert (i < ParameterGrid.len (grid searchspace))%nat as Hlt.
    { rewrite <- length_iter. by eapply lookup_lt_Some. }
    exists i. split; [done|].
    rewrite nth_call_all_enum by done. rewrite Nat.mod_small by done.
    destruct (getitem_iter (grid searchspace) i Hlt) as (q & Hq & ->). congruence.
  - intros n. rewrite !nth_call_all_enum by done. f_equal.
    rewrite <- Nat.Div0.add_mod_idemp_r, Nat.Div0.mod_same, Nat.add_0_r. done.
Qed.
End GridCombinations.

Lemma GridSearch_suggest_enumerates_every_combination_witness :
  exists n, (n < ParameterGrid.len (GridSearch.grid space23))%nat
            /\ GridSearch.nth_call (fun _ => []) space23 n
               = Return (dict [("a", VInt 2); ("b", VStr "y")]).
Proof.
  assert (SearchSpace.valid space23) as Hv.
  { unfold SearchSpace.valid. simpl. apply NoDup_cons. split; [|apply NoDup_singleton].
    intros Hin. apply list_elem_of_singleton in Hin. done. }
  apply (proj1 (proj2 (GridSearch_suggest_enumerates_every_combination
                         (fun _ => []) space23 eq_refl Hv
                         ltac:(vm_compute; discriminate)))).
  split; [vm_compute; reflexivity|].
  intros v Hin. apply list_elem_of_In in Hin. simpl in Hin.
  destruct Hin as [<-|[<-|[]]].
  - exists (VInt 2). split; [vm_compute; reflexivity|]. apply list_elem_of_In. simpl. tauto.
  - exists (VStr "y"). split; [vm_compute; reflexivity|]. apply list_elem_of_In. simpl. tauto.
Defined.

Section GridCache.
Import GridSearch.

(** [GridSearch] looks at the search space on its first successful call
    only: once the grid is built, a call made with any other search
    space, categorical or not, gives what the call with the first search
    space gives, an element of the first grid, and raises no
    configuration error. *)
Theorem GridSearch_suggest_keeps_the_first_grid
    (hs : nat -> history) (first other : SearchSpace.t) (h : history) (n : nat) :
  forallb is_EnumVariable first = true ->
  suggest (after hs first (S n)) h other = suggest (after hs first (S n)) h first
  /\ (suggest (after hs first (S n)) h other).1 <> Raise not_all_enum.
Proof.
  intros He. rewrite after_all_enum by done. split; [reflexivity|].
  unfold suggest, grid_of. cbn [param_grid current].
  destruct (_ =? 0); [done|]. cbn [fst].
  destruct (decide (Z.to_nat ((Z.of_nat n + 1)
                      `mod` Z.of_nat (ParameterGrid.len (grid first)))
                    < ParameterGrid.len (grid first))%nat) as [Hlt|Hge].
  - by destruct (getitem_iter _ _ Hlt) as (q & _ & ->).
  - by rewrite getitem_out_of_range by lia.
Qed.
End GridCache.

Lemma GridSearch_suggest_keeps_the_first_grid_witness :
  (GridSearch.suggest (GridSearch.after (fun _ => []) space23 1) [] unit_square).1
  = Return (dict [("a", VInt 1); ("b", VStr "y")]).
Proof.
  rewrite (proj1 (GridSearch_suggest_keeps_the_first_grid
                    (fun _ => []) space23 unit_square [] 0 eq_refl)).
  vm_compute. reflexivity.
Defined.

(** ** Repeated suggestions *)

Section Repeated.

Lemma value_eqb_refl (v : value) : value_eqb v v = true.
Proof.
  assert (forall q, Qeq_bool q q = true) as Hq
    by (intros q; apply Qeq_bool_iff; reflexivity).
  destruct v as [|b|z|q|s]; simpl; auto. apply String.eqb_refl.
Qed.

Lemma params_eqb_refl (p : params) : params_eqb p p = true.
Proof.
  unfold params_eqb. rewrite bool_decide_eq_true_2 by done. simpl.
  apply forallb_forall. intros [k v] Hin. simpl.
  apply list_elem_of_In, elem_of_map_to_list in Hin. rewrite Hin.
  apply value_eqb_refl.
Qed.

(** [is_repeated_suggestion] answers for the SUCCEEDED entries only: it
    is true when the parameters are those of a SUCCEEDED entry of the
    history, whatever its scores; entries that are PENDING or FAILED do
    not count, so that on a history without SUCCEEDED entries, and on
    the empty one, it is false; and it looks at the entries one by one. *)
Theorem is_repeated_suggestion_sees_succeeded_entries
    (p : params) (h h' : history) :
  (forall sc, (p, sc, SUCCEEDED) ∈ h -> is_repeated_suggestion p h = true)
  /\ (Forall (fun e : entry => e.2 <> SUCCEEDED) h ->
        is_repeated_suggestion p h = false)
  /\ is_repeated_suggestion p (h ++ h')
     = is_repeated_suggestion p h || is_repeated_suggestion p h'
  /\ (is_repeated_suggestion p h = true ->
        exists e, e ∈ h /\ e.2 = SUCCEEDED /\ dom e.1.1 = dom p).
Proof.
  unfold is_repeated_suggestion. split; [|split; [|split]].
  - intros sc Hin. apply existsb_exists. exists (p, sc, SUCCEEDED).
    split; [by apply list_elem_of_In|]. simpl. by rewrite params_eqb_refl.
  - intros Hall. apply not_true_is_false. intros Hex.
    apply existsb_exists in Hex as (e & Hin & He).
    apply list_elem_of_In in Hin. eapply Forall_forall in Hall; [|exact Hin].
    apply andb_true_iff in He as [_ He]. by apply String.eqb_eq in He.
  - apply existsb_app.
  - intros Hex. apply existsb_exists in Hex as (e & Hin & He).
    apply andb_true_iff in He as [Hp He]. exists e.
    split; [by apply list_elem_of_In|]. split; [by apply String.eqb_eq|].
    unfold params_eqb in Hp. apply andb_true_iff in Hp as [Hd _].
    by apply bool_decide_eq_true in Hd.
Qed.
End Repeated.

Lemma is_repeated_suggestion_sees_succeeded_entries_witness :
  is_repeated_suggestion (corner 1) two_corners = true.
Proof.
  apply (proj1 (is_repeated_suggestion_sees_succeeded_entries
                  (corner 1) two_corners []) (ScoreScalar 2)).
  apply list_elem_of_In. simpl. tauto.
Defined.

(** ** HyperoptTPE: the values of a record *)

Section TPEVals.
Import HyperoptTPE.

Lemma matches_shift (f : nat -> nat) (choices : list value) (x : value) :
  (fun ic : nat * value => ic.1)
    <$> filter (fun ic => Is_true (value_eqb ic.2 x)) (imap (fun j c => (f j, c)) choices)
  = f <$> matches choices x.
Proof.
  unfold matches. revert f. induction choices as [|c l IH]; intros f; [done|].
  rewrite !imap_cons.
  assert (imap ((fun j c => (f j, c)) ∘ S) l = imap (fun j c => (f (S j), c)) l)
    as -> by (by apply imap_ext).
  assert (imap (pair ∘ S) l = imap (fun j c => (S j, c)) l)
    as -> by (by apply imap_ext).
  pose proof (IH (fun j => f (S j))) as IHf. pose proof (IH S) as IHS.
  destruct (value_eqb c x) eqn:Hc.
  - rewrite !filter_cons_True by (apply Is_true_true_2; exact Hc).
    csimpl. rewrite IHf, IHS. f_equal. rewrite <- (list_fmap_compose S f). reflexivity.
  - rewrite !filter_cons_False by (apply Is_true_false_2; exact Hc).
    rewrite IHf, IHS. rewrite <- (list_fmap_compose S f). reflexivity.
Qed.

Lemma matches_cons (c : value) (choices : list value) (x : value) :
  matches (c :: choices) x
  = (if value_eqb c x then [0%nat] else []) ++ (S <$> matches choices x).
Proof.
  unfold matches at 1. rewrite imap_cons.
  assert (imap (pair ∘ S) choices = imap (fun j c => (S j, c)) choices)
    as -> by (by apply imap_ext).
  pose proof (matches_shift S choices x) as Hs.
  destruct (value_eqb c x) eqn:Hc.
  - rewrite filter_cons_True by (apply Is_true_true_2; exact Hc). csimpl. by rewrite Hs.
  - rewrite filter_cons_False by (apply Is_true_false_2; exact Hc). by rewrite Hs.
Qed.

(** The matches are the ranks of the choices equal to the value. *)
Lemma elem_of_matches (choices : list value) (x : value) (i : nat) :
  i ∈ matches choices x
  <-> exists c, choices !! i = Some c /\ value_eqb c x = true.
Proof.
  revert i. induction choices as [|c l IH]; intros i.
  - split; [by intros ?%elem_of_nil|by intros (? & ? & _)].
  - rewrite matches_cons, elem_of_app, list_elem_of_fmap. split.
    + intros [Hi|(j & -> & Hj)].
      * destruct (value_eqb c x) eqn:Hc; [|by apply elem_of_nil in Hi].
        apply list_elem_of_singleton in Hi as ->. eauto.
      * apply IH in Hj. exact Hj.
    + intros (c' & Hi & Hc'). destruct i as [|j]; simpl in Hi.
      * injection Hi as ->. rewrite Hc'. left. by apply list_elem_of_singleton.
      * right. exists j. split; [done|]. apply IH. eauto.
Qed.

Lemma matches_none (choices : list value) (x : value) :
  (forall c, c ∈ choices -> value_eqb c x = false) -> matches choices x = [].
Proof.
  intros Hno. destruct (matches choices x) as [|i rest] eqn:Hm; [done|].
  assert (i ∈ matches choices x) as Hi by (rewrite Hm; by left).
  apply elem_of_matches in Hi as (c & Hc & Heq).
  rewrite Hno in Heq; [done|]. by eapply list_elem_of_lookup_2.
Qed.

Lemma matches_one (choices : list value) (x : value) (i : nat) (c : value) :
  choices !! i = Some c -> value_eqb c x = true ->
  (forall j c', choices !! j = Some c' -> value_eqb c' x = true -> j = i) ->
  matches choices x = [i].
Proof.
  revert i. induction choices as [|c0 l IH]; intros i Hi Hc Huniq; [done|].
  rewrite matches_cons. destruct i as [|i]; simpl in Hi.
  - injection Hi as ->. rewrite Hc. simpl. f_equal.
    rewrite matches_none; [done|]. intros c' Hin.
    apply list_elem_of_lookup_1 in Hin as [j Hj].
    destruct (value_eqb c' x) eqn:Hc'; [|done].
    by specialize (Huniq (S j) c' Hj Hc').
  - destruct (value_eqb c0 x) eqn:Hc0.
    { by specialize (Huniq 0%nat c0 eq_refl Hc0). }
    simpl. rewrite (IH i); [done|done|done|].
    intros j c' Hj Hc'. specialize (Huniq (S j) c' Hj Hc'). lia.
Qed.

Lemma matches_two (choices : list value) (x : value) (i j : nat) :
  i ∈ matches choices x -> j ∈ matches choices x -> i <> j ->
  (length (matches choices x) =? 1)%nat = false.
Proof.
  intros Hi Hj Hne. destruct (matches choices x) as [|a [|b rest]]; [| |done].
  - by apply elem_of_nil in Hi.
  - apply list_elem_of_singleton in Hi, Hj. congruence.
Qed.

(** A categorical variable is recorded by the rank of its value among
    the choices: when the value of the history entry equals exactly one
    choice, [vals] holds the one-element list of its rank; when it
    equals no choice, or more than one, the assertion fails.  Any other
    variable is recorded by its value, in a one-element list.  A
    variable without a value in the entry is a [KeyError], except for a
    categorical variable without choices, where the assertion fails
    first. *)
Theorem HyperoptTPE_vals_hold_the_rank_of_the_choice
    (var_name : string) (choices : list value) (p : params) (x : value) :
  let var := EnumVariable var_name choices in
  (p !! var_name = Some x ->
     (forall i c, choices !! i = Some c -> value_eqb c x = true ->
        (forall j c', choices !! j = Some c' -> value_eqb c' x = true -> j = i) ->
        val_of var p = Return [VInt (Z.of_nat i)])
     /\ ((forall c, c ∈ choices -> value_eqb c x = false) ->
           val_of var p = Raise AssertionError)
     /\ (forall i j ci cj, i <> j ->
           choices !! i = Some ci -> value_eqb ci x = true ->
           choices !! j = Some cj -> value_eqb cj x = true ->
           val_of var p = Raise AssertionError))
  /\ (p !! var_name = None ->
        val_of var p
        = match choices with [] => Raise AssertionError | _ => Raise (KeyError var_name) end)
  /\ (forall v, is_EnumVariable v = false ->
        val_of v p = match p !! name v with
                     | Some y => Return [y]
                     | None => Raise (KeyError (name v))
                     end).
Proof.
  intros var. split; [|split].
  - intros Hx. unfold val_of. simpl. rewrite Hx.
    assert ((match choices with
             | [] => Return []
             | _ :: _ => Return (matches choices x)
             end : outcome (list nat)) = Return (matches choices x)) as ->
      by (by destruct choices).
    simpl. split; [|split].
    + intros i c Hi Hc Huniq. by rewrite (matches_one choices x i c).
    + intros Hno. by rewrite matches_none.
    + intros i j ci cj Hne Hi Hci Hj Hcj.
      rewrite (matches_two choices x i j); [done| | |done];
        apply elem_of_matches; eauto.
  - intros Hx. unfold val_of. simpl. rewrite Hx. by destruct choices.
  - intros v Hv. unfold val_of. by rewrite Hv.
Qed.
End TPEVals.

Lemma HyperoptTPE_vals_hold_the_rank_of_the_choice_witness :
  HyperoptTPE.val_of (EnumVariable "b" [VStr "x"; VStr "y"; VStr "z"])
    {[ "b" := VStr "y" ]}
  = Return [VInt 1].
Proof.
  refine (proj1 (proj1 (HyperoptTPE_vals_hold_the_rank_of_the_choice
                          "b" [VStr "x"; VStr "y"; VStr "z"] {[ "b" := VStr "y" ]}
                          (VStr "y")) _) 1%nat (VStr "y") _ _ _).
  - reflexivity.
  - reflexivity.
  - reflexivity.
  - intros [|[|[|j]]] c' Hj Hc'; simpl in Hj; try done;
      injection Hj as <-; done.
Defined.

Section TPEDocs.
Context {libs : Libraries}.
Import HyperoptTPE.

Lemma vals_of_dom (searchspace : SearchSpace.t) (p : params)
    (acc vals : gmap string (list value)) :
  vals_of searchspace p acc = Return vals ->
  dom vals = dom acc ∪ list_to_set (SearchSpace.names searchspace).
Proof.
  revert acc. induction searchspace as [|var rest IH]; intros acc; simpl.
  - intros [= <-]. by_membership.
  - destruct (val_of var p) as [v|]; [|done]. simpl. intros Hv.
    apply IH in Hv. rewrite Hv, dom_insert_L. by_membership.
Qed.

(** The bridge builds one record per history entry, in the order of the
    history: the record of rank [j] has the trial identifier [j], in
    [tid] and in [misc], the state 2, the index list [[j]] for every key
    of the hyperopt space, and a value list for every variable of the
    search space. *)
Theorem HyperoptTPE_builds_one_record_per_entry
    (h : history) (searchspace : SearchSpace.t)
    (hp_searchspace : gmap string variable) (docs : list trial_doc) :
  docs_from 0 h searchspace hp_searchspace = Return docs ->
  length docs = length h
  /\ forall j d, docs !! j = Some d ->
       tid d = j /\ misc_tid d = j /\ state d = 2
       /\ misc_idxs d = (fun _ => [j]) <$> hp_searchspace
       /\ dom (misc_vals d) = list_to_set (SearchSpace.names searchspace).
Proof.
  assert (forall i docs,
            docs_from i h searchspace hp_searchspace = Return docs ->
            length docs = length h
            /\ forall j d, docs !! j = Some d ->
                 tid d = (i + j)%nat /\ misc_tid d = (i + j)%nat /\ state d = 2
                 /\ misc_idxs d = (fun _ => [(i + j)%nat]) <$> hp_searchspace
                 /\ dom (misc_vals d)
                    = list_to_set (SearchSpace.names searchspace)) as Hgen.
  { clear docs. induction h as [|[[p sc] st] rest IH]; intros i docs; simpl.
    - intros [= <-]. split; [done|]. intros j d Hj. by rewrite lookup_nil in Hj.
    - destruct (result_of sc st) as [r|]; [|done]. simpl.
      destruct (vals_of searchspace p ∅) as [vals|] eqn:Hvals; [|done]. simpl.
      destruct (docs_from (S i) rest searchspace hp_searchspace) as [more|] eqn:Hmore;
        [|done].
      simpl. intros [= <-]. destruct (IH (S i) more Hmore) as [Hlen Hdocs].
      split; [simpl; by rewrite Hlen|].
      intros [|j] d Hj; simpl in Hj.
      + injection Hj as <-. simpl. rewrite Nat.add_0_r. repeat split.
        apply vals_of_dom in Hvals. rewrite Hvals. by_membership.
      + destruct (Hdocs j d Hj) as (-> & -> & ? & -> & ?).
        replace (S i + j)%nat with (i + S j)%nat by lia. done. }
  intros Hd. apply (Hgen 0%nat docs Hd).
Qed.

End TPEDocs.

Lemma HyperoptTPE_builds_one_record_per_entry_witness :
  exists docs,
    HyperoptTPE.docs_from 0 history3 space1 (SearchSpace.to_hyperopt space1) = Return docs
    /\ length docs = 3%nat.
Proof.
  eexists. split; [vm_compute; reflexivity|].
  refine (proj1 (HyperoptTPE_builds_one_record_per_entry history3 space1
                   (SearchSpace.to_hyperopt space1) _ _)).
  vm_compute. reflexivity.
Defined.


(** ** GP: the configuration and the data *)

Section GPData.
Context {libs : Libraries}.
Import GP.

Lemma sorted_name_params (keys : list string) :
  sorted keys = ["name"; "params"] <-> keys ≡ₚ ["name"; "params"].
Proof.
  unfold sorted. split.
  - intros Hs. rewrite <- Hs. symmetry. apply merge_sort_Permutation.
  - intros Hp. symmetry in Hp. apply Permutation_length_2_inv in Hp as [-> | ->];
      vm_compute; reflexivity.
Qed.

(** [GP.__init__] checks the acquisition function: it returns an
    instance exactly when the configuration is a dict whose keys are
    [name] and [params], in any order, and whose name is one of [ei],
    [ucb] and [osprey]; a list, other keys or another name raise.  The
    instance has the name and the parameters given ([osprey] without
    parameters by default) and no model, kernel or dimension yet. *)
Theorem GP_init_validates_the_acquisition
    (kernels : option kernels_config) (acquisition : option acquisition_config)
    (seed : option Z) (seeds n_iter n_init : Z) (sobol_init optimize_best : bool)
    (max_iter : Z) (predict_from_gp : bool) :
  let new :=
    __init__ kernels acquisition seed seeds n_iter n_init sobol_init optimize_best
      max_iter predict_from_gp in
  let chosen :=
    match acquisition with
    | Some (AcquisitionDict _ name params) => (name, params)
    | _ => ("osprey", ∅)
    end in
  ((exists self, new = Return self)
   <-> match acquisition with
       | None => True
       | Some AcquisitionList => False
       | Some (AcquisitionDict keys name _) =>
           keys ≡ₚ ["name"; "params"] /\ name ∈ ["ei"; "ucb"; "osprey"]
       end)
  /\ (forall self, new = Return self ->
        acquisition_name self = chosen.1 /\ acquisition_params self = chosen.2
        /\ model self = None /\ kernel_ self = None /\ n_dims self = None
        /\ GP.seeds self = seeds)
  /\ (forall e, new = Raise e -> exists msg, e = RuntimeError msg).
Proof.
  intros new chosen. unfold new, chosen, __init__, _set_acquisition.
  destruct acquisition as [[|keys name params]|]; simpl.
  - split; [|split]; [split; [by intros [? ?]|done]|done|]. intros e [= <-]. eauto.
  - destruct (bool_decide (sorted keys = ["name"; "params"])) eqn:Hk.
    + apply bool_decide_eq_true in Hk.
      destruct (bool_decide (name ∈ ["ei"; "ucb"; "osprey"])) eqn:Hn; simpl.
      * apply bool_decide_eq_true in Hn.
        split; [|split]; [|by intros self [= <-]|done].
        split; [|by eauto]. intros _. split; [by apply sorted_name_params|done].
      * apply bool_decide_eq_false in Hn.
        split; [|split]; [|done|intros e [= <-]; eauto].
        split; [by intros [? ?]|by intros [_ ?]].
    + apply bool_decide_eq_false in Hk. simpl.
      split; [|split]; [|done|intros e [= <-]; eauto].
      split; [by intros [? ?]|]. intros [Hp _]. by apply sorted_name_params in Hp.
  - split; [|split]; [|by intros self [= <-]|done].
    split; [done|by eauto].
Qed.

Lemma to_gp_length (searchspace : SearchSpace.t) (p : params) (point : list Q) :
  SearchSpace.to_gp searchspace p = Return point ->
  length point = SearchSpace.n_dims searchspace.
Proof.
  revert point. induction searchspace as [|v rest IH]; intros point; simpl.
  - by intros [= <-].
  - destruct (p !! name v) as [x|]; [|done].
    destruct (SearchSpace.to_gp rest p) as [q|]; [|done]. simpl.
    intros [= <-]. simpl. f_equal. by apply IH.
Qed.

(** [_get_data] sorts the history by status.  When it returns, the
    points ([X]), the means ([Y]) and the variances ([V]) stand for the
    SUCCEEDED entries, in order, and [ignore] for the PENDING ones;
    every point has one coordinate per variable; every status is one of
    the three.  FAILED entries are never read: the result, or the
    error, is that of the history without them. *)
Theorem GP_get_data_sorts_the_history_by_status
    (h : history) (searchspace : SearchSpace.t) :
  _get_data (filter (fun e : entry => e.2 <> FAILED) h) searchspace
  = _get_data h searchspace
  /\ forall X Y V ignore,
       _get_data h searchspace = Return (X, Y, V, ignore) ->
       Forall2 (fun (e : entry) x => SearchSpace.to_gp searchspace e.1.1 = Return x)
         (succeeded h) X
       /\ Forall2 (fun (e : entry) y => np_mean e.1.2 = Return y) (succeeded h) Y
       /\ Forall2 (fun (e : entry) v => np_var e.1.2 = Return v) (succeeded h) V
       /\ Forall2 (fun (e : entry) x => SearchSpace.to_gp searchspace e.1.1 = Return x)
            (filter (fun e : entry => e.2 = PENDING) h) ignore
       /\ Forall (fun row => length row = SearchSpace.n_dims searchspace) (X ++ ignore)
       /\ Forall (fun e : entry => recognized e.2) h.
Proof.
  split.
  - induction h as [|[[p sc] st] rest IH]; [done|].
    destruct (String.eqb_spec st FAILED) as [->|Hnf].
    + rewrite filter_cons_False by (simpl; auto). rewrite IH. reflexivity.
    + rewrite filter_cons_True by (simpl; done). simpl.
      destruct (String.eqb_spec st FAILED) as [?|_]; [done|]. by rewrite IH.
  - unfold succeeded.
    induction h as [|[[p sc] st] rest IH]; intros X Y V ignore; simpl.
    { intros [= <- <- <- <-]. repeat split; constructor. }
    destruct (String.eqb_spec st FAILED) as [->|Hnf].
    { intros Hd. destruct (IH _ _ _ _ Hd) as (? & ? & ? & ? & ? & ?).
      rewrite !filter_cons_False by (simpl; done). repeat split; try done.
      constructor; [|done]. apply list_elem_of_In. simpl. tauto. }
    destruct (SearchSpace.to_gp searchspace p) as [point|] eqn:Hp; [|done]. simpl.
    pose proof (to_gp_length _ _ _ Hp) as Hlen.
    destruct (String.eqb_spec st SUCCEEDED) as [->|Hns].
    + destruct (np_mean sc) as [y|] eqn:Hy; [|done]. simpl.
      destruct (np_var sc) as [v|] eqn:Hv; [|done]. simpl.
      destruct (_get_data rest searchspace) as [[[[X' Y'] V'] ign']|]; [|done].
      simpl. intros [= <- <- <- <-].
      destruct (IH _ _ _ _ eq_refl) as (? & ? & ? & ? & ? & ?).
      rewrite !filter_cons_True by (simpl; done). rewrite filter_cons_False by (simpl; done).
      repeat split;
        first [ done | constructor; done | simpl; constructor; done
              | constructor; [apply list_elem_of_In; simpl; tauto | done] ].
    + destruct (String.eqb_spec st PENDING) as [->|Hnp]; [|done].
      destruct (_get_data rest searchspace) as [[[[X' Y'] V'] ign']|]; [|done].
      simpl. intros [= <- <- <- <-].
      destruct (IH _ _ _ _ eq_refl) as (? & ? & ? & ? & Hrows & ?).
      rewrite !filter_cons_False by (simpl; done). rewrite filter_cons_True by (simpl; done).
      apply Forall_app in Hrows as [? ?].
      repeat split;
        first [ done | constructor; done
              | apply Forall_app; split; [done|constructor; done]
              | constructor; [apply list_elem_of_In; simpl; tauto | done] ].
Qed.
End GPData.

Lemma GP_init_validates_the_acquisition_witness :
  exists self,
    @GP.__init__ Demo.libraries None
      (Some (AcquisitionDict ["params"; "name"] "ucb" {[ "kappa" := 2%Q ]}))
      None 1 50 20 false false 100000 true = Return self
    /\ GP.acquisition_name self = "ucb".
Proof.
  destruct (@GP_init_validates_the_acquisition Demo.libraries None
              (Some (AcquisitionDict ["params"; "name"] "ucb" {[ "kappa" := 2%Q ]}))
              None 1 50 20 false false 100000 true) as (Hreturns & Hfields & _).
  destruct (proj2 Hreturns) as [self Hself].
  - split; [apply Permutation_swap|]. apply list_elem_of_In. simpl. tauto.
  - exists self. split; [exact Hself|]. exact (proj1 (Hfields self Hself)).
Defined.

Lemma GP_get_data_sorts_the_history_by_status_witness :
  Forall (fun row : list Q => length row = 1%nat) ([[0%Q]] ++ [[0%Q]]).
Proof.
  refine (proj1 (proj2 (proj2 (proj2 (proj2
    (proj2 (@GP_get_data_sorts_the_history_by_status Demo.libraries history3 space1)
       [[0%Q]] [6 # 3] [1458 # 2187] [[0%Q]] _)))))).
  vm_compute. reflexivity.
Defined.

(** ** GP: the choice of the best candidate *)

Section Argmin.

Lemma argmin_None (l : list Q) : argmin l = None <-> l = [].
Proof.
  destruct l as [|x rest]; [done|]. simpl.
  split; [|done].
  destruct (argmin rest) as [j|]; [|done].
  destruct (rest !! j); [|done]. by destruct (Qle_bool x q).
Qed.

(** [np.argmin]: the index of the first least element. *)
Lemma argmin_first_least (l : list Q) (i : nat) :
  argmin l = Some i ->
  exists x, l !! i = Some x
    /\ Forall (fun y => (x <= y)%Q) l
    /\ forall j y, (j < i)%nat -> l !! j = Some y -> (x < y)%Q.
Proof.
  revert i. induction l as [|x rest IH]; intros i; [done|]. simpl.
  destruct (argmin rest) as [j|] eqn:Hj.
  - destruct (IH j eq_refl) as (y & Hy & Hall & Hfirst). rewrite Hy.
    destruct (Qle_bool x y) eqn:Hle; intros [= <-].
    + apply Qle_bool_iff in Hle. exists x. split; [done|]. split; [|lia].
      constructor; [apply Qle_refl|].
      eapply Forall_impl; [exact Hall|]. intros z Hz. simpl in Hz.
      by apply Qle_trans with y.
    + assert (y < x)%Q as Hlt.
      { apply Qnot_le_lt. intros Hxy. apply Qle_bool_iff in Hxy. congruence. }
      exists y. split; [done|]. split.
      * constructor; [by apply Qlt_le_weak|done].
      * intros [|k] z Hk Hz; simpl in Hz; [by injection Hz as <-|].
        apply (Hfirst k); [lia|done].
  - apply argmin_None in Hj as ->. intros [= <-]. exists x.
    split; [done|]. split; [|lia]. constructor; [apply Qle_refl|constructor].
Qed.

Lemma argmin_Some (l : list Q) : l <> [] -> exists i, argmin l = Some i.
Proof.
  intros Hne. destruct (argmin l) as [i|] eqn:Hi; [by eexists|].
  by apply argmin_None in Hi.
Qed.

(** [np.argmax], and the builtin [max]. *)
Lemma argmax_first_greatest (l : list Q) (i : nat) :
  argmax l = Some i ->
  exists x, l !! i = Some x
    /\ Forall (fun y => (y <= x)%Q) l
    /\ forall j y, (j < i)%nat -> l !! j = Some y -> (y < x)%Q.
Proof.
  unfold argmax. intros Hi.
  destruct (argmin_first_least _ _ Hi) as (nx & Hnx & Hall & Hfirst).
  rewrite list_lookup_fmap in Hnx.
  destruct (l !! i) as [x|] eqn:Hx; [|done]. injection Hnx as <-.
  exists x. split; [done|]. split.
  - rewrite Forall_fmap in Hall. eapply Forall_impl; [exact Hall|].
    intros y Hy. simpl in Hy. apply Qopp_le_compat in Hy.
    by rewrite !Qopp_involutive in Hy.
  - intros j y Hj Hy. specialize (Hfirst j (- y)%Q Hj).
    rewrite list_lookup_fmap, Hy in Hfirst. specialize (Hfirst eq_refl).
    apply Qopp_lt_compat in Hfirst. by rewrite !Qopp_involutive in Hfirst.
Qed.

Lemma py_max_greatest (l : list Q) (m : Q) :
  py_max l = Some m -> m ∈ l /\ Forall (fun y => (y <= m)%Q) l.
Proof.
  unfold py_max. destruct (argmax l) as [i|] eqn:Hi; [|done]. simpl. intros Hm.
  destruct (argmax_first_greatest _ _ Hi) as (x & Hx & Hall & _).
  rewrite Hm in Hx. injection Hx as <-.
  split; [by eapply list_elem_of_lookup_2|done].
Qed.

Lemma py_max_None (l : list Q) : py_max l = None <-> l = [].
Proof.
  split; [|by intros ->].
  unfold py_max, argmax. intros Hm.
  destruct (argmin (Qopp <$> l)) as [i|] eqn:Hi.
  - destruct (argmin_first_least _ _ Hi) as (x & Hx & _).
    rewrite list_lookup_fmap in Hx. simpl in Hm.
    by destruct (l !! i).
  - apply argmin_None in Hi. by destruct l.
Qed.
End Argmin.

Section GPBest.
Context {libs : Libraries}.
Import GP.

Lemma starts_length (self : t) (init_tries : list (list Q)) (i todo : nat)
    (found : list (list Q * Q)) :
  starts self init_tries i todo = Return found -> length found = todo.
Proof.
  revert i found. induction todo as [|todo IH]; intros i found; simpl.
  - by intros [= <-].
  - destruct (init_tries !! i) as [init|]; [|done].
    destruct (if 0 <? max_iter self then _ else _) as [res|]; [|done]. simpl.
    destruct (starts self init_tries (S i) todo) as [more|] eqn:Hm; [|done]. simpl.
    intros [= <-]. simpl. f_equal. by eapply IH.
Qed.

Lemma starts_without_minimize (self : t) (init_tries : list (list Q)) (i todo : nat)
    (found : list (list Q * Q)) :
  max_iter self <= 0 ->
  starts self init_tries i todo = Return found ->
  found.*1 = take todo (drop i init_tries)
  /\ Forall (fun c => acquisition_objective self c.1 = Return c.2) found.
Proof.
  intros Hmax. assert ((0 <? max_iter self) = false) as Hlt by lia.
  revert i found. induction todo as [|todo IH]; intros i found; simpl.
  - intros [= <-]. by rewrite take_0.
  - rewrite Hlt. destruct (init_tries !! i) as [init|] eqn:Hi; [|done].
    destruct (acquisition_objective self init) as [y|] eqn:Hy; [|done]. simpl.
    destruct (starts self init_tries (S i) todo) as [more|] eqn:Hm; [|done]. simpl.
    intros [= <-]. destruct (IH _ _ Hm) as [Hfst Hobj].
    split; [|by constructor].
    rewrite (drop_S _ _ _ Hi). csimpl. by f_equal.
Qed.

(** [_optimize_acquisition] returns the candidate with the least value
    of the objective, that is the greatest acquisition value, and the
    first such candidate on a tie.  It makes one candidate per start, for
    [n_iter] starts; without starts the choice of the best fails with
    [ValueError]; an error of the loop is the error of the call.
    Without iterations of the minimiser ([max_iter] not positive) the
    candidates are the initial points themselves, with the objective at
    them. *)
Theorem GP_optimize_acquisition_returns_the_best_candidate
    (self : t) (global : rng) :
  let init_tries := (_get_init self global).1 in
  let n := Z.to_nat (n_iter self) in
  (_optimize_acquisition self global).2 = (_get_init self global).2
  /\ (forall e, starts self init_tries 0 n = Raise e ->
        (_optimize_acquisition self global).1 = Raise e)
  /\ (forall found, starts self init_tries 0 n = Return found ->
        length found = n
        /\ (n_iter self = 0 -> (_optimize_acquisition self global).1 = Raise ValueError)
        /\ (0 < n_iter self ->
            exists i best f,
              (_optimize_acquisition self global).1 = Return best
              /\ found !! i = Some (best, f)
              /\ (forall c, c ∈ found -> (f <= c.2)%Q)
              /\ (forall j c, (j < i)%nat -> found !! j = Some c -> (f < c.2)%Q))
        /\ (max_iter self <= 0 ->
            found.*1 = take n init_tries
            /\ forall c, c ∈ found -> acquisition_objective self c.1 = Return c.2)).
Proof.
  intros init_tries n. unfold _optimize_acquisition. subst init_tries n.
  destruct (_get_init self global) as [init_tries global']. simpl.
  split; [done|]. split; [by intros e ->|].
  intros found Hf. rewrite Hf. simpl.
  pose proof (starts_length _ _ _ _ _ Hf) as Hlen.
  split; [done|]. split; [|split].
  - intros Hn. rewrite Hn in Hlen. by destruct found.
  - intros Hn. destruct (argmin_Some found.*2) as [i Hi].
    { destruct found; [simpl in Hlen; lia|done]. }
    rewrite Hi. destruct (argmin_first_least _ _ Hi) as (f & Hfi & Hall & Hfirst).
    rewrite list_lookup_fmap in Hfi.
    destruct (found !! i) as [[best f']|] eqn:Hbest; [|done].
    simpl in Hfi. injection Hfi as ->.
    exists i, best, f. rewrite list_lookup_fmap, Hbest. simpl.
    split; [done|]. split; [done|]. split.
    + intros c Hc. rewrite Forall_fmap in Hall.
      by apply (proj1 (Forall_forall _ _) Hall c).
    + intros j c Hj Hc. apply (Hfirst j); [done|].
      by rewrite list_lookup_fmap, Hc.
  - intros Hmax. destruct (starts_without_minimize _ _ _ _ _ Hmax Hf) as [Hfst Hobj].
    split; [done|]. intros c Hc. by apply (proj1 (Forall_forall _ _) Hobj c).
Qed.

Lemma transform_scores (self : t) (Y : list Q) :
  _transform_score self <$> Y
  = if transformed self then (fun y => (- np_log (- y))%Q) <$> Y else Y.
Proof.
  unfold _transform_score. destruct (transformed self); [done|].
  induction Y as [|y rest IH]; [done|]. csimpl. by rewrite IH.
Qed.

(** [_fit_model] transforms the scores exactly when all of them are
    negative: then the model is fitted to [-log(-y)], the logarithm
    taken of positive numbers only, and otherwise to the scores
    themselves.  Without scores [max] fails with [ValueError], before
    anything is changed.  The call returns after a fit and after a
    singular fit; after any other error of the fit the error leaves the
    call and the model of the earlier call stays. *)
Theorem GP_fit_model_transforms_negative_scores
    (self : t) (X : list (list Q)) (Y : list Q) (global : rng) :
  let r := _fit_model self X Y global in
  let self' := r.1.2 in
  (Y = [] -> r = (Raise ValueError, self, global))
  /\ (Y <> [] ->
      (transformed self' = true <-> Forall (fun y => (y < 0)%Q) Y)
      /\ (transformed self' = true -> Forall (fun y => (0 < - y)%Q) Y)
      /\ (forall m, r.1.1 = Return () -> model self' = Some m ->
            model_X m = X /\ model_kernel m = kernel_ self
            /\ model_Y m
               = if transformed self' then (fun y => (- np_log (- y))%Q) <$> Y else Y)
      /\ (forall e, r.1.1 = Raise e -> e <> LinAlgError /\ model self' = model self)).
Proof.
  intros r self'. subst self' r. unfold _fit_model. split.
  { by intros ->. }
  intros Hne. destruct (py_max Y) as [m|] eqn:Hm; [|by apply py_max_None in Hm].
  destruct (py_max_greatest _ _ Hm) as [Hin Hall].
  assert (negb (Qle_bool 0 m) = true <-> Forall (fun y => (y < 0)%Q) Y) as Htr.
  { rewrite negb_true_iff. split.
    - intros Hle. assert (m < 0)%Q as Hlt.
      { apply Qnot_le_lt. intros H0. apply Qle_bool_iff in H0. congruence. }
      eapply Forall_impl; [exact Hall|]. intros y Hy. simpl in Hy.
      by apply Qle_lt_trans with m.
    - intros Hneg. apply (proj1 (Forall_forall _ _) Hneg) in Hin.
      destruct (Qle_bool 0 m) eqn:Hle; [|done].
      apply Qle_bool_iff in Hle. by apply Qlt_not_le in Hin. }
  assert (negb (Qle_bool 0 m) = true -> Forall (fun y => (0 < - y)%Q) Y) as Hpos.
  { intros Hneg. apply Htr in Hneg. eapply Forall_impl; [exact Hneg|].
    intros y Hy. simpl in Hy. apply Qopp_lt_compat in Hy. exact Hy. }
  rewrite transform_scores.
  destruct (optimize_restarts X _ (kernel_ (set_transformed self _)) _ global)
    as [[h|e] global'] eqn:Hfit; simpl.
  - split; [exact Htr|]. split; [exact Hpos|].
    split; [|done]. by intros m' _ [= <-].
  - destruct e; simpl.
    all: split; [exact Htr|]; split; [exact Hpos|]; split; [done|].
    all: try done.
    all: by intros e [= <-].
Qed.

(** Without the optimisation of the best point, the incumbent of
    [suggest] is the observed point with the greatest score of the
    model, the first one on a tie; its score and variance are those that
    the model predicts there or, with [predict_from_gp] off, its score
    in the model and a variance of 0.  A model without observations
    gives [ValueError]. *)
Theorem GP_incumbent_is_the_best_observation
    (self : t) (m : GPRegression) :
  optimize_best self = false ->
  (model_Y m = [] -> incumbent self m = Raise ValueError)
  /\ forall x y v,
       incumbent self m = Return (x, y, v) ->
       exists i y0,
         model_X m !! i = Some x /\ model_Y m !! i = Some y0
         /\ (forall y', y' ∈ model_Y m -> (y' <= y0)%Q)
         /\ (forall j y', (j < i)%nat -> model_Y m !! j = Some y' -> (y' < y0)%Q)
         /\ (y, v) = (if predict_from_gp self then model_predict m x else (y0, 0%Q)).
Proof.
  intros Hopt. unfold incumbent. rewrite Hopt. split.
  { by intros ->. }
  intros x y v. destruct (argmax (model_Y m)) as [i|] eqn:Hi; [|done].
  destruct (argmax_first_greatest _ _ Hi) as (y0 & Hy0 & Hall & Hfirst).
  rewrite Hy0. destruct (model_X m !! i) as [x0|] eqn:Hx; [|done].
  intros Hret. exists i, y0.
  assert (x0 = x /\ (y, v) = (if predict_from_gp self then model_predict m x0
                               else (y0, 0%Q))) as [-> Hyv].
  { destruct (predict_from_gp self).
    - destruct (model_predict m x0) as [y1 v1]. by injection Hret as <- <- <-.
    - by injection Hret as <- <- <-. }
  repeat split; try done.
  intros y' Hy'. by apply (proj1 (Forall_forall _ _) Hall y').
Qed.
End GPBest.

Lemma GP_optimize_acquisition_returns_the_best_candidate_witness :
  let m : @GP.GPRegression Demo.libraries :=
    @GP.mk_model Demo.libraries [[0; 0]%Q] [1%Q] None tt in
  let self := GP.set_model (GP.set_n_dims (Demo.gp "osprey" 1) 2) (Some m) in
  exists i best f,
    (GP._optimize_acquisition self 50%nat).1 = Return best
    /\ [([1 # 2; 1 # 2], -23984 # 16000)%Q] !! i = Some (best, f).
Proof.
  intros m self.
  destruct (proj2 (proj2 (@GP_optimize_acquisition_returns_the_best_candidate
                            Demo.libraries self 50%nat))
              [([1 # 2; 1 # 2], -23984 # 16000)%Q]) as (_ & _ & Hbest & _).
  - vm_compute. reflexivity.
  - destruct Hbest as (i & best & f & Hret & Hi & _); [reflexivity|].
    exists i, best, f. split; [exact Hret|exact Hi].
Defined.

Lemma GP_fit_model_transforms_negative_scores_witness :
  GP.transformed
    (@GP._fit_model Demo.libraries (Demo.gp "osprey" 1) [[0; 0]; [1; 1]]%Q
       [- (1); - (2 # 1)]%Q 0%nat).1.2 = true.
Proof.
  apply (proj2 (@GP_fit_model_transforms_negative_scores Demo.libraries
                  (Demo.gp "osprey" 1) [[0; 0]; [1; 1]]%Q [- (1); - (2 # 1)]%Q 0%nat)).
  - done.
  - repeat constructor.
Defined.

Lemma GP_incumbent_is_the_best_observation_witness :
  let m : @GP.GPRegression Demo.libraries :=
    @GP.mk_model Demo.libraries [[0; 0]; [1; 1]]%Q [1; 2]%Q None tt in
  exists i y0,
    GP.model_X m !! i = Some [1; 1]%Q /\ GP.model_Y m !! i = Some y0.
Proof.
  intros m.
  destruct (proj2 (@GP_incumbent_is_the_best_observation Demo.libraries
                     (Demo.gp "osprey" 1) m eq_refl) [1; 1]%Q 2%Q 0%Q)
    as (i & y0 & Hx & Hy & _).
  - vm_compute. reflexivity.
  - exists i, y0. split; [exact Hx|exact Hy].
Defined.

(** ** The worker: what a trial records *)

Section TrialRecord.
Import execute_worker.

Lemma resolve_lookup (estimator : gmap string param) (p resolved : params) (k : string) :
  resolve estimator p = Return resolved ->
  resolved !! k
  = match p !! k with
    | Some v => Some v
    | None => estimator !! k ≫= plain
    end.
Proof.
  unfold resolve. destruct (bool_decide _); [|done]. intros [= <-].
  rewrite lookup_omap. destruct (p !! k) as [v|] eqn:Hk.
  - by rewrite (lookup_union_Some_l _ _ _ (Plain v)) by (by rewrite lookup_fmap, Hk).
  - rewrite lookup_union_r by (by rewrite lookup_fmap, Hk).
    by destruct (estimator !! k).
Qed.

(** [run_single_trial], whatever happens in the [try] block.  When
    [set_params] refuses a name, no trial is created and the session is
    as before.  Otherwise one trial is appended to the session, the
    earlier trials untouched; it holds the suggested values as given
    and, for the other parameters, the values of the estimator without
    the sub-estimators (when no suggested name is that of a
    sub-estimator); [completed] and [elapsed] are set.  A SUCCEEDED
    trial has its scores and no traceback; a trial has a traceback
    exactly after an [Exception]; a statement that raises after the
    scores were assigned leaves them in the trial, and the fit that
    raises leaves none.  The call never returns PENDING: it returns
    SUCCEEDED exactly when the block completes, and FAILED exactly after
    an [Exception]. *)
Theorem run_single_trial_keeps_the_record_consistent
    (estimator : gmap string param) (p : params)
    (sha hostname username : string) (session : Session)
    (now_started now_completed : Z) (mean : Q) (cv : list Q) (ev : event) :
  let r := run_single_trial estimator p sha hostname username session
             now_started now_completed mean cv ev in
  (~ dom p ⊆ dom estimator ->
     r.1.2 = None /\ r.2 = session /\ exists text, r.1.1 = Leaves (Exception_ text))
  /\ (dom p ⊆ dom estimator ->
      exists t,
        r.1.2 = Some t /\ r.2 = session ++ [t]
        /\ (forall k v, p !! k = Some v -> parameters t !! k = Some v)
        /\ ((forall k, k ∈ dom p -> estimator !! k <> Some BaseEstimator) ->
            forall k, p !! k = None -> parameters t !! k = estimator !! k ≫= plain)
        /\ completed t = Some now_completed
        /\ elapsed t = Some (now_completed - now_started)
        /\ (status t = SUCCEEDED ->
              mean_cv_score t = Some mean /\ cv_scores t = Some cv
              /\ traceback t = None)
        /\ (traceback t <> None <-> exists s text, ev = Raises s (Exception_ text))
        /\ (forall s x, ev = Raises s x -> s ∈ [query_best_so_far; print_success] ->
              mean_cv_score t = Some mean /\ cv_scores t = Some cv)
        /\ (forall x, ev = Raises fit_grid x ->
              mean_cv_score t = None /\ cv_scores t = None)
        /\ (forall s, r.1.1 = Returns s ->
              s = status t /\ s <> PENDING
              /\ (s = SUCCEEDED <-> ev = Completes)
              /\ (s = FAILED <-> exists at_ text, ev = Raises at_ (Exception_ text)))).
Proof.
  intros r. subst r. unfold run_single_trial. split.
  - intros Hno. unfold resolve. rewrite bool_decide_eq_false_2 by done. simpl. eauto.
  - intros Hyes. destruct (resolve estimator p) as [resolved|] eqn:Hres.
    2: { unfold resolve in Hres. by rewrite bool_decide_eq_true_2 in Hres. }
    assert (forall k v, p !! k = Some v -> resolved !! k = Some v) as Hgiven.
    { intros k v Hk. by rewrite (resolve_lookup _ _ _ k Hres), Hk. }
    assert (forall k, p !! k = None -> resolved !! k = estimator !! k ≫= plain)
      as Hdefault.
    { intros k Hk. by rewrite (resolve_lookup _ _ _ k Hres), Hk. }
    destruct ev as [|s x]; [|destruct x as [text| |code|]; destruct s].
    all: eexists; cbn; rewrite insert_last.
    all: (split; [reflexivity|]); (split; [reflexivity|]); cbn.
    all: repeat split; try done; eauto.
    all: try (intros; simplify_eq; done).
    all: try (by intros (? & ? & ?)).
    all: simplify_eq.
    all: match goal with
         | H : _ ∈ _ |- _ => apply list_elem_of_In in H; simpl in H; intuition discriminate
         end.
Qed.
End TrialRecord.

Lemma run_single_trial_keeps_the_record_consistent_witness :
  let estimator : gmap string execute_worker.param :=
    {[ "C" := execute_worker.Plain (VFloat 1); "base" := execute_worker.BaseEstimator ]} in
  let p : params := {[ "C" := VFloat 2 ]} in
  exists t,
    (execute_worker.run_single_trial estimator p "sha" "host" "user" [] 10 25 (1 # 2) [1 # 2]%Q
       (execute_worker.Raises execute_worker.print_success
          (execute_worker.Exception_ "TypeError"))).1.2 = Some t
    /\ execute_worker.parameters t !! "C" = Some (VFloat 2)
    /\ execute_worker.mean_cv_score t = Some (1 # 2)%Q.
Proof.
  intros estimator p.
  destruct (proj2 (run_single_trial_keeps_the_record_consistent estimator p
                     "sha" "host" "user" [] 10 25 (1 # 2) [1 # 2]%Q
                     (execute_worker.Raises execute_worker.print_success
                        (execute_worker.Exception_ "TypeError"))))
    as (t & Ht & _ & Hgiven & _ & _ & _ & _ & _ & Hscores & _).
  - apply (bool_decide_unpack _). vm_compute. exact I.
  - exists t. split; [exact Ht|]. split.
    + apply Hgiven. vm_compute. reflexivity.
    + refine (proj1 (Hscores _ _ eq_refl _)). apply list_elem_of_In. simpl. tauto.
Defined.

(** ** The worker loop *)

Section WorkerLoop.
Context {libs : Libraries}.
Import execute_worker worker.

(** The status that a trial shows in the list of the statuses. *)
#[local] Abbreviation shown := (fun t : Trial => Some (status t)).

Lemma run_single_trial_cases (estimator : gmap string param) (p : params)
    (sha hostname username : string) (session : Session)
    (started_ completed_ : Z) (mean_ : Q) (cv_ : list Q) (ev_ : event) :
  let r := run_single_trial estimator p sha hostname username session
             started_ completed_ mean_ cv_ ev_ in
  (r.2 = session /\ exists x, r.1.1 = Leaves x)
  \/ exists t, r.2 = session ++ [t]
       /\ forall s, r.1.1 = Returns s ->
            s = status t /\ (s = SUCCEEDED \/ s = FAILED).
Proof.
  intros r. subst r. unfold run_single_trial.
  destruct (resolve estimator p) as [resolved|]; [|left; simpl; eauto].
  right. destruct ev_ as [|s x]; [|destruct x as [text| |code|]; destruct s].
  all: eexists; cbn; rewrite insert_last; (split; [reflexivity|]).
  all: intros s' [= <-]; auto.
Qed.

Lemma n_successes_app (a b : list (option string)) :
  n_successes (a ++ b) = (n_successes a + n_successes b)%nat.
Proof. unfold n_successes. by rewrite fmap_app, sum_list_with_app. Qed.

Lemma n_successes_none (n : nat) : n_successes (replicate n None) = 0%nat.
Proof. induction n as [|n IH]; [done|]. exact IH. Qed.

Lemma n_successes_shown (trials : list Trial) :
  n_successes (shown <$> trials)
  = length (filter (fun t => status t = SUCCEEDED) trials).
Proof.
  induction trials as [|t rest IH]; [done|]. unfold n_successes in *. csimpl.
  rewrite IH. destruct (decide (status t = SUCCEEDED)) as [Hs|Hs].
  - rewrite filter_cons_True by done. rewrite bool_decide_eq_true_2 by congruence. done.
  - rewrite filter_cons_False by done.
    rewrite bool_decide_eq_false_2 by (intros [= ?]; done). done.
Qed.

Lemma iterations_spec (estimator : gmap string param) (searchspace : SearchSpace.t)
    (sha hostname username : string) (environment : nat -> reading) (todo : nat) :
  forall (st : strategy) (session : Session) (global : rng)
         (done_ : list (option string)),
    let r := iterations estimator searchspace sha hostname username environment
               todo (length done_) st session global
               (done_ ++ replicate todo None) in
    exists (k : nat) (trials : list Trial),
      r.1.1.2 = session ++ trials
      /\ r.2 = done_ ++ (shown <$> take k trials) ++ replicate (todo - k) None
      /\ Forall (fun t => status t = SUCCEEDED \/ status t = FAILED) (take k trials)
      /\ (r.1.1.1.1 = None -> k = todo /\ length trials = todo)
      /\ (r.1.1.1.1 <> None ->
            (k < todo)%nat /\ (k <= length trials <= k + 1)%nat).
Proof.
  induction todo as [|todo IH]; intros st session global done_; simpl.
  - exists 0%nat, []. simpl. rewrite !app_nil_r. repeat split; try done; try lia; try constructor.
  - destruct (suggest st (history_of session) searchspace global)
      as [[[p|e] st'] global'].
    2: { exists 0%nat, []. simpl. rewrite app_nil_r.
         repeat split; try done; try lia; try constructor. }
    destruct (negb (size p =? SearchSpace.n_dims searchspace)%nat).
    { exists 0%nat, []. simpl. rewrite app_nil_r.
      repeat split; try done; try lia; try constructor. }
    pose proof (run_single_trial_cases estimator p sha hostname username session
                  (now_started (environment (length done_)))
                  (now_completed (environment (length done_)))
                  (mean (environment (length done_)))
                  (cv (environment (length done_)))
                  (ev (environment (length done_)))) as Hcases.
    simpl in Hcases.
    destruct (run_single_trial _ _ _ _ _ _ _ _ _ _ _) as [[how created] session'].
    simpl in Hcases. destruct Hcases as [[-> [x ->]]|[t [-> Hret]]].
    { exists 0%nat, []. simpl. rewrite app_nil_r.
      repeat split; try done; try lia; try constructor. }
    destruct how as [s|x].
    + destruct (Hret s eq_refl) as [-> Hst].
      replace (<[length done_ := Some (status t)]> (done_ ++ None :: replicate todo None))
        with ((done_ ++ [Some (status t)]) ++ replicate todo None).
      2: { rewrite insert_app_r_alt by lia. rewrite Nat.sub_diag. simpl.
           by rewrite <- app_assoc. }
      replace (S (length done_)) with (length (done_ ++ [Some (status t)]))
        by (rewrite length_app; simpl; lia).
      destruct (IH st' (session ++ [t]) global' (done_ ++ [Some (status t)]))
        as (k & trials & Hsession & Hstatuses & Hall & Hnone & Hsome).
      exists (S k), (t :: trials). simpl.
      split; [by rewrite Hsession, <- app_assoc|].
      split; [by rewrite Hstatuses, <- app_assoc|].
      split; [by constructor|].
      split.
      * intros Hn. destruct (Hnone Hn) as [-> Hlen]. by rewrite Hlen.
      * intros Hn. destruct (Hsome Hn) as [? ?]. lia.
    + exists 0%nat, [t]. simpl. repeat split; try done; try lia; try constructor.
Qed.

(** The loop of [execute].  Every iteration that is reached appends at
    most one trial to the session, after the trials that were there,
    and the strategy is asked with the history of all of them.  When
    the loop runs to its end it has added one trial per iteration, each
    one SUCCEEDED or FAILED, the statuses are those of the trials in
    order, and the footer counts the SUCCEEDED ones out of [n_iters].
    When an error of [suggest], the assertion on the number of
    parameters or an exception that leaves [run_single_trial] ends the
    loop at an iteration [k], the statuses of the [k] earlier trials are
    set, the others are [None], and the session holds these [k] trials
    and at most the one of the iteration that was left. *)
Theorem execute_records_one_trial_per_iteration
    (n_iters : Z) (estimator : gmap string param) (searchspace : SearchSpace.t)
    (sha hostname username : string) (environment : nat -> reading)
    (st : strategy) (session : Session) (global : rng) :
  let r := execute n_iters estimator searchspace sha hostname username
             environment st session global in
  let n := Z.to_nat n_iters in
  exists (k : nat) (trials : list Trial),
    r.1.1.2 = session ++ trials
    /\ r.2 = (shown <$> take k trials) ++ replicate (n - k) None
    /\ Forall (fun t => status t = SUCCEEDED \/ status t = FAILED) (take k trials)
    /\ print_footer r.2
       = (length (filter (fun t => status t = SUCCEEDED) (take k trials)), n)
    /\ (r.1.1.1.1 = None -> k = n /\ length trials = n)
    /\ (r.1.1.1.1 <> None -> (k < n)%nat /\ (k <= length trials <= k + 1)%nat).
Proof.
  intros r n. subst r n. unfold execute.
  destruct (iterations_spec estimator searchspace sha hostname username environment
              (Z.to_nat n_iters) st session global [])
    as (k & trials & Hsession & Hstatuses & Hall & Hnone & Hsome).
  simpl in *. exists k, trials.
  split; [done|]. split; [done|]. split; [done|]. split; [|done].
  rewrite Hstatuses. unfold print_footer.
  rewrite n_successes_app, n_successes_none, n_successes_shown, Nat.add_0_r.
  f_equal. rewrite length_app, length_fmap, length_replicate, length_take.
  assert ((k <= Z.to_nat n_iters)%nat /\ (k <= length trials)%nat) as [Hkn Hkt].
  { match type of Hnone with
    | ?stopped = None -> _ => destruct stopped as [x|]
    end.
    - destruct Hsome as [? ?]; [done|]. lia.
    - destruct Hnone as [? ?]; [done|]. lia. }
  lia.
Qed.
End WorkerLoop.

Lemma execute_records_one_trial_per_iteration_witness :
  let estimator : gmap string execute_worker.param :=
    {[ "x" := execute_worker.Plain (VStr "z") ]} in
  let environment (i : nat) :=
    worker.mk_reading 10 25 (1 # 2) [1 # 2]%Q
      (match i with
       | O => execute_worker.Completes
       | S _ => execute_worker.Raises execute_worker.fit_grid
                  (execute_worker.Exception_ "ValueError")
       end) in
  let r := @worker.execute Demo.libraries 2 estimator space1 "sha" "host" "user"
             environment (@Random Demo.libraries (RandomSearch.__init__ None)) []
             0%nat in
  exists (k : nat) (trials : list execute_worker.Trial),
    r.1.1.2 = trials /\ length trials = 2%nat
    /\ worker.print_footer r.2
       = (length (filter (fun t => execute_worker.status t = SUCCEEDED) (take k trials)),
          2%nat).
Proof.
  intros estimator environment r.
  destruct (@execute_records_one_trial_per_iteration Demo.libraries 2 estimator space1
              "sha" "host" "user" environment
              (@Random Demo.libraries (RandomSearch.__init__ None)) [] 0%nat)
    as (k & trials & Hsession & _ & _ & Hfooter & Hnone & _).
  exists k, trials. split; [exact Hsession|]. split; [|exact Hfooter].
  apply Hnone. vm_compute. reflexivity.
Defined.

(** ** The worker loop with a grid search *)

Section GridWorker.
Context {libs : Libraries}.
Import execute_worker worker.

Lemma run_single_trial_goes_on (estimator : gmap string param) (p : params)
    (sha hostname username : string) (session : Session)
    (started_ completed_ : Z) (mean_ : Q) (cv_ : list Q) (ev_ : event) :
  dom p ⊆ dom estimator ->
  goes_on ev_ ->
  exists t s,
    run_single_trial estimator p sha hostname username session
      started_ completed_ mean_ cv_ ev_
    = (Returns s, Some t, session ++ [t])
    /\ forall k v, p !! k = Some v -> parameters t !! k = Some v.
Proof.
  intros Hdom Hev. unfold run_single_trial.
  destruct (resolve estimator p) as [resolved|] eqn:Hres.
  2: { unfold resolve in Hres. by rewrite bool_decide_eq_true_2 in Hres. }
  assert (forall k v, p !! k = Some v -> resolved !! k = Some v) as Hgiven.
  { intros k v Hk. by rewrite (resolve_lookup _ _ _ k Hres), Hk. }
  destruct ev_ as [|s x]; [|destruct x as [text| |code|]; try done; destruct s].
  all: eexists _, _; cbn; rewrite insert_last; split; [reflexivity|exact Hgiven].
Qed.

Lemma Grid_suggest_step (self : GridSearch.t) (h : history)
    (searchspace : SearchSpace.t) :
  forallb is_EnumVariable searchspace = true ->
  ParameterGrid.len (GridSearch.grid searchspace) <> 0%nat ->
  GridSearch.param_grid self = None
  \/ GridSearch.param_grid self = Some (GridSearch.grid searchspace) ->
  GridSearch.suggest self h searchspace
  = (ParameterGrid.getitem (GridSearch.grid searchspace)
       (Z.to_nat ((GridSearch.current self + 1)
                  mod Z.of_nat (ParameterGrid.len (GridSearch.grid searchspace)))),
     {| GridSearch.param_grid := Some (GridSearch.grid searchspace);
        GridSearch.current := GridSearch.current self + 1 |}).
Proof.
  intros He Hlen Hpg. unfold GridSearch.suggest, GridSearch.grid_of.
  destruct Hpg as [-> | ->]; [rewrite He|]; simpl.
  all: destruct (Z.eqb_spec (Z.of_nat (ParameterGrid.len (GridSearch.grid searchspace))) 0);
    [lia|done].
Qed.

Lemma iterations_grid (estimator : gmap string param) (searchspace : SearchSpace.t)
    (sha hostname username : string) (environment : nat -> reading) :
  forallb is_EnumVariable searchspace = true ->
  SearchSpace.valid searchspace ->
  ParameterGrid.len (GridSearch.grid searchspace) <> 0%nat ->
  list_to_set (SearchSpace.names searchspace) ⊆ dom estimator ->
  forall (todo i : nat) (self : GridSearch.t) (session : Session) (global : rng)
         (statuses : list (option string)),
    (forall j, (i <= j < i + todo)%nat -> goes_on (ev (environment j))) ->
    GridSearch.param_grid self = None
    \/ GridSearch.param_grid self = Some (GridSearch.grid searchspace) ->
    -1 <= GridSearch.current self ->
    let r := iterations estimator searchspace sha hostname username environment
               todo i (Grid self) session global statuses in
    r.1.1.1.1 = None
    /\ exists trials,
         r.1.1.2 = session ++ trials /\ length trials = todo
         /\ forall j t, trials !! j = Some t ->
              exists p,
                ParameterGrid.getitem (GridSearch.grid searchspace)
                  ((Z.to_nat (GridSearch.current self + 1) + j)
                   mod ParameterGrid.len (GridSearch.grid searchspace))%nat
                = Return p
                /\ forall k v, p !! k = Some v -> parameters t !! k = Some v.
Proof.
  intros He Hv Hlen Hnames. set (g := GridSearch.grid searchspace) in *.
  induction todo as [|todo IH]; intros i self session global statuses Hev Hpg Hc; simpl.
  - split; [done|]. exists []. rewrite app_nil_r. repeat split; try done.
  - rewrite (Grid_suggest_step self _ searchspace He Hlen Hpg). fold g.
    assert (Z.to_nat ((GridSearch.current self + 1) mod Z.of_nat (ParameterGrid.len g))
            = (Z.to_nat (GridSearch.current self + 1) mod ParameterGrid.len g)%nat)
      as Hidx.
    { rewrite Z2Nat.inj_mod by lia. by rewrite Nat2Z.id. }
    rewrite Hidx.
    destruct (getitem_iter g (Z.to_nat (GridSearch.current self + 1)
                              mod ParameterGrid.len g)%nat)
      as (p & _ & Hget).
    { by apply Nat.mod_upper_bound. }
    rewrite Hget.
    assert (dom p = list_to_set (SearchSpace.names searchspace)) as Hdom.
    { rewrite (getitem_dom _ _ _ Hget). apply grid_dom. }
    rewrite (size_of_names _ _ Hdom Hv), Nat.eqb_refl. simpl.
    destruct (run_single_trial_goes_on estimator p sha hostname username session
                (now_started (environment i)) (now_completed (environment i))
                (mean (environment i)) (cv (environment i)) (ev (environment i)))
      as (t & s & Hrun & Hgiven).
    { by rewrite Hdom. }
    { apply Hev. lia. }
    rewrite Hrun.
    destruct (IH (S i)
                {| GridSearch.param_grid := Some g;
                   GridSearch.current := GridSearch.current self + 1 |}
                (session ++ [t]) global (<[i := Some s]> statuses))
      as (Hnone & trials & Hsession & Hlength & Hgrid).
    { intros j Hj. apply Hev. lia. }
    { by right. }
    { simpl. lia. }
    split; [exact Hnone|]. exists (t :: trials).
    split; [by rewrite Hsession, <- app_assoc|]. split; [by simpl; rewrite Hlength|].
    intros [|j] t' Ht; simpl in Ht.
    + injection Ht as <-. exists p. rewrite Nat.add_0_r. by split.
    + destruct (Hgrid j t' Ht) as (q & Hq & Hgivenq). exists q. split; [|done].
      simpl in Hq. rewrite <- Hq. f_equal. f_equal. lia.
Qed.

(** A worker with a new [GridSearch], on an all-categorical search
    space with unique names whose variables are parameters of the
    estimator, when every evaluation completes or raises an
    [Exception]: the loop runs to its end, and the trial of the
    iteration [j] holds the element [j mod G] of the grid, for the [G]
    elements of the grid.  With [G] iterations or more, every
    combination of the grid has its trial. *)
Theorem execute_with_GridSearch_tries_the_grid_in_order
    (n_iters : Z) (estimator : gmap string param) (searchspace : SearchSpace.t)
    (sha hostname username : string) (environment : nat -> reading)
    (session : Session) (global : rng) :
  forallb is_EnumVariable searchspace = true ->
  SearchSpace.valid searchspace ->
  ParameterGrid.len (GridSearch.grid searchspace) <> 0%nat ->
  list_to_set (SearchSpace.names searchspace) ⊆ dom estimator ->
  (forall j, (j < Z.to_nat n_iters)%nat -> goes_on (ev (environment j))) ->
  let r := execute n_iters estimator searchspace sha hostname username
             environment (Grid GridSearch.__init__) session global in
  let G := ParameterGrid.len (GridSearch.grid searchspace) in
  r.1.1.1.1 = None
  /\ exists trials,
       r.1.1.2 = session ++ trials /\ length trials = Z.to_nat n_iters
       /\ (forall j t, trials !! j = Some t ->
             exists p,
               ParameterGrid.getitem (GridSearch.grid searchspace) (j mod G)%nat
               = Return p
               /\ forall k v, p !! k = Some v -> parameters t !! k = Some v)
       /\ ((G <= Z.to_nat n_iters)%nat ->
             forall p, p ∈ ParameterGrid.iter (GridSearch.grid searchspace) ->
               exists t, t ∈ trials
                 /\ forall k v, p !! k = Some v -> parameters t !! k = Some v).
Proof.
  intros He Hv Hlen Hnames Hev r G. subst r G. unfold execute.
  destruct (iterations_grid estimator searchspace sha hostname username environment
              He Hv Hlen Hnames (Z.to_nat n_iters) 0 GridSearch.__init__ session
              global (replicate (Z.to_nat n_iters) None))
    as (Hnone & trials & Hsession & Hlength & Hgrid).
  { intros j Hj. apply Hev. lia. }
  { by left. }
  { simpl. lia. }
  split; [exact Hnone|]. exists trials.
  split; [exact Hsession|]. split; [exact Hlength|]. split.
  - intros j t Ht. exact (Hgrid j t Ht).
  - intros HG p Hp. apply list_elem_of_lookup in Hp as [j Hj].
    assert (j < ParameterGrid.len (GridSearch.grid searchspace))%nat as Hjlen.
    { apply lookup_lt_Some in Hj. by rewrite length_iter in Hj. }
    destruct (lookup_lt_is_Some_2 trials j) as [t Ht]; [lia|].
    exists t. split; [by eapply list_elem_of_lookup_2|].
    destruct (Hgrid j t Ht) as (q & Hq & Hgiven).
    simpl in Hq. rewrite Nat.mod_small in Hq by done.
    destruct (getitem_iter (GridSearch.grid searchspace) j Hjlen) as (q' & Hq' & Hget).
    rewrite Hget in Hq. injection Hq as <-. rewrite Hj in Hq'. by injection Hq' as ->.
Qed.
End GridWorker.

Lemma execute_with_GridSearch_tries_the_grid_in_order_witness :
  let estimator : gmap string execute_worker.param :=
    {[ "a" := execute_worker.Plain (VInt 0); "b" := execute_worker.Plain (VStr "w");
       "base" := execute_worker.BaseEstimator ]} in
  let environment (i : nat) :=
    worker.mk_reading 10 25 (1 # 2) [1 # 2]%Q execute_worker.Completes in
  let r := @worker.execute Demo.libraries 6 estimator space23 "sha" "host" "user"
             environment (@Grid Demo.libraries GridSearch.__init__) [] 0%nat in
  r.1.1.1.1 = None
  /\ exists trials, r.1.1.2 = trials /\ length trials = 6%nat.
Proof.
  intros estimator environment r.
  destruct (@execute_with_GridSearch_tries_the_grid_in_order Demo.libraries 6 estimator
              space23 "sha" "host" "user" environment [] 0%nat)
    as (Hnone & trials & Hsession & Hlength & _).
  - reflexivity.
  - apply (bool_decide_unpack _). vm_compute. exact I.
  - vm_compute. discriminate.
  - apply (bool_decide_unpack _). vm_compute. exact I.
  - intros j _. exact I.
  - split; [exact Hnone|]. exists trials. split; [exact Hsession|exact Hlength].
Defined.

(** ** The running best of the plots *)

Section RunningBest.
Import plot.

Lemma enumerate_snoc (l : list row) (a : row) :
  zip (seq 0 (length (l ++ [a]))) (l ++ [a])
  = zip (seq 0 (length l)) l ++ [(length l, a)].
Proof.
  rewrite length_app. simpl. rewrite seq_app. simpl.
  rewrite zip_with_app by (by rewrite length_seq). done.
Qed.

Lemma running_best_invariant (first : row) (tail : list row) :
  running_records (first :: tail)
    (fold_left running_best (zip (seq 0 (length (first :: tail))) (first :: tail))
       ([first.1], [first.2], [0%nat])).
Proof.
  induction tail as [|r tail IH] using rev_ind.
  - destruct first as [id0 s0]. simpl. unfold running_best. simpl.
    assert (Qle_bool s0 s0 = true) as -> by (apply Qle_bool_iff, Qle_refl).
    simpl. split; [done|]. split; [done|]. split; [by repeat constructor|].
    split; [|split].
    + intros i. rewrite list_elem_of_singleton. split.
      * intros ->. split; [lia|]. intros j sj si Hj. lia.
      * intros [Hi _]. lia.
    + intros n a b Ha Hb. by destruct n.
    + exists s0. split; [done|]. split; [by apply list_elem_of_here|].
      constructor; [apply Qle_refl|constructor].
  - change (first :: tail ++ [r]) with ((first :: tail) ++ [r]).
    rewrite enumerate_snoc, fold_left_app.
    set (pre := first :: tail) in *.
    destruct (fold_left running_best (zip (seq 0 (length pre)) pre)
                ([first.1], [first.2], [0%nat])) as [[x y] kept].
    clearbody pre. unfold running_records in IH.
    destruct IH as (Hx & Hy & Hrows & Hkept & Hinc & m & Hlast & Hin & Hmax).
    destruct r as [id s]. simpl. unfold running_best. rewrite Hlast. simpl.
    assert (forall i, i ∈ kept -> (i < length pre)%nat) as Hold.
    { intros i Hi. by apply Hkept in Hi as [? _]. }
    assert (forall i, (i < length pre)%nat ->
              (pre ++ [(id, s)]).*2 !! i = pre.*2 !! i) as Hsame.
    { intros i Hi. rewrite fmap_app. apply lookup_app_l. by rewrite length_fmap. }
    assert ((pre ++ [(id, s)]).*2 !! length pre = Some s) as Hnew.
    { rewrite fmap_app. rewrite lookup_app_r by (by rewrite length_fmap).
      by rewrite length_fmap, Nat.sub_diag. }
    assert (Forall2 (fun (i : nat) (xy : row) => (pre ++ [(id, s)]) !! i = Some xy)
              kept (zip x y)) as Hrows'.
    { eapply Forall2_impl; [exact Hrows|]. intros i xy Hi. simpl in Hi.
      by apply lookup_app_l_Some. }
    destruct (Qle_bool s m) eqn:Hle; simpl.
    + apply Qle_bool_iff in Hle.
      split; [done|]. split; [done|]. split; [done|]. split; [|split].
      * intros i. split.
        -- intros Hi. pose proof (Hold i Hi) as Hlt. split; [rewrite length_app; lia|].
           intros j sj si Hj Hsj Hsi. rewrite Hsame in Hsj, Hsi by lia.
           apply Hkept in Hi as [_ Hrec]. by apply (Hrec j).
        -- intros [Hi Hrec]. rewrite length_app in Hi. simpl in Hi.
           destruct (decide (i = length pre)) as [->|Hne].
           ++ apply list_elem_of_lookup in Hin as [j Hj].
              pose proof (lookup_lt_Some _ _ _ Hj) as Hjlt. rewrite length_fmap in Hjlt.
              specialize (Hrec j m s Hjlt). rewrite Hsame in Hrec by done.
              specialize (Hrec Hj Hnew). by apply Qle_not_lt in Hle.
           ++ apply Hkept. split; [lia|]. intros j sj si Hj Hsj Hsi.
              apply (Hrec j); [done| |]; by rewrite Hsame by lia.
      * done.
      * exists m. split; [done|]. rewrite fmap_app. split; [by apply elem_of_app; left|].
        apply Forall_app. split; [done|]. by repeat constructor.
    + assert (m < s)%Q as Hlt.
      { apply Qnot_le_lt. intros Hsm. apply Qle_bool_iff in Hsm. congruence. }
      split; [by rewrite !length_app, Hx|]. split; [by rewrite !length_app, Hy|].
      split; [|split; [|split]].
      * rewrite zip_with_app by lia. apply Forall2_app; [done|].
        constructor; [|constructor]. by rewrite lookup_app_r, Nat.sub_diag.
      * intros i. rewrite elem_of_app, list_elem_of_singleton. split.
        -- intros [Hi | ->].
           ++ pose proof (Hold i Hi) as Hilt. split; [rewrite length_app; lia|].
              intros j sj si Hj Hsj Hsi. rewrite Hsame in Hsj, Hsi by lia.
              apply Hkept in Hi as [_ Hrec]. by apply (Hrec j).
           ++ split; [rewrite length_app; simpl; lia|].
              intros j sj si Hj Hsj Hsi. rewrite Hsame in Hsj by done.
              assert (Some si = Some s) as [= ->] by (rewrite <- Hsi; exact Hnew).
              apply Qle_lt_trans with m; [|done].
              apply (proj1 (Forall_forall _ _) Hmax sj).
              by eapply list_elem_of_lookup_2.
        -- intros [Hi Hrec]. rewrite length_app in Hi. simpl in Hi.
           destruct (decide (i = length pre)) as [->|Hne]; [by right|left].
           apply Hkept. split; [lia|]. intros j sj si Hj Hsj Hsi.
           apply (Hrec j); [done| |]; by rewrite Hsame by lia.
      * intros n a b Ha Hb.
        destruct (decide (S n < length y)%nat) as [Hn|Hn].
        -- rewrite lookup_app_l in Ha by lia. rewrite lookup_app_l in Hb by lia.
           by apply (Hinc n).
        -- assert (S n = length y) as Hlen.
           { apply lookup_lt_Some in Hb. rewrite length_app in Hb. simpl in Hb. lia. }
           rewrite lookup_app_l in Ha by lia.
           rewrite lookup_app_r, <- Hlen, Nat.sub_diag in Hb by lia.
           injection Hb as <-.
           rewrite last_lookup in Hlast. rewrite <- Hlen in Hlast. simpl in Hlast.
           rewrite Ha in Hlast. by injection Hlast as ->.
      * exists s. split; [by rewrite last_snoc|]. rewrite fmap_app.
        split; [apply elem_of_app; right; by apply list_elem_of_here|].
        apply Forall_app. split.
        -- eapply Forall_impl; [exact Hmax|]. intros z Hz. simpl in Hz.
           apply Qlt_le_weak. by apply Qle_lt_trans with m.
        -- constructor; [apply Qle_refl|constructor].
Qed.

(** [plot_2] keeps the records of the score: a row is among the points
    of the running best exactly when its score is greater than the
    score of every earlier row (the first row always is); the points
    are these rows in order, with [x] their [id] and [y] their score;
    [y] increases strictly, and ends with the greatest score of the
    data.  Without data the assertion of [nonconstant_parameters]
    fails. *)
Theorem plot_2_keeps_the_records_of_the_score (data : list row) :
  (data = [] -> plot_2 data = Raise AssertionError)
  /\ (data <> [] ->
      exists x y kept,
        plot_2 data = Return (x, y, kept)
        /\ length x = length kept /\ length y = length kept
        /\ Forall2 (fun (i : nat) (xy : row) => data !! i = Some xy) kept (zip x y)
        /\ (forall i : nat, i ∈ kept <->
              (i < length data)%nat
              /\ forall (j : nat) (sj si : Q), (j < i)%nat ->
                   data.*2 !! j = Some sj -> data.*2 !! i = Some si -> (sj < si)%Q)
        /\ (forall (n : nat) (a b : Q),
              y !! n = Some a -> y !! S n = Some b -> (a < b)%Q)
        /\ exists m : Q,
             last y = Some m /\ m ∈ data.*2 /\ Forall (fun s => (s <= m)%Q) data.*2).
Proof.
  split; [by intros ->|]. intros Hne.
  destruct data as [|first tail]; [done|].
  pose proof (running_best_invariant first tail) as Hinv.
  unfold plot_2.
  destruct (fold_left running_best _ _) as [[x y] kept].
  exists x, y, kept. split; [done|]. exact Hinv.
Qed.
End RunningBest.

Lemma plot_2_keeps_the_records_of_the_score_witness :
  exists x y kept,
    plot.plot_2 [(1, (-3 # 1)%Q); (2, (-1 # 1)%Q); (3, (-2 # 1)%Q); (4, (5 # 1)%Q)] = Return (x, y, kept)
    /\ length x = length kept.
Proof.
  destruct (proj2 (plot_2_keeps_the_records_of_the_score
                     [(1, (-3 # 1)%Q); (2, (-1 # 1)%Q); (3, (-2 # 1)%Q); (4, (5 # 1)%Q)]))
    as (x & y & kept & Hplot & Hx & _).
  - done.
  - exists x, y, kept. split; [exact Hplot|exact Hx].
Defined.
